(** * jscrambler-cli: the remote job orchestration pipeline of [src/index.js]

    A shallow embedding of [packages/jscrambler-cli/src/index.js]: the
    workflows [protectAndDownload], [instrumentAndDownload],
    [setProfilingState] and [downloadSourceMaps], the two polling loops,
    [updateApplicationSources] and the helpers they call, followed by the
    properties of the orchestration that the specification states (C1 to
    C10) and by further properties read off the code (X1 to X27).

    The module talks to the outside through its collaborators only (the
    transport [client.get/post/patch], the archive codec, [glob], [fs], the
    introspection helpers), prints on the console and sleeps.  A run is
    therefore modelled as a function of the answers the collaborators give,
    in the order the calls are made, and it yields the list of the effects
    it performed together with the way it ended. *)

From Stdlib Require Import String Ascii List ZArith Lia Bool Arith.
From Stdlib Require Strings.Byte DecimalString.
Import ListNotations.
Local Open Scope string_scope.
Local Open Scope list_scope.

Set Implicit Arguments.
Set Warnings "-register-all".

(* ================================================================== *)
(** ** JavaScript values *)
(* ================================================================== *)

(** The values that flow through the module: configuration options, JSON
    answers of the service, and the objects the module builds.  Numbers are
    the integral ones (status codes, lengths); objects keep their own
    properties in insertion order.  [JArchive] is the handle returned by the
    archive codec, identified with the bytes its [generate] yields. *)
Inductive JSVal : Type :=
| JUndefined
| JNull
| JBool (b : bool)
| JNum (n : Z)
| JStr (s : string)
| JArr (items : list JSVal)
| JObj (props : list (string * JSVal))
| JArchive (bytes : list Byte.byte).

Definition Props := list (string * JSVal).

(** [if (v)], [!v], [v && w], [v || w] *)
Definition truthy (v : JSVal) : bool :=
  match v with
  | JUndefined | JNull => false
  | JBool b => b
  | JNum n => negb (Z.eqb n 0)
  | JStr s => negb (String.eqb s EmptyString)
  | JArr _ | JObj _ | JArchive _ => true
  end.

Definition js_and (a b : JSVal) : JSVal := if truthy a then b else a.
Definition js_or (a b : JSVal) : JSVal := if truthy a then a else b.

(** [typeof v !== 'undefined'], [v !== undefined] *)
Definition defined (v : JSVal) : bool :=
  match v with JUndefined => false | _ => true end.

(** [a === b].  Objects, arrays and archives compare by reference: the two
    operands the module compares never share one (one side is a literal or
    a value freshly parsed from an answer), hence [false]. *)
Definition strict_eq (a b : JSVal) : bool :=
  match a, b with
  | JUndefined, JUndefined => true
  | JNull, JNull => true
  | JBool x, JBool y => Bool.eqb x y
  | JNum x, JNum y => Z.eqb x y
  | JStr x, JStr y => String.eqb x y
  | _, _ => false
  end.

(** [v > 0], where the comparison needs no string-to-number conversion. *)
Definition gt_zero (v : JSVal) : option bool :=
  match v with
  | JNum n => Some (Z.ltb 0 n)
  | JBool b => Some b
  | JUndefined | JNull => Some false
  | JStr _ | JArr _ | JObj _ | JArchive _ => None
  end.

(** Own properties. *)
Fixpoint assoc (k : string) (ps : Props) : JSVal :=
  match ps with
  | [] => JUndefined
  | (k', v) :: ps' => if String.eqb k' k then v else assoc k ps'
  end.

(** [o[k] = v]: an existing property keeps its place, a new one goes last. *)
Fixpoint assoc_set (k : string) (v : JSVal) (ps : Props) : Props :=
  match ps with
  | [] => [(k, v)]
  | (k', v') :: ps' =>
      if String.eqb k' k then (k', v) :: ps' else (k', v') :: assoc_set k v ps'
  end.

(** [delete o[k]] *)
Definition assoc_delete (k : string) (ps : Props) : Props :=
  filter (fun p => negb (String.eqb (fst p) k)) ps.

(** [{...a, ...b}] on own properties *)
Definition assoc_spread (a b : Props) : Props :=
  fold_left (fun acc p => assoc_set (fst p) (snd p) acc) b a.

(** Decimal name of an index, as [Object.keys] gives it for arrays. *)
Definition index_name (i : nat) : string :=
  DecimalString.NilZero.string_of_uint (Nat.to_uint i).

Definition chars (s : string) : list JSVal :=
  map (fun c => JStr (String c EmptyString)) (list_ascii_of_string s).

(** The own enumerable properties of a value, what [Object.keys] and object
    spread walk through. *)
Definition own_props (v : JSVal) : Props :=
  match v with
  | JObj ps => ps
  | JArr l => combine (map index_name (seq 0 (length l))) l
  | JStr s => combine (map index_name (seq 0 (String.length s))) (chars s)
  | _ => []
  end.

(** [v.k] on a value that is neither [undefined] nor [null]. *)
Definition field (v : JSVal) (k : string) : JSVal :=
  match v with
  | JObj ps => assoc k ps
  | JArr l => if String.eqb k "length" then JNum (Z.of_nat (length l)) else JUndefined
  | JStr s => if String.eqb k "length" then JNum (Z.of_nat (String.length s)) else JUndefined
  | _ => JUndefined
  end.

Definition nullish (v : JSVal) : bool :=
  match v with JUndefined | JNull => true | _ => false end.

(* ================================================================== *)
(** ** Effects *)
(* ================================================================== *)

(** A template literal is kept as its pieces: literal text and the values
    interpolated into it; [Json v] stands for [JSON.stringify(v, null, 2)].
    The arguments of one [console] call are pieces as well. *)
Inductive Piece : Type :=
| Lit (s : string)
| Val (v : JSVal)
| Json (v : JSVal).

Definition Text := list Piece.

(** Modelled from the spec: the builders of [./mutations] and [./queries]
    are missing from the sources; the specification gives them as "pure,
    synchronous/async string construction", so the document of a request is
    kept as the name of its builder and the arguments it was built from.
    [Plain] is a payload written in the module itself. *)
Inductive Payload : Type :=
| Plain (v : JSVal)
| Document (builder : string) (args : list JSVal).

(** The destination handed to [unzip]: a path or the caller's callback. *)
Inductive Dest : Type :=
| DestValue (v : JSVal)
| DestCallback (name : string).

(** The calls to collaborators: the transport ([client.get], [client.post],
    [client.patch]), [glob.sync], the archive codec of [./zip], the helpers
    of [./introspection] and [./get-protection-default-fragments], and
    [fs.readFileSync].  None of them is part of the sources: each call is
    recorded with its arguments (an argument left out is [undefined]) and
    answered by the outside. *)
Inductive Call : Type :=
| client_get (path : Text) (params : Payload) (json : JSVal)
| client_post (path : Text) (body : Payload)
| client_patch (path : Text) (body : Payload)
| glob_sync (pattern : JSVal)
| zip (files : list JSVal) (cwd : JSVal)
| zipSources (sources : JSVal)
| intoObjectType (data : JSVal) (type : string)
| introspection_mutation (name : string)
| getProtectionDefaultFragments
| fs_readFileSync (path : JSVal)
| unzip (download : JSVal) (dest : Dest) (stream : JSVal).

Inductive Level : Type := log | warn | error.

Inductive Event : Type :=
| Called (c : Call)
| Console (l : Level) (t : Text)
| setTimeout (ms : Z).

(** An answer of a collaborator: the promise resolves (the call returns)
    with a value, or it is rejected (the call throws) with an error object,
    given by its properties ([statusCode], [message], ...). *)
Inductive Answer : Type :=
| Resolve (v : JSVal)
| Reject (e : Props).

(** What can be thrown: an [Error] this module creates, a [TypeError] of the
    language (reading a property of [undefined] or [null], calling what is
    not a function; the argument names the property), or the error object a
    collaborator rejected with. *)
Inductive Exn : Type :=
| Error (message : Text)
| TypeError (property : string)
| Rejected (e : Props).

(** How a run ends.  [Pending]: the run waits for an answer beyond the ones
    observed.  [Unmodelled]: the run reached a conversion of JavaScript this
    development does not give a meaning to. *)
Inductive Outcome (A : Type) : Type :=
| Returned (a : A)
| Thrown (e : Exn)
| Pending
| Unmodelled.

Arguments Thrown {A} e.
Arguments Pending {A}.
Arguments Unmodelled {A}.

#[projections(primitive)]
Record Run (A : Type) : Type := mkRun {
  outcome : Outcome A;
  trace : list Event;
  rest : list Answer
}.

(** A computation: from the answers still to come to a run. *)
Definition M (A : Type) : Type := list Answer -> Run A.

Definition ret {A} (a : A) : M A :=
  fun tape => mkRun (Returned a) [] tape.

Definition throw {A} (e : Exn) : M A :=
  fun tape => mkRun (Thrown e) [] tape.

Definition unmodelled {A} : M A :=
  fun tape => mkRun Unmodelled [] tape.

Definition bind {A B} (m : M A) (f : A -> M B) : M B :=
  fun tape =>
    let r := m tape in
    match outcome r with
    | Returned a =>
        let r' := f a (rest r) in
        mkRun (outcome r') (trace r ++ trace r') (rest r')
    | Thrown e => mkRun (Thrown e) (trace r) (rest r)
    | Pending => mkRun Pending (trace r) (rest r)
    | Unmodelled => mkRun Unmodelled (trace r) (rest r)
    end.

(** [promise.catch(handler)] and [try ... catch] *)
Definition catch {A} (m : M A) (handler : Exn -> M A) : M A :=
  fun tape =>
    let r := m tape in
    match outcome r with
    | Thrown e =>
        let r' := handler e (rest r) in
        mkRun (outcome r') (trace r ++ trace r') (rest r')
    | _ => r
    end.

Definition emit (ev : Event) : M unit :=
  fun tape => mkRun (Returned tt) [ev] tape.

(** A call is recorded when it is made; its answer is the next one. *)
Definition call (c : Call) : M JSVal :=
  fun tape =>
    match tape with
    | [] => mkRun Pending [Called c] []
    | Resolve v :: tape' => mkRun (Returned v) [Called c] tape'
    | Reject e :: tape' => mkRun (Thrown (Rejected e)) [Called c] tape'
    end.

Declare Scope js_scope.
Delimit Scope js_scope with js.
Notation "x <- m ;; k" := (bind m (fun x => k))
  (at level 61, m at next level, right associativity) : js_scope.
Notation "m ;; k" := (bind m (fun _ => k))
  (at level 61, right associativity) : js_scope.
Local Open Scope js_scope.

Definition when (b : bool) (m : M unit) : M unit :=
  if b then m else ret tt.

Definition console (l : Level) (t : Text) : M unit := emit (Console l t).

(** [for ... of], [forEach]: run [f] on each element in turn. *)
Fixpoint for_each {A} (l : list A) (f : A -> M unit) : M unit :=
  match l with
  | [] => ret tt
  | x :: l' => f x ;; for_each l' f
  end.

(** [map] with an effectful callback *)
Fixpoint map_m {A B} (l : list A) (f : A -> M B) : M (list B) :=
  match l with
  | [] => ret []
  | x :: l' => y <- f x ;; ys <- map_m l' f ;; ret (y :: ys)
  end.

(** A loop written as a recursive [async] closure: [body] either asks for
    another round ([None]) or gives the result.  The rounds are bounded by
    the answers that remain to be consumed. *)
Fixpoint iterate {A} (fuel : nat) (body : M (option A)) : M A :=
  fun tape =>
    match fuel with
    | O => mkRun Pending [] tape
    | S fuel' =>
        let r := body tape in
        match outcome r with
        | Returned (Some a) => mkRun (Returned a) (trace r) (rest r)
        | Returned None =>
            let r' := iterate fuel' body (rest r) in
            mkRun (outcome r') (trace r ++ trace r') (rest r')
        | Thrown e => mkRun (Thrown e) (trace r) (rest r)
        | Pending => mkRun Pending (trace r) (rest r)
        | Unmodelled => mkRun Unmodelled (trace r) (rest r)
        end
    end.

Definition loop {A} (body : M (option A)) : M A :=
  fun tape => iterate (S (length tape)) body tape.

(** [v.k]: a [TypeError] on [undefined] and [null]. *)
Definition get (v : JSVal) (k : string) : M JSVal :=
  if nullish v then throw (TypeError k) else ret (field v k).

(** The receiver of [forEach], [map]: an array, or else a [TypeError]
    (no other value of the model has such a method). *)
Definition as_array (v : JSVal) (method : string) : M (list JSVal) :=
  match v with
  | JArr l => ret l
  | _ => throw (TypeError method)
  end.

(** [s.concat(v)] and template literals need the string of a value. *)
Fixpoint to_string (v : JSVal) : string :=
  match v with
  | JUndefined => "undefined"
  | JNull => "null"
  | JBool true => "true"
  | JBool false => "false"
  | JNum n => DecimalString.NilZero.string_of_int (Z.to_int n)
  | JStr s => s
  | JArr l =>
      String.concat "," (map (fun x => if nullish x then EmptyString else to_string x) l)
  | JObj _ | JArchive _ => "[object Object]"
  end.

(** [a.concat(v)] on an array [a]: an array argument is spread. *)
Definition array_concat (a : list JSVal) (v : JSVal) : list JSVal :=
  match v with
  | JArr l => a ++ l
  | _ => a ++ [v]
  end.

Definition is_array (v : JSVal) : bool :=
  match v with JArr _ => true | _ => false end.

Definition is_string (v : JSVal) : bool :=
  match v with JStr _ => true | _ => false end.

(** The bound of [for (let i = 0, l = v.length; i < l; i += 1)]. *)
Definition loop_bound (l : JSVal) : option nat :=
  match l with
  | JNum n => Some (Z.to_nat n)
  | JBool b => Some (if b then 1%nat else 0%nat)
  | JUndefined | JNull => Some 0%nat
  | JStr _ | JArr _ | JObj _ | JArchive _ => None
  end.

(** [v[0], ..., v[v.length - 1]] *)
Definition elements (v : JSVal) : option (list JSVal) :=
  match v with
  | JArr l => Some l
  | JStr s => Some (chars s)
  | JObj ps =>
      option_map (fun n => map (fun i => assoc (index_name i) ps) (seq 0 n))
                 (loop_bound (assoc "length" ps))
  | _ => Some []
  end.

Fixpoint fold_m {A S} (l : list A) (s : S) (f : S -> A -> M S) : M S :=
  match l with
  | [] => ret s
  | x :: l' => s' <- f s x ;; fold_m l' s' f
  end.

(* ================================================================== *)
(** ** Base64, as [Buffer.toString('base64')] *)
(* ================================================================== *)

Definition base64_alphabet : list ascii :=
  list_ascii_of_string
    "ABCDEFGHIJKLMNOPQRSTUVWXYZabcdefghijklmnopqrstuvwxyz0123456789+/".

Definition base64_digit (n : N) : ascii :=
  nth (N.to_nat n) base64_alphabet "="%char.

Fixpoint base64 (bs : list Byte.byte) : string :=
  match bs with
  | [] => EmptyString
  | [a] =>
      let n := Strings.Byte.to_N a in
      String (base64_digit (N.shiftr n 2))
        (String (base64_digit (N.shiftl (N.land n 3) 4)) "==")
  | [a; b] =>
      let n := (Strings.Byte.to_N a * 256 + Strings.Byte.to_N b)%N in
      String (base64_digit (N.shiftr n 10))
        (String (base64_digit (N.land (N.shiftr n 4) 63))
           (String (base64_digit (N.shiftl (N.land n 15) 2)) "="))
  | a :: b :: c :: bs' =>
      let n := (Strings.Byte.to_N a * 65536 + Strings.Byte.to_N b * 256
                + Strings.Byte.to_N c)%N in
      String (base64_digit (N.shiftr n 18))
        (String (base64_digit (N.land (N.shiftr n 12) 63))
           (String (base64_digit (N.land (N.shiftr n 6) 63))
              (String (base64_digit (N.land n 63)) (base64 bs'))))
  end.

(* ================================================================== *)
(** ** The module [index.js] *)
(* ================================================================== *)

Definition APP_URL : string := "https://app.jscrambler.com".

Definition newline : string := String (ascii_of_nat 10) EmptyString.
Definition dquote : string := String (ascii_of_nat 34) EmptyString.

(** The receiver's [client] is carried along as the source does; the calls
    made through it are recorded without it, one session serving a whole
    run. *)
Definition Client := JSVal.

(** [configPathOrObject]: the path of a configuration module, or the
    configuration object itself. *)
Inductive ConfigArg : Type :=
| ConfigPath (path : string)
| ConfigObject (o : Props).

(** lodash's [defaults(object, source)]: the properties of [source] fill in
    the ones that resolve to [undefined] in [object]. *)
Definition defaults (object : JSVal) (source : Props) : Props :=
  fold_left
    (fun acc p => if defined (assoc (fst p) acc) then acc
                  else assoc_set (fst p) (snd p) acc)
    source (own_props object).

(** [const {x = d} = o]: the default stands in for [undefined] only. *)
Definition or_default (v d : JSVal) : JSVal :=
  if defined v then v else d.

(** lines 25-42 *)
Definition errorHandler (res : JSVal) : M JSVal :=
  errors <- get res "errors" ;;
  when (truthy errors && truthy (field errors "length"))
    (l <- as_array errors "forEach" ;;
     for_each l (fun error =>
       message <- get error "message" ;;
       throw (Error [Lit "Error: "; Val message]))) ;;
  data <- get res "data" ;;
  when (truthy data && truthy (field data "errors"))
    (l <- as_array (field data "errors") "forEach" ;;
     for_each l (fun e =>
       message <- get e "message" ;;
       console error [Val message]) ;;
     throw (Error [Lit "GraphQL Query Error"])) ;;
  message <- get res "message" ;;
  when (truthy message) (throw (Error [Lit "Error: "; Val message])) ;;
  ret res.

(** lines 44-48 *)
Definition printSourcesErrors (errors : list JSVal) : M unit :=
  console error [Lit "Application sources errors:"] ;;
  console error [Json (JArr errors)] ;;
  console error [Lit EmptyString].

(** lines 51-67 *)
Definition normalizeParameters (parameters : JSVal) : M JSVal :=
  if is_array parameters then ret parameters
  else if nullish parameters then throw (TypeError "keys")
  else ret (JArr (map (fun p => JObj [("name", JStr (fst p)); ("options", snd p)])
                      (own_props parameters))).

(** lines 987-994 *)
Definition getApplicationProfiling (client : Client) (applicationId : JSVal) : M JSVal :=
  call (client_get [Lit "/profiling-run"]
          (Plain (JObj [("applicationId", applicationId)])) JUndefined).

Definition deleteProfiling (client : Client) (profilingId : JSVal) : M JSVal :=
  call (client_patch [Lit "/profiling-run/"; Val profilingId]
          (Plain (JObj [("state", JStr "DELETED")]))).

(** lines 960-972 *)
Definition removeSourceFromApplication
    (client : Client) (sourceId applicationId fragments : JSVal) : M JSVal :=
  call (client_post [Lit "/application"]
          (Document "removeSourceFromApplication" [sourceId; applicationId; fragments])).

(** lines 927-939 *)
Definition addApplicationSource
    (client : Client) (applicationId applicationSource fragments : JSVal) : M JSVal :=
  call (client_post [Lit "/application"]
          (Document "addApplicationSource" [applicationId; applicationSource; fragments])).

(** lines 862-865 *)
Definition updateApplication (client : Client) (application fragments : JSVal) : M JSVal :=
  call (client_post [Lit "/application"]
          (Document "updateApplication" [application; fragments])).

(** lines 1016-1035 *)
Definition createApplicationProtection
    (client : Client) (applicationId protectionOptions fragments : JSVal) : M JSVal :=
  introspected <- call (introspection_mutation "createApplicationProtection") ;;
  args <- get introspected "args" ;;
  call (client_post [Lit "/application"]
          (Document "createApplicationProtection"
             [applicationId; fragments; protectionOptions; args])).

(** lines 1041-1043 *)
Definition getInstrumentation (client : Client) (instrumentationId : JSVal) : M JSVal :=
  call (client_get [Lit "/profiling-run/"; Val instrumentationId] (Plain JUndefined) JUndefined).

(** lines 1045-1057 *)
Definition getApplicationProtection
    (client : Client) (applicationId protectionId fragments : JSVal) : M JSVal :=
  call (client_get [Lit "/application"]
          (Document "getProtection" [applicationId; protectionId; fragments]) JUndefined).

(** lines 1066-1068 *)
Definition downloadApplicationProtection (client : Client) (protectionId : JSVal) : M JSVal :=
  call (client_get [Lit "/application/download/"; Val protectionId] (Plain JNull) (JBool false)).

(** lines 1074-1080 *)
Definition downloadApplicationInstrumented
    (client : Client) (instrumentationId : JSVal) : M JSVal :=
  call (client_get [Lit "/profiling-run/"; Val instrumentationId; Lit "/instrumented-bundle"]
          (Plain JNull) (JBool false)).

(** The [statusCode] of what was thrown. *)
Definition statusCode (e : Exn) : JSVal :=
  match e with
  | Rejected ps => assoc "statusCode" ps
  | Error _ | TypeError _ => JUndefined
  end.

(** [e => { if (e.statusCode !== 404) throw e; }], the handler of the three
    probes for a profiling run (lines 287-289, 634-636, 1006-1008). *)
Definition rethrow_unless_404 (e : Exn) : M JSVal :=
  if negb (strict_eq (statusCode e) (JNum 404)) then throw e else ret JUndefined.

(** lines 1002-1014 *)
Definition startInstrumentation (client : Client) (applicationId : JSVal) : M JSVal :=
  instrumentation <- catch (getApplicationProfiling client applicationId)
                           rethrow_unless_404 ;;
  when (truthy instrumentation)
    (id <- get (field instrumentation "data") "id" ;;
     deleteProfiling client id ;;
     ret tt) ;;
  call (client_post [Lit "/profiling-run"]
          (Plain (JObj [("applicationId", applicationId)]))).

(** lines 799-827: one call of the closure [poll]; [None] stands for the
    recursive call [return poll()] *)
Definition pollProtection_poll
    (client : Client) (applicationId protectionId fragments : JSVal)
  : M (option JSVal) :=
    (applicationProtection <-
       getApplicationProtection client applicationId protectionId fragments ;;
     errors <- get applicationProtection "errors" ;;
     if truthy errors then
       console log [Lit "Error polling protection"; Val errors] ;;
       throw (Error [Lit ("Protection failed. For more information visit: "
                          ++ APP_URL ++ ".")])
     else
       data <- get applicationProtection "data" ;;
       protection <- get data "applicationProtection" ;;
       state <- get protection "state" ;;
       if negb (strict_eq state (JStr "finished"))
          && negb (strict_eq state (JStr "errored"))
          && negb (strict_eq state (JStr "canceled"))
       then
         emit (setTimeout 500) ;;
         ret None
       else if strict_eq state (JStr "canceled") then
         throw (Error [Lit "Protection canceled by user"])
       else
         ret (Some protection)).

(** lines 798-830 *)
Definition pollProtection
    (client : Client) (applicationId protectionId fragments : JSVal) : M JSVal :=
  loop (pollProtection_poll client applicationId protectionId fragments).

(** [instrumentation.errors.concat(more)] (line 783) *)
Definition errors_concat (errors : JSVal) (more : list JSVal) : M JSVal :=
  match errors with
  | JArr l => ret (JArr (l ++ more))
  | JStr s => ret (JStr (s ++ to_string (JArr more)))
  | _ => throw (TypeError "concat")
  end.

(** [o.k = v] on an object *)
Definition set_field (o : JSVal) (k : string) (v : JSVal) : JSVal :=
  match o with
  | JObj ps => JObj (assoc_set k v ps)
  | _ => o
  end.

(** [o.k = v] on any value, in the strict mode of a module: a [TypeError]
    on a primitive.  Arrays and archive handles keep no extra property in
    this development. *)
Definition assign (o : JSVal) (k : string) (v : JSVal) : M JSVal :=
  match o with
  | JObj ps => ret (JObj (assoc_set k v ps))
  | JArr _ | JArchive _ => unmodelled
  | JUndefined | JNull | JBool _ | JNum _ | JStr _ => throw (TypeError k)
  end.

(** lines 774-795: one call of the closure [poll]; [None] stands for the
    recursive call [return poll()] *)
Definition pollInstrumentation_poll (client : Client) (instrumentationId : JSVal)
  : M (option JSVal) :=
    (instrumentation <- getInstrumentation client instrumentationId ;;
     data <- get instrumentation "data" ;;
     state <- get data "state" ;;
     if strict_eq state (JStr "DELETED") then
       throw (Error [Lit "Protection canceled by user"])
     else if strict_eq state (JStr "FAILED_INSTRUMENTATION") then
       errors <- get instrumentation "errors" ;;
       (if nullish errors then throw (TypeError "concat") else ret tt) ;;
       instrumentationErrors <- get data "instrumentationErrors" ;;
       l <- as_array instrumentationErrors "map" ;;
       more <- map_m l (fun e =>
                 message <- get e "message" ;;
                 fileName <- get e "fileName" ;;
                 lineNumber <- get e "lineNumber" ;;
                 ret (JObj [("message",
                             JStr (to_string message ++ " at " ++ to_string fileName
                                   ++ ":" ++ to_string lineNumber))])) ;;
       errors' <- errors_concat errors more ;;
       res <- errorHandler (set_field instrumentation "errors" errors') ;;
       ret (Some res)
     else if strict_eq state (JStr "FINISHED_INSTRUMENTATION") then
       ret (Some instrumentation)
     else
       emit (setTimeout 500) ;;
       ret None).

(** lines 773-797 *)
Definition pollInstrumentation (client : Client) (instrumentationId : JSVal) : M JSVal :=
  loop (pollInstrumentation_poll client instrumentationId).

(** What the module reads from its environment when it runs:
    [debug = !!process.env.DEBUG] (line 22), the default configuration
    exported by [./config] (line 10), and the modules [require] finds
    (line 72). *)
Record Env : Type := mkEnv {
  debug : bool;
  config : Props;
  require : string -> Exn + JSVal
}.

Definition lift {A} (r : Exn + A) : M A :=
  match r with
  | inl e => throw e
  | inr a => ret a
  end.

Section Index.

Variable env : Env.

(** lines 69-76 *)
Definition buildFinalConfig (configPathOrObject : ConfigArg) : Exn + Props :=
  match configPathOrObject with
  | ConfigPath path =>
      match require env path with
      | inl e => inl e
      | inr _config => inr (defaults _config (config env))
      end
  | ConfigObject _config => inr (defaults (JObj _config) (config env))
  end.

(** lines 120-132: the glob expansion of [filesSrc] *)
Fixpoint expand_filesSrc (entries _filesSrc : list JSVal) : M (list JSVal) :=
  match entries with
  | [] => ret _filesSrc
  | entry :: entries' =>
      if is_string entry then
        matches <- call (glob_sync entry) ;;
        expand_filesSrc entries' (array_concat _filesSrc matches)
      else
        expand_filesSrc entries' (_filesSrc ++ [entry])
  end.

(** lines 148-152: [zipped.generate({type: 'nodebuffer'}).toString('base64')] *)
Definition generate_base64 (zipped : JSVal) : M JSVal :=
  match zipped with
  | JArchive bytes => ret (JStr (base64 bytes))
  | _ => throw (TypeError "generate")
  end.

(** lines 94-170 *)
Definition updateApplicationSources
    (client : Client) (applicationId sources filesSrc cwd appProfiling : JSVal)
  : M JSVal :=
  when (truthy sources || truthy (js_and filesSrc (field filesSrc "length")))
    (ready <- (if truthy appProfiling then
                 state <- get (field appProfiling "data") "state" ;;
                 ret (strict_eq state (JStr "READY"))
               else ret false) ;;
     when ready
       (throw (Error [Lit "Ready profiling data PREVENTS source files from being UPDATED! Please add option *--remove-profiling-data* or *--skip-source* to continue."])) ;;
     removeSourceRes <-
       removeSourceFromApplication client (JStr EmptyString) applicationId JUndefined ;;
     errorHandler removeSourceRes ;;
     ret tt) ;;
  zipped <-
    (if truthy (js_and filesSrc (field filesSrc "length")) then
       _filesSrc <- match elements filesSrc with
                    | Some entries => expand_filesSrc entries []
                    | None => unmodelled
                    end ;;
       when (debug env) (console log [Lit "Creating zip from source files"]) ;;
       call (zip _filesSrc cwd)
     else if truthy sources then
       when (debug env) (console log [Lit "Creating zip from sources"]) ;;
       call (zipSources sources)
     else ret JUndefined) ;;
  if truthy zipped then
    content <- generate_base64 zipped ;;
    when (debug env) (console log [Lit "Adding sources to application"]) ;;
    let source := JObj [("content", content);
                        ("filename", JStr "application.zip");
                        ("extension", JStr "zip")] in
    added <- addApplicationSource client applicationId source JUndefined ;;
    errorHandler added ;;
    ret source
  else ret JUndefined.

(** Modelled from the spec: the constructor [JscramblerClient] of [./client]
    is missing from the sources; the specification describes a ClientSession
    as "configuration for one logical connection to the remote service;
    immutable after construction", so building one keeps the options and
    makes no call. *)
Definition JscramblerClient (options : Props) : Client := JObj options.

(** lines 249-261, 511-523, 619-631: [const {accessKey, secretKey} = keys]
    and [new this.Client({accessKey, secretKey, ...})] *)
Definition new_Client (finalConfig : Props) (options : list string) : M Client :=
  accessKey <- get (assoc "keys" finalConfig) "accessKey" ;;
  secretKey <- get (assoc "keys" finalConfig) "secretKey" ;;
  ret (JscramblerClient
         (("accessKey", accessKey) :: ("secretKey", secretKey)
          :: map (fun k => (k, assoc k finalConfig)) options)).

(** [filesDest || destCallback], the destination given to [unzip] *)
Definition destination (filesDest : JSVal) (destCallback : option string) : Dest :=
  if truthy filesDest then DestValue filesDest
  else match destCallback with
       | Some f => DestCallback f
       | None => DestValue JUndefined
       end.

(** lines 263-280 and 525-541: the two required options.  The result is
    the pair [(filesSrc, filesDest)] of the two locals. *)
Definition required_options (finalConfig : Props) (destCallback : option string)
  : M (JSVal * JSVal) :=
  let filesSrc :=
    if truthy (assoc "sources" finalConfig) then JUndefined
    else assoc "filesSrc" finalConfig in
  let filesDest :=
    match destCallback with
    | Some _ => JUndefined
    | None => assoc "filesDest" finalConfig
    end in
  when (negb (truthy (assoc "applicationId" finalConfig)))
    (throw (Error [Lit "Required *applicationId* not provided"])) ;;
  when (negb (truthy filesDest) && match destCallback with Some _ => false | None => true end)
    (throw (Error [Lit "Required *filesDest* not provided"])) ;;
  ret (filesSrc, filesDest).

(** lines 282-304: the profiling probe and the replacement of the sources *)
Definition protect_sources (client : Client) (finalConfig : Props) (filesSrc : JSVal)
  : M JSVal :=
  let applicationId := assoc "applicationId" finalConfig in
  if negb (truthy (assoc "skipSources" finalConfig)) then
    appProfiling <- catch (getApplicationProfiling client applicationId)
                          rethrow_unless_404 ;;
    appProfiling <-
      (if truthy appProfiling && truthy (assoc "removeProfilingData" finalConfig) then
         id <- get (field appProfiling "data") "id" ;;
         deleteProfiling client id ;;
         data <- assign (field appProfiling "data") "state" (JStr "DELETED") ;;
         ret (set_field appProfiling "data" data)
       else ret appProfiling) ;;
    updateApplicationSources client applicationId
      (assoc "sources" finalConfig) filesSrc (assoc "cwd" finalConfig) appProfiling
  else
    console log [Lit "Update source files SKIPPED"] ;;
    ret JUndefined.

(** [if (b) o[k] = v] *)
Definition set_if (b : bool) (k : string) (v : JSVal) (o : Props) : Props :=
  if b then assoc_set k v o else o.

(** lines 306-350: the object [updateData] *)
Definition build_updateData (finalConfig : Props) : M Props :=
  let c k := assoc k finalConfig in
  let updateData :=
    [("_id", c "applicationId");
     ("debugMode", JBool (truthy (c "debugMode")));
     ("tolerateMinification", c "tolerateMinification");
     ("codeHardeningThreshold", c "codeHardeningThreshold")] in
  updateData <-
    (if truthy (c "params") && negb (length (own_props (c "params")) =? 0)%nat then
       parameters <- normalizeParameters (c "params") ;;
       ret (assoc_set "areSubscribersOrdered" (JBool (is_array (c "params")))
              (assoc_set "parameters" parameters updateData))
     else ret updateData) ;;
  let updateData :=
    set_if (defined (c "areSubscribersOrdered"))
      "areSubscribersOrdered" (c "areSubscribersOrdered") updateData in
  let updateData :=
    set_if (truthy (c "applicationTypes"))
      "applicationTypes" (c "applicationTypes") updateData in
  let updateData :=
    set_if (defined (c "useRecommendedOrder"))
      "useRecommendedOrder" (c "useRecommendedOrder") updateData in
  let updateData :=
    set_if (truthy (c "languageSpecifications"))
      "languageSpecifications" (c "languageSpecifications") updateData in
  let updateData :=
    set_if (defined (c "sourceMaps")) "sourceMaps" (c "sourceMaps") updateData in
  let updateData :=
    set_if (defined (c "useProfilingData"))
      "useProfilingData" (c "useProfilingData") updateData in
  let updateData :=
    set_if (defined (c "profilingDataMode"))
      "profilingDataMode" (c "profilingDataMode") updateData in
  let updateData :=
    set_if (defined (c "useAppClassification"))
      "useAppClassification" (c "useAppClassification") updateData in
  let updateData :=
    set_if (truthy (c "browsers")) "browsers" (c "browsers") updateData in
  ret updateData.

(** lines 352-358: the condition of the parameter update *)
Definition parameters_changed (updateData : Props) : bool :=
  truthy (assoc "parameters" updateData)
  || truthy (assoc "applicationTypes" updateData)
  || truthy (assoc "languageSpecifications" updateData)
  || truthy (assoc "browsers" updateData)
  || defined (assoc "areSubscribersOrdered" updateData).

(** lines 306-377 *)
Definition protect_parameters (client : Client) (finalConfig : Props) : M Props :=
  updateData <- build_updateData finalConfig ;;
  when (parameters_changed updateData)
    (when (debug env) (console log [Lit "Updating parameters of protection"]) ;;
     applicationUpdate <- call (intoObjectType (JObj updateData) "Application") ;;
     updateApplicationRes <- updateApplication client applicationUpdate JUndefined ;;
     when (debug env)
       (console log [Lit "Finished updating parameters of protection"] ;;
        console error [Val updateApplicationRes]) ;;
     errorHandler updateApplicationRes ;;
     ret tt) ;;
  ret updateData.

(** lines 383-384: [delete updateData._id] and the options of the job *)
Definition build_protectionOptions
    (finalConfig : Props) (source : JSVal) (updateData : Props) : Props :=
  assoc_spread
    [("bail", or_default (assoc "bail" finalConfig) (JBool true));
     ("randomizationSeed", assoc "randomizationSeed" finalConfig);
     ("tolerateMinification", assoc "tolerateMinification" finalConfig);
     ("source", source);
     ("inputSymbolTable", assoc "inputSymbolTable" finalConfig)]
    (assoc_delete "_id" updateData).

(** lines 379-402: the creation of the job; the result is [protectionId] *)
Definition protect_create
    (client : Client) (finalConfig : Props) (source : JSVal) (updateData : Props)
  : M JSVal :=
  when (debug env) (console log [Lit "Creating Application Protection"]) ;;
  let protectionOptions := build_protectionOptions finalConfig source updateData in
  protectionOptions <-
    (if truthy (assoc "inputSymbolTable" finalConfig) then
       inputSymbolTableContents <-
         call (fs_readFileSync (assoc "inputSymbolTable" finalConfig)) ;;
       ret (assoc_set "inputSymbolTable" inputSymbolTableContents protectionOptions)
     else ret protectionOptions) ;;
  createApplicationProtectionRes <-
    createApplicationProtection client (assoc "applicationId" finalConfig)
      (JObj protectionOptions) JUndefined ;;
  errorHandler createApplicationProtectionRes ;;
  data <- get createApplicationProtectionRes "data" ;;
  created <- get data "createApplicationProtection" ;;
  get created "_id".

(** lines 430-441: the per-source error messages, each with the name of its
    source *)
Definition collect_sourcesErrors (protection : JSVal) : M (list JSVal) :=
  sources <- get protection "sources" ;;
  l <- as_array sources "forEach" ;;
  fold_m l [] (fun sourcesErrors s =>
    errorMessages <- get s "errorMessages" ;;
    if truthy errorMessages then
      match gt_zero (field errorMessages "length") with
      | None => unmodelled
      | Some false => ret sourcesErrors
      | Some true =>
          messages <- as_array errorMessages "map" ;;
          ret (sourcesErrors
               ++ map (fun e => JObj (assoc_spread [("filename", field s "filename")]
                                                   (own_props e)))
                      messages)
      end
    else ret sourcesErrors).

(** lines 409-428: the warnings of a polled protection *)
Definition protect_warnings (protection : JSVal) : M unit :=
  growthWarning <- get protection "growthWarning" ;;
  when (truthy growthWarning)
    (console warn
       [Lit ("Warning: Your protected application has surpassed a reasonable file growth."
             ++ newline
             ++ "For more information on what might have caused this, please see the Protection Report."
             ++ newline ++ "Link: " ++ APP_URL ++ ".")]) ;;
  when (debug env) (console log [Lit "Finished protecting"]) ;;
  deprecations <- get protection "deprecations" ;;
  when (truthy deprecations)
    (l <- as_array deprecations "forEach" ;;
     for_each l (fun deprecation =>
       type <- get deprecation "type" ;;
       let entity := field deprecation "entity" in
       if strict_eq type (JStr "Transformation") then
         console warn
           [Lit "Warning: "; Val type; Lit " "; Val entity;
            Lit " is no longer maintained. Please consider removing it from your configuration."]
       else
         when (truthy type && truthy entity)
           (console warn
              [Lit "Warning: "; Val type; Lit " "; Val entity; Lit " is deprecated."]))).

(** lines 443-460: the verdict on a polled protection *)
Definition protect_verdict (protection : JSVal) (sourcesErrors : list JSVal) : M unit :=
  state <- get protection "state" ;;
  if strict_eq state (JStr "errored") then
    console error [Lit "Global protection errors:"] ;;
    console error [Lit "- "; Val (field protection "errorMessage")] ;;
    console error [Lit EmptyString] ;;
    when (0 <? length sourcesErrors)%nat (printSourcesErrors sourcesErrors) ;;
    throw (Error [Lit ("Protection failed. For more information visit: "
                       ++ APP_URL ++ ".")])
  else if (0 <? length sourcesErrors)%nat then
    if truthy (field protection "bail") then
      printSourcesErrors sourcesErrors ;;
      throw (Error [Lit "Your protection has failed."])
    else
      for_each sourcesErrors (fun e =>
        console warn
          [Lit ("Non-fatal error: " ++ dquote); Val (field e "message");
           Lit (dquote ++ " in "); Val (field e "filename")])
  else ret tt.

(** lines 462-484: the download of the result *)
Definition protect_download
    (client : Client) (protectionId filesDest : JSVal) (destCallback : option string)
    (stream : JSVal) : M JSVal :=
  when (debug env) (console log [Lit "Downloading protection result"]) ;;
  download <- downloadApplicationProtection client protectionId ;;
  errorHandler download ;;
  when (debug env) (console log [Lit "Unzipping files"]) ;;
  call (unzip download (destination filesDest destCallback) stream) ;;
  when (debug env) (console log [Lit "Finished unzipping files"]) ;;
  console log [Val protectionId] ;;
  ret protectionId.

(** What [protectAndDownload] holds once the poll has returned. *)
Record Polled : Type := mkPolled {
  polled_client : Client;
  polled_config : Props;
  polled_filesDest : JSVal;
  polled_id : JSVal;
  polled_protection : JSVal
}.

Definition protect_client_options : list string :=
  ["host"; "port"; "protocol"; "cafile"; "jscramblerVersion"; "proxy"; "clientId"].

(** What [protectAndDownload] holds once the sources are dealt with. *)
Record Prepared : Type := mkPrepared {
  prepared_client : Client;
  prepared_config : Props;
  prepared_filesDest : JSVal;
  prepared_source : JSVal
}.

(** lines 214-304 of [protectAndDownload]: up to the sources *)
Definition protect_until_sources
    (configPathOrObject : ConfigArg) (destCallback : option string) : M Prepared :=
  finalConfig <- lift (buildFinalConfig configPathOrObject) ;;
  client <- new_Client finalConfig protect_client_options ;;
  locals <- required_options finalConfig destCallback ;;
  source <- protect_sources client finalConfig (fst locals) ;;
  ret (mkPrepared client finalConfig (snd locals) source).

(** lines 306-408 of [protectAndDownload]: the parameters, the job and the
    poll *)
Definition protect_job (s : Prepared) : M Polled :=
  let client := prepared_client s in
  let finalConfig := prepared_config s in
  updateData <- protect_parameters client finalConfig ;;
  protectionId <- protect_create client finalConfig (prepared_source s) updateData ;;
  fragments <- call getProtectionDefaultFragments ;;
  protection <- pollProtection client (assoc "applicationId" finalConfig)
                               protectionId fragments ;;
  ret (mkPolled client finalConfig (prepared_filesDest s) protectionId protection).

(** lines 214-408 of [protectAndDownload]: up to the polled protection *)
Definition protect_until_polled
    (configPathOrObject : ConfigArg) (destCallback : option string) : M Polled :=
  s <- protect_until_sources configPathOrObject destCallback ;;
  protect_job s.

(** lines 409-484 of [protectAndDownload]: from the polled protection on *)
Definition protect_finish (p : Polled) (destCallback : option string) : M JSVal :=
  protect_warnings (polled_protection p) ;;
  sourcesErrors <- collect_sourcesErrors (polled_protection p) ;;
  protect_verdict (polled_protection p) sourcesErrors ;;
  protect_download (polled_client p) (polled_id p) (polled_filesDest p) destCallback
    (or_default (assoc "stream" (polled_config p)) (JBool true)).

(** lines 213-485 *)
Definition protectAndDownload
    (configPathOrObject : ConfigArg) (destCallback : option string) : M JSVal :=
  p <- protect_until_polled configPathOrObject destCallback ;;
  protect_finish p destCallback.

(** [instrumentation.data.id] *)
Definition data_id (instrumentation : JSVal) : M JSVal :=
  data <- get instrumentation "data" ;;
  get data "id".

Definition instrument_client_options : list string :=
  ["host"; "port"; "protocol"; "cafile"; "jscramblerVersion"; "proxy"; "clientId"].

(** lines 492-595 *)
Definition instrumentAndDownload
    (configPathOrObject : ConfigArg) (destCallback : option string) : M JSVal :=
  finalConfig <- lift (buildFinalConfig configPathOrObject) ;;
  client <- new_Client finalConfig instrument_client_options ;;
  locals <- required_options finalConfig destCallback ;;
  let applicationId := assoc "applicationId" finalConfig in
  (if negb (truthy (assoc "skipSources" finalConfig)) then
     updateApplicationSources client applicationId (assoc "sources" finalConfig)
       (fst locals) (assoc "cwd" finalConfig) JUndefined ;;
     ret tt
   else console log [Lit "Update source files SKIPPED"]) ;;
  instrumentation <- startInstrumentation client applicationId ;;
  errorHandler instrumentation ;;
  id <- data_id instrumentation ;;
  instrumentation <- pollInstrumentation client id ;;
  when (debug env)
    (id <- data_id instrumentation ;;
     console log [Lit "Finished instrumention with id "; Val id; Lit ". Downloading..."]) ;;
  id <- data_id instrumentation ;;
  download <- downloadApplicationInstrumented client id ;;
  errorHandler download ;;
  when (debug env) (console log [Lit "Unzipping files"]) ;;
  call (unzip download (destination (snd locals) destCallback)
          (or_default (assoc "stream" finalConfig) (JBool true))) ;;
  when (debug env) (console log [Lit "Finished unzipping files"]) ;;
  console warn
    [Lit (newline
          ++ "      WARNING: DO NOT SEND THIS CODE TO PRODUCTION AS IT IS NOT PROTECTED"
          ++ newline ++ "    ")] ;;
  console log
    [Lit "Application "; Val applicationId;
     Lit (" was instrumented. Bootstrap your application, go to " ++ APP_URL
          ++ " and start profiling!")] ;;
  data_id instrumentation.

Definition profiling_client_options : list string :=
  ["host"; "port"; "protocol"; "cafile"; "proxy"; "jscramblerVersion"; "clientId"].

(** lines 604-657 *)
Definition setProfilingState
    (configPathOrObject : ConfigArg) (state label : JSVal) : M JSVal :=
  finalConfig <- lift (buildFinalConfig configPathOrObject) ;;
  client <- new_Client finalConfig profiling_client_options ;;
  let applicationId := assoc "applicationId" finalConfig in
  instrumentation <-
    catch (call (client_get [Lit "/profiling-run"]
                   (Plain (JObj [("applicationId", applicationId)])) JUndefined))
          rethrow_unless_404 ;;
  when (negb (truthy instrumentation))
    (throw (Error [Lit "There is no active profiling run. Instrument your application first."])) ;;
  previousState <- get (field instrumentation "data") "state" ;;
  if strict_eq previousState state then
    console log [Lit "Profiling was already "; Val label; Lit " for application ";
                 Val applicationId; Lit "."] ;;
    ret JUndefined
  else
    id <- get (field instrumentation "data") "id" ;;
    call (client_patch [Lit "/profiling-run/"; Val id]
            (Plain (JObj [("state", state)]))) ;;
    console log [Lit "Profiling was "; Val label; Lit " for application ";
                 Val applicationId; Lit "."] ;;
    ret JUndefined.

End Index.

(** lines 553-594 of [instrumentAndDownload]: from the start of the
    instrumentation on *)
Definition instrument_job
    (env : Env) (client : Client) (finalConfig : Props) (filesDest : JSVal)
    (destCallback : option string) : M JSVal :=
  let applicationId := assoc "applicationId" finalConfig in
  instrumentation <- startInstrumentation client applicationId ;;
  errorHandler instrumentation ;;
  id <- data_id instrumentation ;;
  instrumentation <- pollInstrumentation client id ;;
  when (debug env)
    (id <- data_id instrumentation ;;
     console log [Lit "Finished instrumention with id "; Val id; Lit ". Downloading..."]) ;;
  id <- data_id instrumentation ;;
  download <- downloadApplicationInstrumented client id ;;
  errorHandler download ;;
  when (debug env) (console log [Lit "Unzipping files"]) ;;
  call (unzip download (destination filesDest destCallback)
          (or_default (assoc "stream" finalConfig) (JBool true))) ;;
  when (debug env) (console log [Lit "Finished unzipping files"]) ;;
  console warn
    [Lit (newline
          ++ "      WARNING: DO NOT SEND THIS CODE TO PRODUCTION AS IT IS NOT PROTECTED"
          ++ newline ++ "    ")] ;;
  console log
    [Lit "Application "; Val applicationId;
     Lit (" was instrumented. Bootstrap your application, go to " ++ APP_URL
          ++ " and start profiling!")] ;;
  data_id instrumentation.

(* ================================================================== *)
(** ** The source maps of a protection *)
(* ================================================================== *)

(** lines 1059-1061 *)
Definition downloadSourceMapsRequest (client : Client) (protectionId : JSVal) : M JSVal :=
  call (client_get [Lit "/application/sourceMaps/"; Val protectionId]
          (Plain JNull) (JBool false)).

Definition sourceMaps_client_options : list string :=
  ["host"; "port"; "protocol"; "cafile"; "jscramblerVersion"; "proxy"].

(** lines 703-705: [catch (e) { errorHandler(e); }].  The guarded call throws
    nothing but the error object the request is rejected with. *)
Definition check_rejection (e : Exn) : M JSVal :=
  match e with
  | Rejected props => errorHandler (JObj props) ;; ret JUndefined
  | Error _ | TypeError _ => unmodelled
  end.

(** lines 659-707; [configs] is the object the caller passes, it is not
    completed with the defaults. *)
Definition downloadSourceMaps (configs : Props) (destCallback : option string) : M JSVal :=
  let filesDest := assoc "filesDest" configs in
  let protectionId := assoc "protectionId" configs in
  client <- new_Client configs sourceMaps_client_options ;;
  when (negb (truthy filesDest) && match destCallback with Some _ => false | None => true end)
    (throw (Error [Lit "Required *filesDest* not provided"])) ;;
  when (negb (truthy protectionId))
    (throw (Error [Lit "Required *protectionId* not provided"])) ;;
  when (truthy (assoc "filesSrc" configs))
    (console warn
       [Lit "[Warning] Ignoring sources supplied. Downloading source maps of given protection"]) ;;
  download <- catch (downloadSourceMapsRequest client protectionId) check_rejection ;;
  call (unzip download (destination filesDest destCallback)
          (or_default (assoc "stream" configs) (JBool true))) ;;
  ret JUndefined.

(* ================================================================== *)
(** ** Observations on runs *)
(* ================================================================== *)

Unset Implicit Arguments.

(** A run that comes after the effects [tr]. *)
Definition prepend {A} (tr : list Event) (r : Run A) : Run A :=
  mkRun (outcome r) (tr ++ trace r) (rest r).

(** The number of calls of a kind in a trace. *)
Definition calls (kind : Call -> bool) (tr : list Event) : nat :=
  length (filter (fun ev => match ev with Called c => kind c | _ => false end) tr).

(** The number of suspensions of [ms] milliseconds in a trace. *)
Definition delays (ms : Z) (tr : list Event) : nat :=
  length (filter (fun ev => match ev with setTimeout n => Z.eqb n ms | _ => false end) tr).

(** Every effect of a computation satisfies [P], whatever the answers. *)
Definition emits {A} (P : Event -> Prop) (m : M A) : Prop :=
  forall tape, Forall P (trace (m tape)).

(** The calls that go over the network: the transport, and the helpers that
    are handed the [client]. *)
Definition is_network (c : Call) : bool :=
  match c with
  | client_get _ _ _ | client_post _ _ | client_patch _ _
  | intoObjectType _ _ | introspection_mutation _ | getProtectionDefaultFragments => true
  | glob_sync _ | zip _ _ | zipSources _ | fs_readFileSync _ | unzip _ _ _ => false
  end.

(** The calls that read the file system. *)
Definition is_file_system (c : Call) : bool :=
  match c with
  | glob_sync _ | zip _ _ | fs_readFileSync _ => true
  | _ => false
  end.

Definition is_patch (c : Call) : bool :=
  match c with client_patch _ _ => true | _ => false end.

(** A [POST] of the document of the given builder. *)
Definition posts (builder : string) (c : Call) : bool :=
  match c with
  | client_post _ (Document b _) => String.eqb b builder
  | _ => false
  end.

Definition is_updateApplication : Call -> bool := posts "updateApplication".
Definition is_createApplicationProtection : Call -> bool :=
  posts "createApplicationProtection".
Definition is_source_removal : Call -> bool := posts "removeSourceFromApplication".
Definition is_source_upload : Call -> bool := posts "addApplicationSource".

(** [GET /application/download/...] *)
Definition is_download (c : Call) : bool :=
  match c with
  | client_get (Lit p :: _) _ _ => String.eqb p "/application/download/"
  | _ => false
  end.

(** The errors of the kind the specification calls ConfigurationError:
    a required option is missing, [keys] included. *)
Definition ConfigurationError (e : Exn) : Prop :=
  e = Error [Lit "Required *applicationId* not provided"]
  \/ e = Error [Lit "Required *filesDest* not provided"]
  \/ e = TypeError "accessKey".

(** A computation that consumes no answer. *)
Definition local {A} (m : M A) : Prop :=
  forall tape, rest (m tape) = tape.

(** A loop body that consumes an answer whenever it asks for another
    round. *)
Definition consuming {A} (body : M (option A)) : Prop :=
  forall tape, outcome (body tape) = Returned None ->
               length (rest (body tape)) < length tape.

(** The snapshot of a protection carried by an answer to
    [getApplicationProtection]: the answer reports no [errors] and holds
    the protection under [data.applicationProtection]. *)
Definition snapshot (res protection : JSVal) : Prop :=
  truthy (field res "errors") = false
  /\ field (field res "data") "applicationProtection" = protection
  /\ nullish protection = false.

(** The terminal states of a protection, as the specification lists them. *)
Definition protection_terminal (state : JSVal) : bool :=
  strict_eq state (JStr "finished")
  || strict_eq state (JStr "errored")
  || strict_eq state (JStr "canceled").

(** The state of the profiling run carried by an answer to
    [getInstrumentation]. *)
Definition instrumentation_state (res state : JSVal) : Prop :=
  nullish (field res "data") = false
  /\ field (field res "data") "state" = state.

Definition instrumentation_terminal (state : JSVal) : bool :=
  strict_eq state (JStr "DELETED")
  || strict_eq state (JStr "FAILED_INSTRUMENTATION")
  || strict_eq state (JStr "FINISHED_INSTRUMENTATION").

(** The effects of one round of a poll that is to be repeated. *)
Definition round (fetch : Call) : list Event :=
  [Called fetch; setTimeout 500].

Definition rounds {A} (fetch : Call) (answers : list A) : list Event :=
  flat_map (fun _ => round fetch) answers.

Definition fetch_protection (applicationId protectionId fragments : JSVal) : Call :=
  client_get [Lit "/application"]
    (Document "getProtection" [applicationId; protectionId; fragments]) JUndefined.

Definition fetch_instrumentation (instrumentationId : JSVal) : Call :=
  client_get [Lit "/profiling-run/"; Val instrumentationId] (Plain JUndefined) JUndefined.

(** An answer with the given state and nothing else. *)
Definition protection_in (state : string) : JSVal :=
  JObj [("data", JObj [("applicationProtection", JObj [("state", JStr state)])])].

(** An answer that [errorHandler] lets through. *)
Definition accepted (res : JSVal) : Prop :=
  errorHandler res = ret res.

(** The line a run prints only when [debug] is set. *)
Definition debug_log (env : Env) (line : string) : list Event :=
  if debug env then [Console log [Lit line]] else [].

(** The bundle made of the bytes of an archive. *)
Definition bundle (bytes : list Byte.byte) : JSVal :=
  JObj [("content", JStr (base64 bytes));
        ("filename", JStr "application.zip");
        ("extension", JStr "zip")].

(** The profiling run handed to [updateApplicationSources], if any, is not
    in state [READY]. *)
Definition not_ready (appProfiling : JSVal) : Prop :=
  truthy appProfiling = false
  \/ (nullish (field appProfiling "data") = false
      /\ strict_eq (field (field appProfiling "data") "state") (JStr "READY") = false).

(** The calls of [updateApplicationSources] *)
Definition remove_sources (applicationId : JSVal) : Call :=
  client_post [Lit "/application"]
    (Document "removeSourceFromApplication" [JStr EmptyString; applicationId; JUndefined]).

Definition upload_source (applicationId source : JSVal) : Call :=
  client_post [Lit "/application"]
    (Document "addApplicationSource" [applicationId; source; JUndefined]).

(** What a computation returns, when it returns. *)
Definition returns {A} (m : M A) (P : A -> Prop) : Prop :=
  forall tape a, outcome (m tape) = Returned a -> P a.

(** An effect that is no call of the given kind. *)
Definition quiet (kind : Call -> bool) (ev : Event) : Prop :=
  match ev with
  | Called c => kind c = false
  | _ => True
  end.

(** The probe for a profiling run: [GET /profiling-run] *)
Definition fetch_profiling (applicationId : JSVal) : Call :=
  client_get [Lit "/profiling-run"]
    (Plain (JObj [("applicationId", applicationId)])) JUndefined.

(** The error object of a probe says "not found". *)
Definition not_found (e : Props) : bool :=
  strict_eq (assoc "statusCode" e) (JNum 404).

(** The options without which no workflow starts are given: the keys,
    the application and a destination. *)
Definition configured (finalConfig : Props) (destCallback : option string) : Prop :=
  nullish (assoc "keys" finalConfig) = false
  /\ truthy (assoc "applicationId" finalConfig) = true
  /\ (truthy (assoc "filesDest" finalConfig) = true \/ destCallback <> None).

(** The locals [filesSrc] and [filesDest] of the two workflows
    (lines 263-272, 525-533) *)
Definition filesSrc_of (finalConfig : Props) : JSVal :=
  if truthy (assoc "sources" finalConfig) then JUndefined
  else assoc "filesSrc" finalConfig.

Definition filesDest_of (finalConfig : Props) (destCallback : option string) : JSVal :=
  match destCallback with
  | Some _ => JUndefined
  | None => assoc "filesDest" finalConfig
  end.

(** The session built from a configuration with keys *)
Definition client_of (finalConfig : Props) (options : list string) : Client :=
  JscramblerClient
    (("accessKey", field (assoc "keys" finalConfig) "accessKey")
     :: ("secretKey", field (assoc "keys" finalConfig) "secretKey")
     :: map (fun k => (k, assoc k finalConfig)) options).

(** New sources are supplied, inline or by a non-empty [filesSrc]. *)
Definition new_sources (finalConfig : Props) : bool :=
  truthy (assoc "sources" finalConfig)
  || truthy (js_and (filesSrc_of finalConfig) (field (filesSrc_of finalConfig) "length")).

(** The warning printed for a per-source error that does not stop the
    workflow (line 457) *)
Definition non_fatal (e : JSVal) : Event :=
  Console warn
    [Lit ("Non-fatal error: " ++ dquote); Val (field e "message");
     Lit (dquote ++ " in "); Val (field e "filename")].

(** The lines of [printSourcesErrors] *)
Definition printed_errors (errors : list JSVal) : list Event :=
  [Console error [Lit "Application sources errors:"];
   Console error [Json (JArr errors)];
   Console error [Lit EmptyString]].

(** The download of the result of a protection *)
Definition download_protection (protectionId : JSVal) : Call :=
  client_get [Lit "/application/download/"; Val protectionId] (Plain JNull) (JBool false).

(** A call of one kind or the other. *)
Definition either (kind1 kind2 : Call -> bool) (c : Call) : bool :=
  kind1 c || kind2 c.

(** The options whose presence makes [protectAndDownload] update the
    parameters of the application (lines 313-358): a non-empty [params],
    [applicationTypes], [languageSpecifications], [browsers], or an
    [areSubscribersOrdered] that is not [undefined]. *)
Definition supplied (finalConfig : Props) : bool :=
  let c k := assoc k finalConfig in
  (truthy (c "params") && negb (length (own_props (c "params")) =? 0)%nat)
  || truthy (c "applicationTypes")
  || truthy (c "languageSpecifications")
  || truthy (c "browsers")
  || defined (c "areSubscribersOrdered").

(** The update of the parameters of the application *)
Definition update_application (applicationUpdate : JSVal) : Call :=
  client_post [Lit "/application"]
    (Document "updateApplication" [applicationUpdate; JUndefined]).

(** The calls of the job: the update of the parameters, the creation of the
    protection and the download of its result. *)
Definition job_call : Call -> bool :=
  either is_updateApplication (either is_createApplicationProtection is_download).

(** Two configurations that differ at most in their [bail]. *)
Definition agree (finalConfig1 finalConfig2 : Props) : Prop :=
  forall k, k <> "bail" -> assoc k finalConfig1 = assoc k finalConfig2.

(** An effect, with the [bail] among the options of a job creation blanked
    out. *)
Definition forget_bail (ev : Event) : Event :=
  match ev with
  | Called (client_post path
              (Document builder [applicationId; fragments; JObj options; args])) =>
      if String.eqb builder "createApplicationProtection" then
        Called (client_post path
                  (Document builder
                     [applicationId; fragments;
                      JObj (assoc_set "bail" JUndefined options); args]))
      else ev
  | _ => ev
  end.

(** Two computations that go the same way on the same answers, up to the
    [bail] of the job options and up to [R] on what they return. *)
Definition alike {A B} (R : A -> B -> Prop) (r1 : Run A) (r2 : Run B) : Prop :=
  rest r1 = rest r2
  /\ map forget_bail (trace r1) = map forget_bail (trace r2)
  /\ match outcome r1, outcome r2 with
     | Returned a, Returned b => R a b
     | Thrown e1, Thrown e2 => e1 = e2
     | Pending, Pending => True
     | Unmodelled, Unmodelled => True
     | _, _ => False
     end.

Definition sim {A B} (R : A -> B -> Prop) (m1 : M A) (m2 : M B) : Prop :=
  forall tape, alike R (m1 tape) (m2 tape).

(** Job options that differ at most in their leading [bail]. *)
Definition same_but_bail (options1 options2 : Props) : Prop :=
  exists bail1 bail2 others,
    options1 = ("bail", bail1) :: others /\ options2 = ("bail", bail2) :: others.

Definition prepared_alike (s1 s2 : Prepared) : Prop :=
  prepared_client s1 = prepared_client s2
  /\ agree (prepared_config s1) (prepared_config s2)
  /\ prepared_filesDest s1 = prepared_filesDest s2
  /\ prepared_source s1 = prepared_source s2.

Definition polled_alike (p1 p2 : Polled) : Prop :=
  polled_client p1 = polled_client p2
  /\ agree (polled_config p1) (polled_config p2)
  /\ polled_filesDest p1 = polled_filesDest p2
  /\ polled_id p1 = polled_id p2
  /\ polled_protection p1 = polled_protection p2.

(* ================================================================== *)
(** ** Sample inputs *)
(* ================================================================== *)

(** An environment without debugging, without defaults and without
    configuration modules. *)
Definition plain_env : Env :=
  mkEnv false [] (fun _ => inl (Error [Lit "Cannot find module"])).

(** The same with [DEBUG] set. *)
Definition debug_env : Env :=
  mkEnv true [] (fun _ => inl (Error [Lit "Cannot find module"])).

(** A configuration with the required options and [extra] ones. *)
Definition sample_config (extra : Props) : ConfigArg :=
  ConfigObject
    ([("keys", JObj [("accessKey", JStr "AK"); ("secretKey", JStr "SK")]);
      ("applicationId", JStr "app");
      ("filesDest", JStr "out")] ++ extra).

Definition inline_sources : JSVal :=
  JArr [JObj [("filename", JStr "a.js"); ("content", JStr "1")]].

(** Answers of the service *)
Definition no_such_run : Answer := Reject [("statusCode", JNum 404)].
Definition server_error : Answer := Reject [("statusCode", JNum 500)].
Definition ok : Answer := Resolve (JObj []).

Definition profiling_run (state : string) : JSVal :=
  JObj [("data", JObj [("id", JStr "run1"); ("state", JStr state)])].

Definition introspected : Answer := Resolve (JObj [("args", JArr [])]).

Definition created : Answer :=
  Resolve (JObj [("data",
                  JObj [("createApplicationProtection", JObj [("_id", JStr "p1")])])]).

Definition fragments : Answer := Resolve (JStr "fragments").

(** A finished protection whose source [a.js] reports the error [x]. *)
Definition finished_with_error (bail : bool) : JSVal :=
  JObj [("state", JStr "finished");
        ("bail", JBool bail);
        ("sources",
         JArr [JObj [("filename", JStr "a.js");
                     ("errorMessages", JArr [JObj [("message", JStr "x")]])]])].

Definition finished_clean : JSVal :=
  JObj [("state", JStr "finished"); ("bail", JBool true); ("sources", JArr [])].

Definition errored_protection : JSVal :=
  JObj [("state", JStr "errored"); ("errorMessage", JStr "boom"); ("sources", JArr [])].

Definition polled (protection : JSVal) : Answer :=
  Resolve (JObj [("data", JObj [("applicationProtection", protection)])]).

Definition errored_answer : JSVal :=
  JObj [("data", JObj [("applicationProtection", errored_protection)])].

Definition archive : Answer := Resolve (JStr "PK").
Definition unzipped : Answer := Resolve JUndefined.

(** What a run returned, or [default]. *)
Definition returned_or {A} (default : A) (r : Run A) : A :=
  match outcome r with
  | Returned a => a
  | _ => default
  end.

Definition nothing_polled : Polled :=
  mkPolled JUndefined [] JUndefined JUndefined JUndefined.

Definition nothing_prepared : Prepared :=
  mkPrepared JUndefined [] JUndefined JUndefined.

(** The answers to a whole run of [protectAndDownload] that polls
    [protection] at once; no profiling run exists, no source is sent. *)
Definition answers_with (protection : JSVal) : list Answer :=
  [no_such_run; introspected; created; fragments; polled protection; archive; unzipped].

(** The same, with the two answers to the update of the parameters. *)
Definition answers_with_update (protection : JSVal) : list Answer :=
  [no_such_run; Resolve (JStr "typed"); ok; introspected; created; fragments;
   polled protection; archive; unzipped].

(** What [errorHandler] looks for in an answer is not there: no [errors]
    with a length, no [data.errors], no [message]. *)
Definition reports_no_error (res : JSVal) : bool :=
  negb (nullish res)
  && negb (truthy (field res "errors") && truthy (field (field res "errors") "length"))
  && negb (truthy (field res "data") && truthy (field (field res "data") "errors"))
  && negb (truthy (field res "message")).

(** The line [errorHandler] prints for an error of a query. *)
Definition query_error (e : JSVal) : Event :=
  Console error [Val (field e "message")].

(** An environment whose default configuration names the service. *)
Definition service_env : Env :=
  mkEnv false
    [("host", JStr "api.jscrambler.com"); ("port", JStr "443")]
    (fun _ => inl (Error [Lit "Cannot find module"])).

Definition is_glob (c : Call) : bool :=
  match c with glob_sync _ => true | _ => false end.

Definition is_zip (c : Call) : bool :=
  match c with zip _ _ => true | _ => false end.

Definition is_zipSources (c : Call) : bool :=
  match c with zipSources _ => true | _ => false end.

(** The files the entries of [filesSrc] stand for, when the patterns among
    them match [found], in turn: a pattern gives its matches, any other
    entry stands for itself. *)
Fixpoint expansion (entries : list JSVal) (found : list (list JSVal)) : list JSVal :=
  match entries with
  | [] => []
  | entry :: entries' =>
      if is_string entry then
        match found with
        | matches :: found' => matches ++ expansion entries' found'
        | [] => expansion entries' []
        end
      else entry :: expansion entries' found
  end.

(** The patterns among the entries of [filesSrc] *)
Definition patterns (entries : list JSVal) : list JSVal := filter is_string entries.

(** The answers of [glob.sync] to the patterns: the matches of each. *)
Definition globbed (found : list (list JSVal)) : list Answer :=
  map (fun matches => Resolve (JArr matches)) found.

(** The line [pollProtection] prints for an answer that carries errors. *)
Definition polling_error (errors : JSVal) : Event :=
  Console log [Lit "Error polling protection"; Val errors].

(** The error [pollProtection] and [protectAndDownload] fail a protection
    with. *)
Definition protection_failed : Exn :=
  Error [Lit ("Protection failed. For more information visit: " ++ APP_URL ++ ".")].

(** The deletion of a profiling run *)
Definition delete_profiling (profilingId : JSVal) : Call :=
  client_patch [Lit "/profiling-run/"; Val profilingId]
    (Plain (JObj [("state", JStr "DELETED")])).

(** The creation of a profiling run *)
Definition create_profiling (applicationId : JSVal) : Call :=
  client_post [Lit "/profiling-run"] (Plain (JObj [("applicationId", applicationId)])).


(** The waiting answers of a poll of a protection. *)
Definition waiting_protections (answers : list JSVal) : Prop :=
  Forall (fun res => exists protection,
            snapshot res protection
            /\ protection_terminal (field protection "state") = false) answers.

(** The options without which [downloadSourceMaps] does not start are
    given: the keys, a destination and the protection. *)
Definition download_configured (configs : Props) (destCallback : option string) : Prop :=
  nullish (assoc "keys" configs) = false
  /\ (truthy (assoc "filesDest" configs) = true \/ destCallback <> None)
  /\ truthy (assoc "protectionId" configs) = true.

(** [GET /application/sourceMaps/<protectionId>] *)
Definition source_maps_request (protectionId : JSVal) : Call :=
  client_get [Lit "/application/sourceMaps/"; Val protectionId] (Plain JNull) (JBool false).

(** The warning of [downloadSourceMaps] when [filesSrc] is given. *)
Definition sources_ignored (configs : Props) : list Event :=
  if truthy (assoc "filesSrc" configs) then
    [Console warn
       [Lit "[Warning] Ignoring sources supplied. Downloading source maps of given protection"]]
  else [].

(** The call of [unzip] that ends [downloadSourceMaps]. *)
Definition unzip_source_maps
    (configs : Props) (destCallback : option string) (download : JSVal) : Call :=
  unzip download (destination (assoc "filesDest" configs) destCallback)
    (or_default (assoc "stream" configs) (JBool true)).

(** A configuration for [downloadSourceMaps], with [extra] options. *)
Definition source_maps_config (extra : Props) : Props :=
  [("keys", JObj [("accessKey", JStr "AK"); ("secretKey", JStr "SK")]);
   ("protectionId", JStr "p1")] ++ extra.

(** The calls that replace the sources of the application: their removal
    and upload, and what finds and zips the files. *)
Definition replaces_sources (c : Call) : bool :=
  is_source_removal c || is_source_upload c || is_glob c || is_zip c || is_zipSources c.

(** [GET /profiling-run] *)
Definition is_profiling_probe (c : Call) : bool :=
  match c with
  | client_get [Lit p] _ _ => String.eqb p "/profiling-run"
  | _ => false
  end.

(** The calls of the stage of [protectAndDownload] that deals with the
    sources: the probe for a profiling run, the deletion of the run, and
    the replacement of the sources. *)
Definition source_stage_call (c : Call) : bool :=
  is_profiling_probe c || is_patch c || replaces_sources c.

(** The line printed when the sources are skipped. *)
Definition sources_skipped : Event :=
  Console log [Lit "Update source files SKIPPED"].


(** The configuration holds parameters: a [params] with at least one
    property (line 313). *)
Definition has_params (finalConfig : Props) : bool :=
  truthy (assoc "params" finalConfig)
  && negb (length (own_props (assoc "params" finalConfig)) =? 0)%nat.

(** The options [protectAndDownload] takes from the configuration alone
    when it creates the job (line 384). *)
Definition job_only_option (k : string) : bool :=
  String.eqb k "bail" || String.eqb k "randomizationSeed" || String.eqb k "source"
  || String.eqb k "inputSymbolTable".

(** The creation of the protection of an application *)
Definition create_protection (applicationId : JSVal) (options : Props) (args : JSVal)
  : Call :=
  client_post [Lit "/application"]
    (Document "createApplicationProtection"
       [applicationId; JUndefined; JObj options; args]).

(** The lines [protectAndDownload] prints for an errored protection
    (lines 444-446) *)
Definition global_errors (protection : JSVal) : list Event :=
  [Console error [Lit "Global protection errors:"];
   Console error [Lit "- "; Val (field protection "errorMessage")];
   Console error [Lit EmptyString]].

(** The per-source errors are printed when there are some. *)
Definition printed_if_any (errors : list JSVal) : list Event :=
  match errors with
  | [] => []
  | _ => printed_errors errors
  end.

(** [GET /profiling-run/<id>/instrumented-bundle] *)
Definition instrumented_bundle (instrumentationId : JSVal) : Call :=
  client_get [Lit "/profiling-run/"; Val instrumentationId; Lit "/instrumented-bundle"]
    (Plain JNull) (JBool false).

(** The two lines that end [instrumentAndDownload] *)
Definition not_protected_warning : Event :=
  Console warn
    [Lit (newline
          ++ "      WARNING: DO NOT SEND THIS CODE TO PRODUCTION AS IT IS NOT PROTECTED"
          ++ newline ++ "    ")].

Definition instrumented_line (applicationId : JSVal) : Event :=
  Console log
    [Lit "Application "; Val applicationId;
     Lit (" was instrumented. Bootstrap your application, go to " ++ APP_URL
          ++ " and start profiling!")].

(** The line printed, when [debug] is set, once the instrumentation has
    finished. *)
Definition finished_instrumentation_log (env : Env) (instrumentationId : JSVal)
  : list Event :=
  if debug env then
    [Console log [Lit "Finished instrumention with id "; Val instrumentationId;
                  Lit ". Downloading..."]]
  else [].

(** What the source stage prints when the sources are skipped. *)
Definition skipped_log (finalConfig : Props) : list Event :=
  if truthy (assoc "skipSources" finalConfig) then [sources_skipped] else [].

(** What a run did beside printing: its calls and its suspensions. *)
Definition silent_effects (tr : list Event) : list Event :=
  filter (fun ev => match ev with Console _ _ => false | _ => true end) tr.

(** Two runs that differ at most in what they print. *)
Definition same_but_console {A} (r1 r2 : Run A) : Prop :=
  outcome r1 = outcome r2
  /\ rest r1 = rest r2
  /\ silent_effects (trace r1) = silent_effects (trace r2).

(** Two computations that differ at most in what they print, whatever the
    answers. *)
Definition print_alike {A} (m1 m2 : M A) : Prop :=
  forall tape, same_but_console (m1 tape) (m2 tape).

(** Two environments that differ at most in [DEBUG]. *)
Definition same_but_debug (env1 env2 : Env) : Prop :=
  config env1 = config env2 /\ forall path, require env1 path = require env2 path.

(** The lines printed, when [debug] is set, once the update of the
    parameters is answered (lines 372-375) *)
Definition update_answered_log (env : Env) (updateApplicationRes : JSVal) : list Event :=
  if debug env then
    [Console log [Lit "Finished updating parameters of protection"];
     Console error [Val updateApplicationRes]]
  else [].

(** The error messages a source of a protection reports. *)
Definition error_messages (s : JSVal) : list JSVal :=
  match field s "errorMessages" with
  | JArr messages => messages
  | _ => []
  end.

(** An error message with the name of its source: [{filename: s.filename,
    ...e}] (lines 435-438) *)
Definition tagged (s e : JSVal) : JSVal :=
  JObj (assoc_spread [("filename", field s "filename")] (own_props e)).

(** A source of a protection that reports its error messages, if any, as a
    list. *)
Definition reports_a_list (s : JSVal) : Prop :=
  nullish s = false
  /\ (truthy (field s "errorMessages") = false
      \/ is_array (field s "errorMessages") = true).

(* ================================================================== *)
(** ** Laws of the computations *)
(* ================================================================== *)

Lemma bind_ret {A B} (a : A) (f : A -> M B) tape :
  bind (ret a) f tape = f a tape.
Proof. reflexivity. Qed.

Lemma bind_throw {A B} (e : Exn) (f : A -> M B) tape :
  bind (throw e) f tape = throw e tape.
Proof. reflexivity. Qed.

Lemma bind_ret_fun {A B} (a : A) (f : A -> M B) : bind (ret a) f = f a.
Proof. reflexivity. Qed.

Lemma functional_bind_ret {A B} (a : A) (f : A -> M B) (m : M B) :
  f a = m -> bind (ret a) f = m.
Proof. intros <-. reflexivity. Qed.

Lemma bind_run {A B} (m : M A) (f : A -> M B) tape a tr tape' :
  m tape = mkRun (Returned a) tr tape' ->
  bind m f tape = prepend tr (f a tape').
Proof. intros H. unfold bind, prepend. rewrite H. reflexivity. Qed.

Lemma bind_run_thrown {A B} (m : M A) (f : A -> M B) tape e tr tape' :
  m tape = mkRun (Thrown e) tr tape' ->
  bind m f tape = mkRun (Thrown e) tr tape'.
Proof. intros H. unfold bind. rewrite H. reflexivity. Qed.

Lemma bind_call_resolve {B} c (k : JSVal -> M B) v tape :
  bind (call c) k (Resolve v :: tape) = prepend [Called c] (k v tape).
Proof. reflexivity. Qed.

Lemma bind_call_reject {B} c (k : JSVal -> M B) e tape :
  bind (call c) k (Reject e :: tape) = mkRun (Thrown (Rejected e)) [Called c] tape.
Proof. reflexivity. Qed.

Lemma bind_emit {B} ev (k : unit -> M B) tape :
  bind (emit ev) k tape = prepend [ev] (k tt tape).
Proof. reflexivity. Qed.

Lemma bind_assoc {A B C} (m : M A) (f : A -> M B) (g : B -> M C) tape :
  bind (bind m f) g tape = bind m (fun a => bind (f a) g) tape.
Proof.
  unfold bind. destruct (outcome (m tape)); cbn; try reflexivity.
  destruct (outcome (f a (rest (m tape)))); cbn; try reflexivity.
  now rewrite app_assoc.
Qed.

(** Runs the head of a sequence whose first computation is known. *)
Ltac run_step :=
  first
    [ rewrite bind_assoc | rewrite bind_ret | rewrite bind_throw
    | rewrite bind_call_resolve | rewrite bind_call_reject | rewrite bind_emit ];
  cbv beta.

Ltac run := unfold console; cbn [when]; repeat (run_step; cbn [when]).

Lemma prepend_nil {A} (r : Run A) : prepend [] r = r.
Proof. reflexivity. Qed.

Lemma prepend_prepend {A} tr1 tr2 (r : Run A) :
  prepend tr1 (prepend tr2 r) = prepend (tr1 ++ tr2) r.
Proof. unfold prepend. cbn. now rewrite app_assoc. Qed.

(** *** Computations that consume no answer *)

Lemma local_ret {A} (a : A) : local (ret a).
Proof. intros tape. reflexivity. Qed.

Lemma local_throw {A} (e : Exn) : local (@throw A e).
Proof. intros tape. reflexivity. Qed.

Lemma local_unmodelled {A} : local (@unmodelled A).
Proof. intros tape. reflexivity. Qed.

Lemma local_emit ev : local (emit ev).
Proof. intros tape. reflexivity. Qed.

Lemma local_console l t : local (console l t).
Proof. intros tape. reflexivity. Qed.

Lemma local_bind {A B} (m : M A) (f : A -> M B) :
  local m -> (forall a, local (f a)) -> local (bind m f).
Proof.
  intros Hm Hf tape. unfold bind.
  destruct (outcome (m tape)) eqn:E; cbn; try apply Hm.
  rewrite Hf. apply Hm.
Qed.

Lemma local_when b (m : M unit) : local m -> local (when b m).
Proof. intros H. destruct b; [exact H | apply local_ret]. Qed.

Lemma local_get v k : local (get v k).
Proof. unfold get. destruct (nullish v); [apply local_throw | apply local_ret]. Qed.

Lemma local_as_array v k : local (as_array v k).
Proof. destruct v; first [apply local_ret | apply local_throw]. Qed.

Lemma local_lift {A} (r : Exn + A) : local (lift r).
Proof. destruct r; [apply local_throw | apply local_ret]. Qed.

Lemma local_for_each {A} (l : list A) (f : A -> M unit) :
  (forall x, local (f x)) -> local (for_each l f).
Proof.
  intros Hf. induction l as [|x l IH]; cbn [for_each].
  - apply local_ret.
  - apply local_bind; [apply Hf | intros _; exact IH].
Qed.

Lemma local_map_m {A B} (l : list A) (f : A -> M B) :
  (forall x, local (f x)) -> local (map_m l f).
Proof.
  intros Hf. induction l as [|x l IH]; cbn [map_m].
  - apply local_ret.
  - apply local_bind; [apply Hf | intros y].
    apply local_bind; [exact IH | intros ys; apply local_ret].
Qed.

Lemma local_fold_m {A S} (l : list A) (s : S) (f : S -> A -> M S) :
  (forall s x, local (f s x)) -> local (fold_m l s f).
Proof.
  intros Hf. revert s. induction l as [|x l IH]; intros s; cbn [fold_m].
  - apply local_ret.
  - apply local_bind; [apply Hf | intros s'; apply IH].
Qed.

(** Splits a goal [local m] along the structure of [m]. *)
Ltac local_step :=
  first
    [ apply local_ret | apply local_throw | apply local_unmodelled
    | apply local_emit | apply local_console | apply local_get
    | apply local_as_array | apply local_lift
    | apply local_when
    | apply local_bind; [| intros ?]
    | apply local_for_each; intros ?
    | apply local_map_m; intros ?
    | apply local_fold_m; intros ? ?
    | match goal with
      | |- local (if ?b then _ else _) => destruct b
      | |- local (match ?x with _ => _ end) => destruct x
      end ].

Ltac local_tac := repeat local_step.

Lemma local_errorHandler res : local (errorHandler res).
Proof. unfold errorHandler. local_tac. Qed.

Lemma local_printSourcesErrors errors : local (printSourcesErrors errors).
Proof. unfold printSourcesErrors. local_tac. Qed.

Lemma local_errors_concat errors more : local (errors_concat errors more).
Proof. unfold errors_concat. local_tac. Qed.

(** A computation that consumes no answer is a function of nothing. *)
Lemma local_run {A} (m : M A) tape :
  local m -> rest (m tape) = tape.
Proof. intros H. apply H. Qed.

(** *** The effects of a computation *)

Lemma emits_ret {A} P (a : A) : emits P (ret a).
Proof. intros tape. constructor. Qed.

Lemma emits_throw {A} P (e : Exn) : emits P (@throw A e).
Proof. intros tape. constructor. Qed.

Lemma emits_unmodelled {A} P : emits P (@unmodelled A).
Proof. intros tape. constructor. Qed.

Lemma emits_emit (P : Event -> Prop) ev : P ev -> emits P (emit ev).
Proof. intros H tape. repeat constructor. exact H. Qed.

Lemma emits_console (P : Event -> Prop) l t :
  P (Console l t) -> emits P (console l t).
Proof. apply emits_emit. Qed.

Lemma emits_call (P : Event -> Prop) c : P (Called c) -> emits P (call c).
Proof.
  intros H tape. unfold call.
  destruct tape as [|[v|e] tape']; repeat constructor; exact H.
Qed.

Lemma emits_bind {A B} P (m : M A) (f : A -> M B) :
  emits P m -> (forall a, emits P (f a)) -> emits P (bind m f).
Proof.
  intros Hm Hf tape. unfold bind.
  destruct (outcome (m tape)) eqn:E; cbn; try apply Hm.
  apply Forall_app. split; [apply Hm | apply Hf].
Qed.

Lemma emits_catch {A} P (m : M A) (h : Exn -> M A) :
  emits P m -> (forall e, emits P (h e)) -> emits P (catch m h).
Proof.
  intros Hm Hh tape. unfold catch.
  destruct (outcome (m tape)) eqn:E; cbn; try apply Hm.
  apply Forall_app. split; [apply Hm | apply Hh].
Qed.

Lemma emits_when P b (m : M unit) : emits P m -> emits P (when b m).
Proof. intros H. destruct b; [exact H | apply emits_ret]. Qed.

Lemma emits_get P v k : emits P (get v k).
Proof. unfold get. destruct (nullish v); [apply emits_throw | apply emits_ret]. Qed.

Lemma emits_as_array P v k : emits P (as_array v k).
Proof. destruct v; first [apply emits_ret | apply emits_throw]. Qed.

Lemma emits_lift {A} P (r : Exn + A) : emits P (lift r).
Proof. destruct r; [apply emits_throw | apply emits_ret]. Qed.

Lemma emits_for_each {A} P (l : list A) (f : A -> M unit) :
  (forall x, emits P (f x)) -> emits P (for_each l f).
Proof.
  intros Hf. induction l as [|x l IH]; cbn [for_each].
  - apply emits_ret.
  - apply emits_bind; [apply Hf | intros _; exact IH].
Qed.

Lemma emits_map_m {A B} P (l : list A) (f : A -> M B) :
  (forall x, emits P (f x)) -> emits P (map_m l f).
Proof.
  intros Hf. induction l as [|x l IH]; cbn [map_m].
  - apply emits_ret.
  - apply emits_bind; [apply Hf | intros y].
    apply emits_bind; [exact IH | intros ys; apply emits_ret].
Qed.

Lemma emits_fold_m {A S} P (l : list A) (s : S) (f : S -> A -> M S) :
  (forall s x, emits P (f s x)) -> emits P (fold_m l s f).
Proof.
  intros Hf. revert s. induction l as [|x l IH]; intros s; cbn [fold_m].
  - apply emits_ret.
  - apply emits_bind; [apply Hf | intros s'; apply IH].
Qed.

Lemma emits_iterate {A} P n (body : M (option A)) :
  emits P body -> emits P (iterate n body).
Proof.
  intros Hbody. induction n as [|n IH]; intros tape; cbn [iterate].
  - constructor.
  - destruct (outcome (body tape)) as [[a|]| | |] eqn:E; cbn; try apply Hbody.
    apply Forall_app. split; [apply Hbody | apply IH].
Qed.

Lemma emits_loop {A} P (body : M (option A)) :
  emits P body -> emits P (loop body).
Proof. intros Hbody tape. unfold loop. now apply emits_iterate. Qed.

(** Splits a goal [emits P m] along the structure of [m]; what remains is
    [P] of the single effects. *)
Ltac emits_step :=
  first
    [ apply emits_ret | apply emits_throw | apply emits_unmodelled
    | apply emits_get | apply emits_as_array | apply emits_lift
    | apply emits_emit | apply emits_console | apply emits_call
    | apply emits_when
    | apply emits_bind; [| intros ?]
    | apply emits_catch; [| intros ?]
    | apply emits_for_each; intros ?
    | apply emits_map_m; intros ?
    | apply emits_fold_m; intros ? ?
    | apply emits_loop
    | match goal with
      | |- emits _ (if ?b then _ else _) => destruct b
      | |- emits _ (match ?x with _ => _ end) => destruct x
      end ].

Ltac emits_tac := repeat emits_step; try exact I; try reflexivity.

Lemma emits_calls {A} kind (m : M A) :
  emits (quiet kind) m -> forall tape, calls kind (trace (m tape)) = 0.
Proof.
  intros H tape. specialize (H tape). unfold calls.
  induction H as [|ev tr Hev _ IH]; [reflexivity |].
  cbn [filter]. destruct ev; cbn; try exact IH.
  cbn in Hev. rewrite Hev. exact IH.
Qed.

Lemma emits_errorHandler kind res : emits (quiet kind) (errorHandler res).
Proof. unfold errorHandler. emits_tac. Qed.

Lemma emits_printSourcesErrors kind errors :
  emits (quiet kind) (printSourcesErrors errors).
Proof. unfold printSourcesErrors. emits_tac. Qed.

(** *** What a computation returns *)

Lemma returns_ret {A} (a : A) (P : A -> Prop) : P a -> returns (ret a) P.
Proof. intros H tape a' E. cbn in E. now inversion E; subst. Qed.

Lemma returns_throw {A} (e : Exn) (P : A -> Prop) : returns (throw e) P.
Proof. intros tape a E. discriminate. Qed.

Lemma returns_any {A} (m : M A) : returns m (fun _ => True).
Proof. intros tape a _. exact I. Qed.

Lemma returns_bind {A B} (m : M A) (f : A -> M B) (Q : A -> Prop) (P : B -> Prop) :
  returns m Q -> (forall a, Q a -> returns (f a) P) -> returns (bind m f) P.
Proof.
  intros Hm Hf tape b. unfold bind.
  destruct (outcome (m tape)) eqn:E; cbn; try discriminate.
  apply Hf. now apply (Hm tape).
Qed.

(** *** Loops *)

Lemma iterate_enough {A} (body : M (option A)) :
  consuming body ->
  forall n m tape, length tape < n -> length tape < m ->
                   iterate n body tape = iterate m body tape.
Proof.
  intros Hbody. induction n as [|n IH]; intros m tape Hn Hm; [lia |].
  destruct m as [|m]; [lia |]. cbn [iterate].
  destruct (outcome (body tape)) as [[a|]| | |] eqn:E; try reflexivity.
  specialize (Hbody tape E).
  rewrite (IH m (rest (body tape))) by lia. reflexivity.
Qed.

Lemma loop_continue {A} (body : M (option A)) tape tr tape' :
  consuming body ->
  body tape = mkRun (Returned None) tr tape' ->
  loop body tape = prepend tr (loop body tape').
Proof.
  intros Hbody H. unfold loop. cbn [iterate]. rewrite H. cbn.
  pose proof (Hbody tape) as Hlt. rewrite H in Hlt. cbn in Hlt.
  specialize (Hlt eq_refl).
  rewrite (iterate_enough body Hbody (length tape) (S (length tape')) tape') by lia.
  reflexivity.
Qed.

Lemma loop_done {A} (body : M (option A)) tape a tr tape' :
  body tape = mkRun (Returned (Some a)) tr tape' ->
  loop body tape = mkRun (Returned a) tr tape'.
Proof. intros H. unfold loop. cbn [iterate]. rewrite H. reflexivity. Qed.

Lemma loop_thrown {A} (body : M (option A)) tape e tr tape' :
  body tape = mkRun (Thrown e) tr tape' ->
  loop body tape = mkRun (Thrown e) tr tape'.
Proof. intros H. unfold loop. cbn [iterate]. rewrite H. reflexivity. Qed.

Lemma consuming_call {A} (c : Call) (k : JSVal -> M (option A)) :
  (forall v, local (k v)) -> consuming (bind (call c) k).
Proof.
  intros Hk tape. unfold bind, call.
  destruct tape as [|[v|e] tape']; cbn; try discriminate.
  intros _. rewrite Hk. lia.
Qed.

(** *** Reading properties *)

Lemma get_field v k : nullish v = false -> get v k = ret (field v k).
Proof. intros H. unfold get. rewrite H. reflexivity. Qed.

Lemma field_nullish v k : nullish (field v k) = false -> nullish v = false.
Proof. destruct v; cbn; intros H; first [reflexivity | discriminate]. Qed.

Lemma strict_eq_string v s : strict_eq v (JStr s) = true <-> v = JStr s.
Proof.
  destruct v; cbn; split; intros H; try discriminate.
  - apply String.eqb_eq in H. now subst.
  - inversion H. apply String.eqb_refl.
Qed.

(** *** One round of [pollProtection] *)

Lemma pollProtection_consuming client applicationId protectionId fragments :
  consuming (pollProtection_poll client applicationId protectionId fragments).
Proof.
  unfold pollProtection_poll, getApplicationProtection.
  apply consuming_call. intros v. local_tac.
Qed.

Lemma pollProtection_round client applicationId protectionId fragments
    res protection tape :
  snapshot res protection ->
  protection_terminal (field protection "state") = false ->
  pollProtection client applicationId protectionId fragments (Resolve res :: tape)
  = prepend (round (fetch_protection applicationId protectionId fragments))
      (pollProtection client applicationId protectionId fragments tape).
Proof.
  intros (Herrors & Hprot & Hnull) Hstate.
  unfold pollProtection.
  apply loop_continue.
  - apply pollProtection_consuming.
  - assert (Hdata : nullish (field res "data") = false)
      by (apply field_nullish with (k := "applicationProtection"); now rewrite Hprot).
    assert (Hres : nullish res = false) by (now apply field_nullish in Hdata).
    unfold protection_terminal in Hstate.
    apply orb_false_elim in Hstate as [Hstate Hcanceled].
    apply orb_false_elim in Hstate as [Hfinished Herrored].
    unfold pollProtection_poll, getApplicationProtection.
    rewrite bind_call_resolve.
    rewrite !(get_field res), bind_ret by assumption. rewrite Herrors, bind_ret.
    rewrite (get_field (field res "data")), bind_ret by assumption.
    rewrite Hprot. rewrite (get_field protection), bind_ret by assumption.
    rewrite Hfinished, Herrored, Hcanceled. reflexivity.
Qed.

Lemma pollProtection_canceled client applicationId protectionId fragments
    res protection tape :
  snapshot res protection ->
  field protection "state" = JStr "canceled" ->
  pollProtection client applicationId protectionId fragments (Resolve res :: tape)
  = mkRun (Thrown (Error [Lit "Protection canceled by user"]))
      [Called (fetch_protection applicationId protectionId fragments)] tape.
Proof.
  intros (Herrors & Hprot & Hnull) Hstate.
  unfold pollProtection.
  apply loop_thrown.
  assert (Hdata : nullish (field res "data") = false)
    by (apply field_nullish with (k := "applicationProtection"); now rewrite Hprot).
  assert (Hres : nullish res = false) by (now apply field_nullish in Hdata).
  unfold pollProtection_poll, getApplicationProtection.
  rewrite bind_call_resolve.
  rewrite !(get_field res), bind_ret by assumption. rewrite Herrors, bind_ret.
  rewrite (get_field (field res "data")), bind_ret by assumption.
  rewrite Hprot. rewrite (get_field protection), bind_ret by assumption.
  rewrite Hstate. reflexivity.
Qed.

Lemma pollProtection_returns client applicationId protectionId fragments
    res protection tape :
  snapshot res protection ->
  field protection "state" = JStr "finished"
  \/ field protection "state" = JStr "errored" ->
  pollProtection client applicationId protectionId fragments (Resolve res :: tape)
  = mkRun (Returned protection)
      [Called (fetch_protection applicationId protectionId fragments)] tape.
Proof.
  intros (Herrors & Hprot & Hnull) Hstate.
  unfold pollProtection.
  apply loop_done.
  assert (Hdata : nullish (field res "data") = false)
    by (apply field_nullish with (k := "applicationProtection"); now rewrite Hprot).
  assert (Hres : nullish res = false) by (now apply field_nullish in Hdata).
  unfold pollProtection_poll, getApplicationProtection.
  rewrite bind_call_resolve.
  rewrite !(get_field res), bind_ret by assumption. rewrite Herrors, bind_ret.
  rewrite (get_field (field res "data")), bind_ret by assumption.
  rewrite Hprot. rewrite (get_field protection), bind_ret by assumption.
  destruct Hstate as [-> | ->]; reflexivity.
Qed.

Lemma pollProtection_rounds client applicationId protectionId fragments
    (waiting : list JSVal) tape :
  Forall (fun res => exists protection,
            snapshot res protection
            /\ protection_terminal (field protection "state") = false) waiting ->
  pollProtection client applicationId protectionId fragments
    (map Resolve waiting ++ tape)
  = prepend (rounds (fetch_protection applicationId protectionId fragments) waiting)
      (pollProtection client applicationId protectionId fragments tape).
Proof.
  induction 1 as [|res waiting (protection & Hsnap & Hstate) _ IH]; cbn [map app].
  - reflexivity.
  - rewrite (pollProtection_round _ _ _ _ res protection) by assumption.
    rewrite IH. unfold rounds. cbn [flat_map]. now rewrite prepend_prepend.
Qed.

(** *** One round of [pollInstrumentation] *)

Lemma pollInstrumentation_consuming client instrumentationId :
  consuming (pollInstrumentation_poll client instrumentationId).
Proof.
  unfold pollInstrumentation_poll, getInstrumentation.
  apply consuming_call. intros v.
  repeat first [apply local_errorHandler | apply local_errors_concat | local_step].
Qed.

Lemma pollInstrumentation_round client instrumentationId res state tape :
  instrumentation_state res state ->
  instrumentation_terminal state = false ->
  pollInstrumentation client instrumentationId (Resolve res :: tape)
  = prepend (round (fetch_instrumentation instrumentationId))
      (pollInstrumentation client instrumentationId tape).
Proof.
  intros (Hdata & Hstate) Hterminal.
  unfold pollInstrumentation.
  apply loop_continue; [apply pollInstrumentation_consuming |].
  assert (Hres : nullish res = false) by (now apply field_nullish in Hdata).
  unfold instrumentation_terminal in Hterminal.
  apply orb_false_elim in Hterminal as [Hterminal Hfinished].
  apply orb_false_elim in Hterminal as [Hdeleted Hfailed].
  unfold pollInstrumentation_poll, getInstrumentation.
  rewrite bind_call_resolve.
  rewrite (get_field res), bind_ret by assumption.
  rewrite (get_field (field res "data")), bind_ret by assumption.
  rewrite Hstate, Hdeleted, Hfailed, Hfinished. reflexivity.
Qed.

Lemma pollInstrumentation_deleted client instrumentationId res tape :
  instrumentation_state res (JStr "DELETED") ->
  pollInstrumentation client instrumentationId (Resolve res :: tape)
  = mkRun (Thrown (Error [Lit "Protection canceled by user"]))
      [Called (fetch_instrumentation instrumentationId)] tape.
Proof.
  intros (Hdata & Hstate).
  unfold pollInstrumentation. apply loop_thrown.
  assert (Hres : nullish res = false) by (now apply field_nullish in Hdata).
  unfold pollInstrumentation_poll, getInstrumentation.
  rewrite bind_call_resolve.
  rewrite (get_field res), bind_ret by assumption.
  rewrite (get_field (field res "data")), bind_ret by assumption.
  rewrite Hstate. reflexivity.
Qed.

Lemma pollInstrumentation_finished client instrumentationId res tape :
  instrumentation_state res (JStr "FINISHED_INSTRUMENTATION") ->
  pollInstrumentation client instrumentationId (Resolve res :: tape)
  = mkRun (Returned res) [Called (fetch_instrumentation instrumentationId)] tape.
Proof.
  intros (Hdata & Hstate).
  unfold pollInstrumentation. apply loop_done.
  assert (Hres : nullish res = false) by (now apply field_nullish in Hdata).
  unfold pollInstrumentation_poll, getInstrumentation.
  rewrite bind_call_resolve.
  rewrite (get_field res), bind_ret by assumption.
  rewrite (get_field (field res "data")), bind_ret by assumption.
  rewrite Hstate. reflexivity.
Qed.

Lemma pollInstrumentation_rounds client instrumentationId
    (waiting : list JSVal) tape :
  Forall (fun res => exists state,
            instrumentation_state res state
            /\ instrumentation_terminal state = false) waiting ->
  pollInstrumentation client instrumentationId (map Resolve waiting ++ tape)
  = prepend (rounds (fetch_instrumentation instrumentationId) waiting)
      (pollInstrumentation client instrumentationId tape).
Proof.
  induction 1 as [|res waiting (state & Hsnap & Hstate) _ IH]; cbn [map app].
  - reflexivity.
  - rewrite (pollInstrumentation_round _ _ res state) by assumption.
    rewrite IH. unfold rounds. cbn [flat_map]. now rewrite prepend_prepend.
Qed.

Lemma delays_app ms tr1 tr2 :
  delays ms (tr1 ++ tr2) = delays ms tr1 + delays ms tr2.
Proof. unfold delays. now rewrite filter_app, length_app. Qed.

Lemma calls_app kind tr1 tr2 :
  calls kind (tr1 ++ tr2) = calls kind tr1 + calls kind tr2.
Proof. unfold calls. now rewrite filter_app, length_app. Qed.

Lemma delays_rounds {A} fetch (answers : list A) :
  delays 500 (rounds fetch answers) = length answers.
Proof.
  induction answers as [|x l IH]; [reflexivity |].
  unfold rounds in *. cbn [flat_map]. rewrite delays_app, IH. reflexivity.
Qed.

(** *** The required options *)

Section Laws.

Variable env : Env.

Lemma new_Client_keys finalConfig options :
  nullish (assoc "keys" finalConfig) = false ->
  exists client, new_Client finalConfig options = ret client.
Proof.
  intros H. unfold new_Client, get. rewrite H. eexists. reflexivity.
Qed.

Lemma new_Client_no_keys finalConfig options :
  nullish (assoc "keys" finalConfig) = true ->
  new_Client finalConfig options = throw (TypeError "accessKey").
Proof.
  intros H. unfold new_Client, get. rewrite H. reflexivity.
Qed.

Lemma required_options_missing finalConfig destCallback :
  truthy (assoc "applicationId" finalConfig) = false
  \/ (truthy (assoc "filesDest" finalConfig) = false /\ destCallback = None) ->
  exists e, ConfigurationError e
            /\ required_options finalConfig destCallback = throw e.
Proof.
  intros H. unfold required_options, ConfigurationError.
  destruct (truthy (assoc "applicationId" finalConfig)) eqn:Happ.
  - destruct H as [H | [H ->]]; [discriminate |].
    rewrite H. eexists. split; [right; left; reflexivity | reflexivity].
  - eexists. split; [left; reflexivity | reflexivity].
Qed.

(** C4. A configuration without [applicationId], or with neither
    [filesDest] nor a destination callback, makes [protectAndDownload] and
    [instrumentAndDownload] fail with a configuration error, and no effect
    at all has happened by then: no call, over the network or other, has
    been made. *)
Theorem required_options_checked_before_any_call
    (configPathOrObject : ConfigArg) (destCallback : option string)
    (finalConfig : Props) (tape : list Answer) :
  buildFinalConfig env configPathOrObject = inr finalConfig ->
  truthy (assoc "applicationId" finalConfig) = false
  \/ (truthy (assoc "filesDest" finalConfig) = false /\ destCallback = None) ->
  (exists e, ConfigurationError e
     /\ protectAndDownload env configPathOrObject destCallback tape
        = mkRun (Thrown e) [] tape)
  /\ (exists e, ConfigurationError e
     /\ instrumentAndDownload env configPathOrObject destCallback tape
        = mkRun (Thrown e) [] tape).
Proof.
  intros Hcfg Hmissing.
  destruct (required_options_missing finalConfig destCallback Hmissing)
    as (e & He & Hreq).
  destruct (nullish (assoc "keys" finalConfig)) eqn:Hkeys.
  - split; exists (TypeError "accessKey");
      (split; [right; right; reflexivity |]).
    + unfold protectAndDownload, protect_until_polled.
      do 2 apply bind_run_thrown. unfold protect_until_sources.
      rewrite Hcfg. cbn [lift]. rewrite bind_ret.
      apply bind_run_thrown. now rewrite new_Client_no_keys.
    + unfold instrumentAndDownload.
      rewrite Hcfg. cbn [lift]. rewrite bind_ret.
      apply bind_run_thrown. now rewrite new_Client_no_keys.
  - split; exists e; (split; [assumption |]).
    + destruct (new_Client_keys finalConfig protect_client_options Hkeys) as [c Hc].
      unfold protectAndDownload, protect_until_polled.
      do 2 apply bind_run_thrown. unfold protect_until_sources.
      rewrite Hcfg. cbn [lift]. rewrite bind_ret, Hc, bind_ret.
      apply bind_run_thrown. now rewrite Hreq.
    + destruct (new_Client_keys finalConfig instrument_client_options Hkeys) as [c Hc].
      unfold instrumentAndDownload.
      rewrite Hcfg. cbn [lift]. rewrite bind_ret, Hc, bind_ret.
      apply bind_run_thrown. now rewrite Hreq.
Qed.

End Laws.

(* ================================================================== *)
(** ** The polling loops *)
(* ================================================================== *)

(** C2, as the code has it.  The answer to a fetch that carries the
    snapshot of a protection is classified by the state of the snapshot:
    a state other than [finished], [errored] and [canceled] makes the poll
    wait 500 ms and fetch again; [canceled] makes it throw "Protection
    canceled by user"; [finished] and [errored] alike make it return the
    snapshot.  (An errored protection is failed by [protectAndDownload],
    which prints its [errorMessage] first, not by the poll.) *)
Theorem pollProtection_classifies_snapshot
    (client : Client) (applicationId protectionId fragments : JSVal)
    (res protection : JSVal) (tape : list Answer) :
  snapshot res protection ->
  let state := field protection "state" in
  let fetch := fetch_protection applicationId protectionId fragments in
  let poll := pollProtection client applicationId protectionId fragments in
  (protection_terminal state = false ->
     poll (Resolve res :: tape) = prepend [Called fetch; setTimeout 500] (poll tape))
  /\ (state = JStr "canceled" ->
     poll (Resolve res :: tape)
     = mkRun (Thrown (Error [Lit "Protection canceled by user"])) [Called fetch] tape)
  /\ (state = JStr "finished" \/ state = JStr "errored" ->
     poll (Resolve res :: tape) = mkRun (Returned protection) [Called fetch] tape).
Proof.
  intros Hsnap state fetch poll. repeat split; intros Hstate.
  - now apply pollProtection_round with (protection := protection).
  - now apply pollProtection_canceled with (protection := protection).
  - now apply pollProtection_returns.
Qed.

Lemma pollProtection_classifies_snapshot_witness :
  snapshot errored_answer errored_protection
  /\ pollProtection JUndefined (JStr "app") (JStr "p1") JUndefined
       [Resolve errored_answer]
     = mkRun (Returned errored_protection)
         [Called (fetch_protection (JStr "app") (JStr "p1") JUndefined)] [].
Proof.
  assert (H : snapshot errored_answer errored_protection)
    by (repeat split; reflexivity).
  split; [exact H |].
  apply (pollProtection_classifies_snapshot
           JUndefined (JStr "app") (JStr "p1") JUndefined
           errored_answer errored_protection [] H).
  right. reflexivity.
Defined.

(** C2, as the claim states it, fails on an errored protection: the poll
    does not fail, it returns the protection. *)
Lemma pollProtection_returns_errored_protection :
  let r := pollProtection JUndefined (JStr "app") (JStr "p1") JUndefined
             [Resolve errored_answer] in
  field errored_protection "state" = JStr "errored"
  /\ outcome r = Returned errored_protection
  /\ (forall e, outcome r <> Thrown e).
Proof.
  cbv zeta. split; [reflexivity |]. split; [reflexivity |].
  intros e. vm_compute. discriminate.
Qed.

(** C6. Each fetched snapshot in a state that is not terminal costs one
    fetch and one suspension of 500 ms, after which the poll starts over on
    the answers that follow; the terminal snapshot costs its fetch only.
    So [running, running, finished] returns the protection after exactly
    two suspensions, and [running, canceled] throws "Protection canceled by
    user" after exactly one.  The same holds of [pollInstrumentation] with
    its own terminal states. *)
Theorem poll_suspends_once_per_waiting_snapshot :
  (forall client applicationId protectionId fragments waiting last protection tape,
     Forall (fun res => exists protection,
               snapshot res protection
               /\ protection_terminal (field protection "state") = false) waiting ->
     snapshot last protection ->
     protection_terminal (field protection "state") = true ->
     let r := pollProtection client applicationId protectionId fragments
                (map Resolve waiting ++ Resolve last :: tape) in
     let fetch := fetch_protection applicationId protectionId fragments in
     trace r = rounds fetch waiting ++ [Called fetch]
     /\ delays 500 (trace r) = length waiting
     /\ rest r = tape
     /\ outcome r = if strict_eq (field protection "state") (JStr "canceled")
                    then Thrown (Error [Lit "Protection canceled by user"])
                    else Returned protection)
  /\ (forall client instrumentationId waiting tape,
     Forall (fun res => exists state,
               instrumentation_state res state
               /\ instrumentation_terminal state = false) waiting ->
     let poll := pollInstrumentation client instrumentationId in
     let fetch := fetch_instrumentation instrumentationId in
     poll (map Resolve waiting ++ tape) = prepend (rounds fetch waiting) (poll tape)
     /\ delays 500 (rounds fetch waiting) = length waiting
     /\ (forall last, instrumentation_state last (JStr "FINISHED_INSTRUMENTATION") ->
           poll (Resolve last :: tape) = mkRun (Returned last) [Called fetch] tape)
     /\ (forall last, instrumentation_state last (JStr "DELETED") ->
           poll (Resolve last :: tape)
           = mkRun (Thrown (Error [Lit "Protection canceled by user"]))
               [Called fetch] tape))
  /\ (forall client applicationId protectionId fragments,
     let poll := pollProtection client applicationId protectionId fragments in
     let fetch := fetch_protection applicationId protectionId fragments in
     poll (map Resolve [protection_in "running"; protection_in "running";
                        protection_in "finished"])
     = mkRun (Returned (JObj [("state", JStr "finished")]))
         [Called fetch; setTimeout 500; Called fetch; setTimeout 500; Called fetch] []
     /\ poll (map Resolve [protection_in "running"; protection_in "canceled"])
        = mkRun (Thrown (Error [Lit "Protection canceled by user"]))
            [Called fetch; setTimeout 500; Called fetch] []).
Proof.
  split; [| split].
  - intros client applicationId protectionId fragments waiting last protection tape
      Hwaiting Hlast Hterminal r fetch. subst r.
    rewrite pollProtection_rounds by assumption.
    assert (Hend :
      pollProtection client applicationId protectionId fragments (Resolve last :: tape)
      = mkRun (if strict_eq (field protection "state") (JStr "canceled")
               then Thrown (Error [Lit "Protection canceled by user"])
               else Returned protection) [Called fetch] tape).
    { unfold protection_terminal in Hterminal.
      destruct (strict_eq (field protection "state") (JStr "canceled")) eqn:Hc.
      - apply strict_eq_string in Hc.
        now apply pollProtection_canceled with (protection := protection).
      - rewrite orb_false_r in Hterminal. apply orb_true_iff in Hterminal.
        apply pollProtection_returns; [assumption |].
        destruct Hterminal as [H | H]; apply strict_eq_string in H; auto. }
    rewrite Hend. unfold prepend. cbn [trace outcome rest].
    split; [reflexivity |]. split; [| split; reflexivity].
    rewrite delays_app, delays_rounds. cbn. lia.
  - intros client instrumentationId waiting tape Hwaiting poll fetch.
    repeat split.
    + now apply pollInstrumentation_rounds.
    + apply delays_rounds.
    + intros last Hlast. now apply pollInstrumentation_finished.
    + intros last Hlast. now apply pollInstrumentation_deleted.
  - intros client applicationId protectionId fragments poll fetch. subst poll.
    assert (Hrunning : exists protection,
               snapshot (protection_in "running") protection
               /\ protection_terminal (field protection "state") = false).
    { eexists. repeat split. }
    split.
    + rewrite (pollProtection_rounds _ _ _ _
                 [protection_in "running"; protection_in "running"]
                 [Resolve (protection_in "finished")])
        by (repeat constructor; exact Hrunning).
      rewrite (pollProtection_returns _ _ _ _ (protection_in "finished")
                 (JObj [("state", JStr "finished")]))
        by (repeat split; left; reflexivity).
      reflexivity.
    + rewrite (pollProtection_rounds _ _ _ _ [protection_in "running"]
                 [Resolve (protection_in "canceled")])
        by (repeat constructor; exact Hrunning).
      rewrite (pollProtection_canceled _ _ _ _ (protection_in "canceled")
                 (JObj [("state", JStr "canceled")]))
        by (repeat split).
      reflexivity.
Qed.

(* ================================================================== *)
(** ** The source bundle *)
(* ================================================================== *)

Section SourceBundle.

Variable env : Env.

Lemma generate_base64_returns zipped :
  returns (generate_base64 zipped)
          (fun content => exists bytes, content = JStr (base64 bytes)).
Proof.
  destruct zipped; try apply returns_throw.
  apply returns_ret. now exists bytes.
Qed.

(** C9. Without inline sources and without a non-empty [filesSrc],
    [updateApplicationSources] does nothing and returns no bundle.  With
    inline sources and no [filesSrc], it never reads the file system;
    whatever it returns is either nothing or a bundle
    [{content, filename: "application.zip", extension: "zip"}] whose content
    is the base64 of the bytes of an archive; and when the profiling run is
    not ready and the service accepts the removal and the upload, it hands
    the sources as they are to [zipSources], uploads the bundle of the
    archive it got back and returns that bundle. *)
Theorem updateApplicationSources_bundles_inline_sources
    (client : Client) (applicationId sources filesSrc cwd appProfiling : JSVal) :
  truthy (js_and filesSrc (field filesSrc "length")) = false ->
  let update :=
    updateApplicationSources env client applicationId sources filesSrc cwd appProfiling in
  (truthy sources = false ->
     forall tape, update tape = mkRun (Returned JUndefined) [] tape)
  /\ (truthy sources = true ->
     (forall tape, calls is_file_system (trace (update tape)) = 0)
     /\ returns update
          (fun source => source = JUndefined \/ exists bytes, source = bundle bytes)
     /\ (forall removed bytes added tape,
           not_ready appProfiling -> accepted removed -> accepted added ->
           update (Resolve removed :: Resolve (JArchive bytes) :: Resolve added :: tape)
           = mkRun (Returned (bundle bytes))
               ([Called (remove_sources applicationId)]
                ++ debug_log env "Creating zip from sources"
                ++ [Called (zipSources sources)]
                ++ debug_log env "Adding sources to application"
                ++ [Called (upload_source applicationId (bundle bytes))])
               tape)).
Proof.
  intros Hfiles update. subst update. unfold updateApplicationSources.
  rewrite Hfiles. split; intros Hsources; rewrite Hsources.
  - intros tape. reflexivity.
  - cbn [orb]. repeat split.
    + apply emits_calls.
      unfold generate_base64, removeSourceFromApplication, addApplicationSource.
      repeat first [apply emits_errorHandler | emits_step]; try exact I; reflexivity.
    + apply returns_bind with (Q := fun _ => True); [apply returns_any | intros _ _].
      apply returns_bind with (Q := fun _ => True); [apply returns_any | intros zipped _].
      destruct (truthy zipped); [| apply returns_ret; now left].
      eapply returns_bind; [apply generate_base64_returns |].
      intros content [bytes ->].
      apply returns_bind with (Q := fun _ => True); [apply returns_any | intros _ _].
      apply returns_bind with (Q := fun _ => True); [apply returns_any | intros added _].
      apply returns_bind with (Q := fun _ => True); [apply returns_any | intros _ _].
      apply returns_ret. right. now exists bytes.
    + intros removed bytes added tape Hready Hremoved Hadded.
      unfold accepted in Hremoved, Hadded.
      unfold removeSourceFromApplication, addApplicationSource, debug_log.
      assert (Hcheck :
        (if truthy appProfiling
         then state <- get (field appProfiling "data") "state" ;;
              ret (strict_eq state (JStr "READY"))
         else ret false) = ret false).
      { destruct Hready as [-> | [Hdata Hstate]]; [reflexivity |].
        destruct (truthy appProfiling); [| reflexivity].
        rewrite get_field by assumption.
        apply functional_bind_ret. now rewrite Hstate. }
      rewrite Hcheck. run. rewrite Hremoved. run.
      destruct (debug env); run; cbn [truthy generate_base64]; run;
        rewrite Hadded; run; reflexivity.
Qed.

End SourceBundle.

(* ================================================================== *)
(** ** The probe for a profiling run *)
(* ================================================================== *)

Lemma probe_found client applicationId v tape :
  catch (getApplicationProfiling client applicationId) rethrow_unless_404
    (Resolve v :: tape)
  = mkRun (Returned v) [Called (fetch_profiling applicationId)] tape.
Proof. reflexivity. Qed.

Lemma probe_not_found client applicationId e tape :
  not_found e = true ->
  catch (getApplicationProfiling client applicationId) rethrow_unless_404
    (Reject e :: tape)
  = mkRun (Returned JUndefined) [Called (fetch_profiling applicationId)] tape.
Proof.
  intros H. unfold not_found in H.
  unfold catch, getApplicationProfiling, call, rethrow_unless_404. cbn.
  rewrite H. reflexivity.
Qed.



Lemma new_Client_configured finalConfig options :
  nullish (assoc "keys" finalConfig) = false ->
  new_Client finalConfig options = ret (client_of finalConfig options).
Proof. intros H. unfold new_Client, get. rewrite H. reflexivity. Qed.

Lemma required_options_configured finalConfig destCallback :
  configured finalConfig destCallback ->
  required_options finalConfig destCallback
  = ret (filesSrc_of finalConfig, filesDest_of finalConfig destCallback).
Proof.
  intros (_ & Happ & Hdest). unfold required_options. rewrite Happ.
  destruct destCallback as [f|]; [reflexivity |].
  destruct Hdest as [Hdest | Hdest]; [| congruence].
  rewrite Hdest. reflexivity.
Qed.

Section Probe.

Variable env : Env.

Lemma protect_until_sources_configured cpo destCallback finalConfig :
  buildFinalConfig env cpo = inr finalConfig ->
  configured finalConfig destCallback ->
  protect_until_sources env cpo destCallback
  = (source <- protect_sources env (client_of finalConfig protect_client_options)
                 finalConfig (filesSrc_of finalConfig) ;;
     ret (mkPrepared (client_of finalConfig protect_client_options) finalConfig
            (filesDest_of finalConfig destCallback) source)).
Proof.
  intros Hcfg Hok. unfold protect_until_sources.
  rewrite Hcfg. cbn [lift]. rewrite bind_ret_fun.
  rewrite new_Client_configured by apply Hok. rewrite bind_ret_fun.
  rewrite required_options_configured by assumption.
  reflexivity.
Qed.




(** What [setProfilingState] does when the run is already in the requested
    state: it patches nothing, prints the caller's [label] and returns
    [undefined]. *)
Lemma setProfilingState_same_state cpo finalConfig state label instrumentation tape :
  buildFinalConfig env cpo = inr finalConfig ->
  nullish (assoc "keys" finalConfig) = false ->
  truthy instrumentation = true ->
  nullish (field instrumentation "data") = false ->
  strict_eq (field (field instrumentation "data") "state") state = true ->
  setProfilingState env cpo state label (Resolve instrumentation :: tape)
  = mkRun (Returned JUndefined)
      [Called (fetch_profiling (assoc "applicationId" finalConfig));
       Console log [Lit "Profiling was already "; Val label; Lit " for application ";
                    Val (assoc "applicationId" finalConfig); Lit "."]]
      tape.
Proof.
  intros Hcfg Hkeys Htruthy Hdata Hstate. unfold setProfilingState.
  rewrite Hcfg. cbn [lift]. rewrite bind_ret.
    rewrite new_Client_configured by assumption. rewrite bind_ret. cbv zeta.
  etransitivity; [eapply bind_run; apply (probe_found JUndefined) |].
  cbv beta. rewrite Htruthy. cbn [negb when]. rewrite bind_ret.
  rewrite get_field by assumption. rewrite bind_ret. rewrite Hstate.
  reflexivity.
Qed.

(** What [setProfilingState] does otherwise: one patch, with the requested
    state. *)
Lemma setProfilingState_other_state
    cpo finalConfig state label instrumentation patched tape :
  buildFinalConfig env cpo = inr finalConfig ->
  nullish (assoc "keys" finalConfig) = false ->
  truthy instrumentation = true ->
  nullish (field instrumentation "data") = false ->
  strict_eq (field (field instrumentation "data") "state") state = false ->
  setProfilingState env cpo state label
    (Resolve instrumentation :: Resolve patched :: tape)
  = mkRun (Returned JUndefined)
      [Called (fetch_profiling (assoc "applicationId" finalConfig));
       Called (client_patch
                 [Lit "/profiling-run/"; Val (field (field instrumentation "data") "id")]
                 (Plain (JObj [("state", state)])));
       Console log [Lit "Profiling was "; Val label; Lit " for application ";
                    Val (assoc "applicationId" finalConfig); Lit "."]]
      tape.
Proof.
  intros Hcfg Hkeys Htruthy Hdata Hstate. unfold setProfilingState.
  rewrite Hcfg. cbn [lift]. rewrite bind_ret.
    rewrite new_Client_configured by assumption. rewrite bind_ret. cbv zeta.
  etransitivity; [eapply bind_run; apply (probe_found JUndefined) |].
  cbv beta. rewrite Htruthy. cbn [negb when]. rewrite bind_ret.
  rewrite !get_field by assumption. rewrite bind_ret. rewrite Hstate.
  reflexivity.
Qed.

(** C5. With the required options given, sources not skipped, no removal
    of the profiling data asked for, and new sources supplied (inline or by
    a non-empty [filesSrc]): when the probe finds a profiling run in state
    [READY], [protectAndDownload] fails with the error "Ready profiling data
    PREVENTS source files from being UPDATED!", having made the probe and
    nothing else: neither the removal of the sources nor an upload. *)
Theorem ready_profiling_data_prevents_source_update
    (cpo : ConfigArg) (destCallback : option string) (finalConfig : Props)
    (appProfiling : JSVal) (tape : list Answer) :
  buildFinalConfig env cpo = inr finalConfig ->
  configured finalConfig destCallback ->
  truthy (assoc "skipSources" finalConfig) = false ->
  truthy (assoc "removeProfilingData" finalConfig) = false ->
  new_sources finalConfig = true ->
  field (field appProfiling "data") "state" = JStr "READY" ->
  let r := protectAndDownload env cpo destCallback (Resolve appProfiling :: tape) in
  r = mkRun
        (Thrown (Error [Lit "Ready profiling data PREVENTS source files from being UPDATED! Please add option *--remove-profiling-data* or *--skip-source* to continue."]))
        [Called (fetch_profiling (assoc "applicationId" finalConfig))] tape
  /\ calls is_source_removal (trace r) = 0
  /\ calls is_source_upload (trace r) = 0.
Proof.
  intros Hcfg Hok Hskip Hremove Hnew Hready r.
  assert (Hr : r = mkRun
        (Thrown (Error [Lit "Ready profiling data PREVENTS source files from being UPDATED! Please add option *--remove-profiling-data* or *--skip-source* to continue."]))
        [Called (fetch_profiling (assoc "applicationId" finalConfig))] tape).
  { subst r. unfold protectAndDownload, protect_until_polled.
    rewrite (protect_until_sources_configured _ _ _ Hcfg Hok).
    do 3 apply bind_run_thrown.
    assert (Hdata : nullish (field appProfiling "data") = false)
      by (apply field_nullish with (k := "state"); now rewrite Hready).
    assert (Happ : truthy appProfiling = true)
      by (destruct appProfiling; cbn in Hdata |- *; try discriminate; reflexivity).
    unfold protect_sources. rewrite Hskip. cbn [negb].
    rewrite (bind_run _ _ _ _ _ _ (probe_found _ _ appProfiling tape)).
    rewrite Hremove, andb_false_r. rewrite bind_ret.
    unfold updateApplicationSources.
    unfold new_sources in Hnew. rewrite Hnew.
    rewrite Happ. rewrite get_field by assumption. rewrite Hready.
    reflexivity. }
  rewrite Hr. repeat split.
Qed.

End Probe.

(* ================================================================== *)
(** ** The verdict on a polled protection *)
(* ================================================================== *)

Lemma run_eta {A} (r : Run A) o t :
  outcome r = o -> rest r = t -> r = mkRun o (trace r) t.
Proof. intros <- <-. reflexivity. Qed.

Lemma for_each_console {A} (l : list A) (line : A -> Event) tape :
  for_each l (fun x => emit (line x)) tape = mkRun (Returned tt) (map line l) tape.
Proof.
  induction l as [|x l IH]; [reflexivity |].
  cbn [for_each map]. unfold bind. cbn. rewrite IH. reflexivity.
Qed.

Lemma Forall_False_nil {A} (l : list A) : Forall (fun _ => False) l -> l = [].
Proof. destruct 1; [reflexivity | contradiction]. Qed.

Lemma collect_sourcesErrors_silent protection tape :
  trace (collect_sourcesErrors protection tape) = [].
Proof.
  apply Forall_False_nil.
  assert (H : emits (fun _ => False) (collect_sourcesErrors protection)).
  { unfold collect_sourcesErrors. repeat emits_step. }
  apply H.
Qed.

Lemma collect_sourcesErrors_local protection : local (collect_sourcesErrors protection).
Proof. unfold collect_sourcesErrors. local_tac. Qed.

Lemma protect_verdict_bails protection sourcesErrors tape :
  field protection "state" = JStr "finished" ->
  sourcesErrors <> [] ->
  truthy (field protection "bail") = true ->
  protect_verdict protection sourcesErrors tape
  = mkRun (Thrown (Error [Lit "Your protection has failed."]))
      (printed_errors sourcesErrors) tape.
Proof.
  intros Hstate Herrs Hbail. unfold protect_verdict.
  assert (Hnull : nullish protection = false)
    by (apply field_nullish with (k := "state"); now rewrite Hstate).
  rewrite get_field by assumption. rewrite bind_ret, Hstate. cbn [strict_eq String.eqb Ascii.eqb Bool.eqb].
  destruct sourcesErrors as [|e errs]; [congruence |].
  cbn [length Nat.ltb Nat.leb]. rewrite Hbail. reflexivity.
Qed.

Lemma protect_verdict_warns protection sourcesErrors tape :
  field protection "state" = JStr "finished" ->
  sourcesErrors <> [] ->
  truthy (field protection "bail") = false ->
  protect_verdict protection sourcesErrors tape
  = mkRun (Returned tt) (map non_fatal sourcesErrors) tape.
Proof.
  intros Hstate Herrs Hbail. unfold protect_verdict.
  assert (Hnull : nullish protection = false)
    by (apply field_nullish with (k := "state"); now rewrite Hstate).
  rewrite get_field by assumption. rewrite bind_ret, Hstate. cbn [strict_eq String.eqb Ascii.eqb Bool.eqb].
  destruct sourcesErrors as [|e errs]; [congruence |].
  cbn [length Nat.ltb Nat.leb]. rewrite Hbail.
  apply (for_each_console (e :: errs) non_fatal).
Qed.

(* ================================================================== *)
(** ** Which stage makes which call *)
(* ================================================================== *)

Lemma emits_weaken {A} (P Q : Event -> Prop) (m : M A) :
  (forall ev, P ev -> Q ev) -> emits P m -> emits Q m.
Proof. intros HPQ H tape. eapply Forall_impl; [exact HPQ | apply H]. Qed.

Lemma quiet_either_l kind1 kind2 ev : quiet (either kind1 kind2) ev -> quiet kind1 ev.
Proof.
  destruct ev; cbn; auto. unfold either. intros H.
  now apply orb_false_elim in H.
Qed.

Lemma quiet_either_r kind1 kind2 ev : quiet (either kind1 kind2) ev -> quiet kind2 ev.
Proof.
  destruct ev; cbn; auto. unfold either. intros H.
  now apply orb_false_elim in H.
Qed.

Lemma emits_expand_filesSrc kind entries _filesSrc :
  (forall pattern, kind (glob_sync pattern) = false) ->
  emits (quiet kind) (expand_filesSrc entries _filesSrc).
Proof.
  intros Hglob. revert _filesSrc.
  induction entries as [|entry entries IH]; intros _filesSrc; cbn [expand_filesSrc].
  - apply emits_ret.
  - destruct (is_string entry); [| apply IH].
    apply emits_bind; [apply emits_call, Hglob | intros matches; apply IH].
Qed.

(** Splits [emits (quiet kind) m] for a concrete [kind] and closes what
    remains by computation. *)
Ltac quiet_tac :=
  cbv zeta;
  repeat first
    [ apply emits_errorHandler | apply emits_printSourcesErrors
    | apply emits_expand_filesSrc; intros ?; reflexivity
    | emits_step ];
  try exact I; try reflexivity.

Section Stages.

Variable env : Env.

Lemma updateApplicationSources_quiet client applicationId sources filesSrc cwd appProfiling :
  emits (quiet job_call)
    (updateApplicationSources env client applicationId sources filesSrc cwd appProfiling).
Proof.
  unfold updateApplicationSources, removeSourceFromApplication, addApplicationSource,
    generate_base64.
  quiet_tac.
Qed.

Lemma protect_until_sources_quiet cpo destCallback :
  emits (quiet job_call) (protect_until_sources env cpo destCallback).
Proof.
  unfold protect_until_sources, new_Client, required_options, protect_sources,
    getApplicationProfiling, deleteProfiling, rethrow_unless_404, assign.
  repeat first [apply updateApplicationSources_quiet | emits_step];
    try exact I; try reflexivity.
Qed.

Lemma pollProtection_quiet client applicationId protectionId fragments :
  emits (quiet job_call) (pollProtection client applicationId protectionId fragments).
Proof.
  unfold pollProtection, pollProtection_poll, getApplicationProtection. quiet_tac.
Qed.

Lemma build_updateData_quiet kind finalConfig :
  emits (quiet kind) (build_updateData finalConfig).
Proof. unfold build_updateData, normalizeParameters. quiet_tac. Qed.

Lemma protect_parameters_quiet client finalConfig :
  emits (quiet (either is_createApplicationProtection is_download))
    (protect_parameters env client finalConfig).
Proof.
  unfold protect_parameters, updateApplication.
  repeat first [apply build_updateData_quiet | apply emits_errorHandler | emits_step];
    try exact I; try reflexivity.
Qed.

Lemma protect_create_quiet client finalConfig source updateData :
  emits (quiet (either is_updateApplication is_download))
    (protect_create env client finalConfig source updateData).
Proof. unfold protect_create, createApplicationProtection. quiet_tac. Qed.

Lemma protect_warnings_quiet kind protection :
  emits (quiet kind) (protect_warnings env protection).
Proof. unfold protect_warnings. quiet_tac. Qed.

Lemma protect_warnings_local protection : local (protect_warnings env protection).
Proof. unfold protect_warnings. local_tac. Qed.

Lemma collect_sourcesErrors_quiet kind protection :
  emits (quiet kind) (collect_sourcesErrors protection).
Proof. unfold collect_sourcesErrors. quiet_tac. Qed.

Lemma protect_verdict_quiet kind protection sourcesErrors :
  emits (quiet kind) (protect_verdict protection sourcesErrors).
Proof. unfold protect_verdict. quiet_tac. Qed.

Lemma protect_download_quiet client protectionId filesDest destCallback stream :
  emits (quiet (either is_updateApplication is_createApplicationProtection))
    (protect_download env client protectionId filesDest destCallback stream).
Proof. unfold protect_download, downloadApplicationProtection. quiet_tac. Qed.

Lemma protect_finish_quiet p destCallback :
  emits (quiet (either is_updateApplication is_createApplicationProtection))
    (protect_finish env p destCallback).
Proof.
  unfold protect_finish.
  repeat first
    [ apply protect_warnings_quiet | apply collect_sourcesErrors_quiet
    | apply protect_verdict_quiet | apply protect_download_quiet | emits_step ].
Qed.

Lemma protect_job_quiet_download s :
  emits (quiet is_download) (protect_job env s).
Proof.
  unfold protect_job. cbv zeta.
  apply emits_bind;
    [eapply emits_weaken; [apply quiet_either_r | apply protect_parameters_quiet] |].
  intros updateData.
  apply emits_bind;
    [eapply emits_weaken; [apply quiet_either_r | apply protect_create_quiet] |].
  intros protectionId.
  apply emits_bind; [apply emits_call; reflexivity |]. intros fragments.
  apply emits_bind; [| intros protection; apply emits_ret].
  eapply emits_weaken; [| apply pollProtection_quiet].
  intros ev H. now apply quiet_either_r, quiet_either_r in H.
Qed.

Lemma protect_until_polled_quiet_download cpo destCallback :
  emits (quiet is_download) (protect_until_polled env cpo destCallback).
Proof.
  unfold protect_until_polled.
  apply emits_bind; [| intros s; apply protect_job_quiet_download].
  eapply emits_weaken; [| apply protect_until_sources_quiet].
  intros ev H. now apply quiet_either_r, quiet_either_r in H.
Qed.

End Stages.

Section Verdict.

Variable env : Env.

Lemma protect_download_calls client protectionId filesDest destCallback stream tape :
  exists after,
    trace (protect_download env client protectionId filesDest destCallback stream tape)
    = debug_log env "Downloading protection result"
      ++ Called (download_protection protectionId) :: after
    /\ calls is_download after = 0.
Proof.
  unfold protect_download, downloadApplicationProtection, debug_log.
  set (k := fun download : JSVal =>
         errorHandler download ;;
         when (debug env) (console log [Lit "Unzipping files"]) ;;
         call (unzip download (destination filesDest destCallback) stream) ;;
         when (debug env) (console log [Lit "Finished unzipping files"]) ;;
         console log [Val protectionId] ;;
         ret protectionId).
  assert (Hk : forall v, emits (quiet is_download) (k v)).
  { intros v. unfold k. quiet_tac. }
  assert (Hcall : exists after,
            trace (bind (call (download_protection protectionId)) k tape)
            = Called (download_protection protectionId) :: after
            /\ calls is_download after = 0).
  { unfold bind, call. destruct tape as [|[v|e] tape']; cbn.
    - now exists [].
    - exists (trace (k v tape')). split; [reflexivity |].
      now apply emits_calls.
    - now exists []. }
  destruct Hcall as (after & Htrace & Hafter). exists after.
  split; [| exact Hafter].
  unfold download_protection in Htrace.
  destruct (debug env); cbn [when]; unfold bind at 1; cbn; fold k; now rewrite Htrace.
Qed.

Lemma protect_download_returns
    client protectionId filesDest destCallback stream archive unzipped tape :
  accepted archive ->
  let r := protect_download env client protectionId filesDest destCallback stream
             (Resolve archive :: Resolve unzipped :: tape) in
  outcome r = Returned protectionId /\ rest r = tape.
Proof.
  intros Haccepted. unfold accepted in Haccepted.
  unfold protect_download, downloadApplicationProtection.
  destruct (debug env); run; rewrite Haccepted; run; split; reflexivity.
Qed.

(** C1. Take a run of [protectAndDownload] whose poll returned a
    protection in state [finished], whose warnings were printed and whose
    per-source error messages, gathered with the name of their source, are
    not empty.  If the [bail] carried by that protection holds, the run
    prints all the errors and then fails with "Your protection has
    failed.", and no download has been asked for.  If it does not hold,
    the run prints one "Non-fatal error" warning per error and goes on to
    ask for the download, once; it returns the id of the protection when
    the download is answered by an archive that [errorHandler] lets
    through and [unzip] returns. *)
Theorem per_source_errors_bail_or_warn
    (cpo : ConfigArg) (destCallback : option string) (tape : list Answer)
    (p : Polled) (before : list Event) (tape' : list Answer) (errors : list JSVal) :
  protect_until_polled env cpo destCallback tape = mkRun (Returned p) before tape' ->
  let protection := polled_protection p in
  field protection "state" = JStr "finished" ->
  outcome (protect_warnings env protection tape') = Returned tt ->
  outcome (collect_sourcesErrors protection tape') = Returned errors ->
  errors <> [] ->
  let warnings := trace (protect_warnings env protection tape') in
  let r := protectAndDownload env cpo destCallback tape in
  (truthy (field protection "bail") = true ->
     r = mkRun (Thrown (Error [Lit "Your protection has failed."]))
           (before ++ warnings ++ printed_errors errors) tape'
     /\ calls is_download (trace r) = 0)
  /\ (truthy (field protection "bail") = false ->
     (exists after,
        trace r = before ++ warnings ++ map non_fatal errors
                  ++ debug_log env "Downloading protection result"
                  ++ Called (download_protection (polled_id p)) :: after
        /\ calls is_download after = 0)
     /\ calls is_download (trace r) = 1
     /\ (forall archive unzipped tape'',
           tape' = Resolve archive :: Resolve unzipped :: tape'' ->
           accepted archive ->
           outcome r = Returned (polled_id p) /\ rest r = tape'')).
Proof.
  intros Hpolled protection Hstate Hwarn Hcollect Herrors warnings r.
  assert (Hbefore : calls is_download before = 0).
  { pose proof (emits_calls is_download _
                  (protect_until_polled_quiet_download env cpo destCallback) tape) as H.
    now rewrite Hpolled in H. }
  assert (Hwarnings : calls is_download warnings = 0)
    by apply emits_calls, protect_warnings_quiet.
  assert (Hw : protect_warnings env protection tape' = mkRun (Returned tt) warnings tape')
    by (apply run_eta; [exact Hwarn | apply protect_warnings_local]).
  assert (Hc : collect_sourcesErrors protection tape' = mkRun (Returned errors) [] tape').
  { rewrite <- (collect_sourcesErrors_silent protection tape').
    apply run_eta; [exact Hcollect | apply collect_sourcesErrors_local]. }
  assert (Hr : r = prepend (before ++ warnings)
                     (bind (protect_verdict protection errors)
                        (fun _ => protect_download env (polled_client p) (polled_id p)
                                    (polled_filesDest p) destCallback
                                    (or_default (assoc "stream" (polled_config p))
                                       (JBool true))) tape')).
  { subst r. unfold protectAndDownload.
    rewrite (bind_run _ _ _ _ _ _ Hpolled). unfold protect_finish.
    fold protection. rewrite (bind_run _ _ _ _ _ _ Hw).
    rewrite (bind_run _ _ _ _ _ _ Hc).
    rewrite prepend_nil, prepend_prepend. reflexivity. }
  split; intros Hbail.
  - assert (Hr' : r = mkRun (Thrown (Error [Lit "Your protection has failed."]))
                        (before ++ warnings ++ printed_errors errors) tape').
    { rewrite Hr.
      rewrite (bind_run_thrown _ _ _ _ _ _
                 (protect_verdict_bails protection errors tape' Hstate Herrors Hbail)).
      unfold prepend. cbn. now rewrite app_assoc. }
    split; [exact Hr' |]. rewrite Hr'. cbn [trace].
    rewrite !calls_app, Hbefore, Hwarnings. reflexivity.
  - rewrite (bind_run _ _ _ _ _ _
               (protect_verdict_warns protection errors tape' Hstate Herrors Hbail)) in Hr.
    rewrite prepend_prepend in Hr.
    destruct (protect_download_calls (polled_client p) (polled_id p)
                (polled_filesDest p) destCallback
                (or_default (assoc "stream" (polled_config p)) (JBool true)) tape')
      as (after & Htrace & Hafter).
    assert (Hnon_fatal : calls is_download (map non_fatal errors) = 0).
    { clear. induction errors as [|e l IH]; [reflexivity | exact IH]. }
    assert (Htr : trace r = before ++ warnings ++ map non_fatal errors
                  ++ debug_log env "Downloading protection result"
                  ++ Called (download_protection (polled_id p)) :: after).
    { rewrite Hr. unfold prepend. cbn [trace]. rewrite Htrace.
      now rewrite <- !app_assoc. }
    repeat split.
    + exists after. split; [exact Htr | exact Hafter].
    + rewrite Htr, !calls_app, Hbefore, Hwarnings, Hnon_fatal.
      replace (Called (download_protection (polled_id p)) :: after)
        with ([Called (download_protection (polled_id p))] ++ after) by reflexivity.
      rewrite calls_app, Hafter. unfold debug_log. now destruct (debug env).
    + rewrite Hr. unfold prepend. cbn [outcome]. subst tape'.
      now apply protect_download_returns.
    + rewrite Hr. unfold prepend. cbn [rest]. subst tape'.
      now apply protect_download_returns.
Qed.

End Verdict.

(* ================================================================== *)
(** ** The update of the parameters *)
(* ================================================================== *)

Lemma assoc_assoc_set k k' v ps :
  assoc k (assoc_set k' v ps) = if String.eqb k' k then v else assoc k ps.
Proof.
  induction ps as [|[k0 v0] ps IH]; cbn [assoc_set assoc].
  - reflexivity.
  - destruct (String.eqb k0 k') eqn:E1; cbn [assoc].
    + apply String.eqb_eq in E1. subst k0.
      destruct (String.eqb k' k); reflexivity.
    + destruct (String.eqb k0 k) eqn:E2.
      * apply String.eqb_eq in E2. subst k0. now rewrite String.eqb_sym, E1.
      * exact IH.
Qed.

Lemma assoc_set_if k b k' v o :
  assoc k (set_if b k' v o) = if b && String.eqb k' k then v else assoc k o.
Proof. unfold set_if. destruct b; [apply assoc_assoc_set | reflexivity]. Qed.

Lemma normalizeParameters_truthy parameters :
  truthy parameters = true ->
  exists normalized,
    normalizeParameters parameters = ret normalized /\ truthy normalized = true.
Proof.
  intros H. unfold normalizeParameters.
  destruct (is_array parameters) eqn:Harr; [now exists parameters |].
  assert (Hnull : nullish parameters = false)
    by (destruct parameters; cbn in H |- *; congruence).
  rewrite Hnull. eexists. split; reflexivity.
Qed.

Lemma truthy_if_truthy v w :
  truthy (if truthy v then v else w) = truthy v || truthy w.
Proof. destruct (truthy v) eqn:E; [exact E | reflexivity]. Qed.

Lemma build_updateData_returns finalConfig :
  exists updateData,
    build_updateData finalConfig = ret updateData
    /\ parameters_changed updateData = supplied finalConfig.
Proof.
  unfold build_updateData. cbv zeta.
  destruct (truthy (assoc "params" finalConfig)
            && negb (length (own_props (assoc "params" finalConfig)) =? 0)%nat)
    eqn:Hparams.
  - pose proof Hparams as Htruthy. apply andb_prop in Htruthy as [Htruthy _].
    destruct (normalizeParameters_truthy _ Htruthy) as (normalized & Hnorm & Hn).
    rewrite Hnorm. rewrite !bind_ret_fun. eexists. split; [reflexivity |].
    unfold parameters_changed, supplied. cbv zeta. rewrite Hparams.
    rewrite !assoc_set_if, !assoc_assoc_set.
    cbn [String.eqb Ascii.eqb Bool.eqb]. rewrite ?andb_false_r, ?andb_true_r.
    cbn [orb]. now rewrite Hn.
  - rewrite !bind_ret_fun. eexists. split; [reflexivity |].
    unfold parameters_changed, supplied. cbv zeta. rewrite Hparams.
    rewrite !assoc_set_if.
    cbn [String.eqb Ascii.eqb Bool.eqb assoc]. rewrite ?andb_false_r, ?andb_true_r.
    cbn [orb truthy].
    rewrite !truthy_if_truthy. cbn [truthy]. rewrite ?orb_false_r.
    destruct (defined (assoc "areSubscribersOrdered" finalConfig)) eqn:Hd;
      [rewrite Hd | reflexivity].
    reflexivity.
Qed.

Lemma trace_bind_call {B} kind c (k : JSVal -> M B) tape :
  (forall v, emits (quiet kind) (k v)) ->
  exists after,
    trace (bind (call c) k tape) = Called c :: after /\ calls kind after = 0.
Proof.
  intros Hk. unfold bind, call. destruct tape as [|[v|e] tape']; cbn.
  - now exists [].
  - exists (trace (k v tape')). split; [reflexivity | now apply emits_calls].
  - now exists [].
Qed.

Section Parameters.

Variable env : Env.

Lemma protect_create_quiet_update client finalConfig source updateData :
  emits (quiet is_updateApplication)
    (protect_create env client finalConfig source updateData).
Proof.
  eapply emits_weaken; [apply quiet_either_l | apply protect_create_quiet].
Qed.

Lemma pollProtection_quiet_update client applicationId protectionId fragments :
  emits (quiet is_updateApplication)
    (pollProtection client applicationId protectionId fragments).
Proof.
  eapply emits_weaken; [apply quiet_either_l | apply pollProtection_quiet].
Qed.

Lemma protect_finish_quiet_update p destCallback :
  emits (quiet is_updateApplication) (protect_finish env p destCallback).
Proof.
  eapply emits_weaken; [apply quiet_either_l | apply protect_finish_quiet].
Qed.

Ltac quiet_update :=
  repeat first
    [ apply protect_create_quiet_update | apply pollProtection_quiet_update
    | apply protect_finish_quiet_update | apply emits_errorHandler
    | emits_step ];
  try exact I; try reflexivity.

(** C3, as the code has it.  Take a run of [protectAndDownload] that has
    dealt with the sources.  If the configuration supplies a non-empty
    [params], [applicationTypes], [languageSpecifications], [browsers] or
    an [areSubscribersOrdered] that is not [undefined], and [intoObjectType]
    answers, the run makes exactly one [updateApplication] call, and no
    [createApplicationProtection] call comes before it.  Otherwise the run
    makes no [updateApplication] call at all: [sourceMaps] is not among the
    options that trigger the update. *)
Theorem parameters_updated_once_before_job_creation
    (cpo : ConfigArg) (destCallback : option string) (tape : list Answer)
    (s : Prepared) (before : list Event) (tape' : list Answer) :
  protect_until_sources env cpo destCallback tape = mkRun (Returned s) before tape' ->
  let r := protectAndDownload env cpo destCallback tape in
  (supplied (prepared_config s) = true ->
     forall applicationUpdate tape'',
       tape' = Resolve applicationUpdate :: tape'' ->
       exists updateData after,
         let upto :=
           before ++ debug_log env "Updating parameters of protection"
           ++ [Called (intoObjectType (JObj updateData) "Application")] in
         trace r = upto ++ Called (update_application applicationUpdate) :: after
         /\ calls is_updateApplication upto = 0
         /\ calls is_createApplicationProtection upto = 0
         /\ calls is_updateApplication after = 0
         /\ calls is_updateApplication (trace r) = 1)
  /\ (supplied (prepared_config s) = false ->
     calls is_updateApplication (trace r) = 0).
Proof.
  intros Hprefix r.
  destruct (build_updateData_returns (prepared_config s)) as (updateData & Hud & Hchanged).
  assert (Hbefore : calls job_call before = 0).
  { pose proof (emits_calls job_call _
                  (protect_until_sources_quiet env cpo destCallback) tape) as H.
    now rewrite Hprefix in H. }
  assert (Hbefore_update : calls is_updateApplication before = 0).
  { pose proof (emits_calls is_updateApplication _
                  (emits_weaken _ _ _ (quiet_either_l _ _)
                     (protect_until_sources_quiet env cpo destCallback)) tape) as H.
    now rewrite Hprefix in H. }
  assert (Hbefore_create : calls is_createApplicationProtection before = 0).
  { pose proof (emits_calls is_createApplicationProtection _
                  (emits_weaken _ _ _
                     (fun ev H => quiet_either_l _ _ _ (quiet_either_r _ _ _ H))
                     (protect_until_sources_quiet env cpo destCallback)) tape) as H.
    now rewrite Hprefix in H. }
  assert (Hr : r = prepend before
                     (bind (protect_job env s) (fun p => protect_finish env p destCallback)
                        tape')).
  { subst r. unfold protectAndDownload, protect_until_polled.
    rewrite bind_assoc. now rewrite (bind_run _ _ _ _ _ _ Hprefix). }
  assert (Hjob : forall t,
    bind (protect_job env s) (fun p => protect_finish env p destCallback) t
    = bind (when (supplied (prepared_config s))
              (when (debug env) (console log [Lit "Updating parameters of protection"]) ;;
               applicationUpdate <- call (intoObjectType (JObj updateData) "Application") ;;
               updateApplicationRes <-
                 updateApplication (prepared_client s) applicationUpdate JUndefined ;;
               when (debug env)
                 (console log [Lit "Finished updating parameters of protection"] ;;
                  console error [Val updateApplicationRes]) ;;
               errorHandler updateApplicationRes ;;
               ret tt))
        (fun _ =>
           p <- (protectionId <- protect_create env (prepared_client s)
                                   (prepared_config s) (prepared_source s) updateData ;;
                 fragments <- call getProtectionDefaultFragments ;;
                 protection <- pollProtection (prepared_client s)
                                 (assoc "applicationId" (prepared_config s))
                                 protectionId fragments ;;
                 ret (mkPolled (prepared_client s) (prepared_config s)
                        (prepared_filesDest s) protectionId protection)) ;;
           protect_finish env p destCallback) t).
  { intros t. unfold protect_job. cbv zeta. unfold protect_parameters.
    rewrite !bind_assoc, Hud, bind_ret, bind_assoc, Hchanged.
    reflexivity. }
  rewrite Hjob in Hr. clear Hjob.
  split; intros Hsupplied; rewrite Hsupplied in Hr; cbn [when] in Hr.
  - intros applicationUpdate tape'' ->. exists updateData.
    assert (Hr' : exists after,
      trace r = (before ++ debug_log env "Updating parameters of protection"
                 ++ [Called (intoObjectType (JObj updateData) "Application")])
                ++ Called (update_application applicationUpdate) :: after
      /\ calls is_updateApplication after = 0).
    { rewrite Hr. unfold updateApplication, console, debug_log.
      destruct (debug env) eqn:Hdebug; cbn [when]; repeat run_step;
      match goal with
      | |- context [bind (call ?c) ?k ?t] =>
          destruct (trace_bind_call is_updateApplication c k t) as (after & Htr & Hafter);
            [intros v; quiet_update |]
      end;
      exists after; (split; [| exact Hafter]);
      unfold prepend; cbn [trace]; rewrite Htr;
      unfold update_application; rewrite <- !app_assoc; reflexivity. }
    destruct Hr' as (after & Htr & Hafter). exists after. cbv zeta.
    assert (Hupto_update : calls is_updateApplication
              (before ++ debug_log env "Updating parameters of protection"
               ++ [Called (intoObjectType (JObj updateData) "Application")]) = 0).
    { rewrite !calls_app, Hbefore_update. unfold debug_log. now destruct (debug env). }
    repeat split.
    + exact Htr.
    + exact Hupto_update.
    + rewrite !calls_app, Hbefore_create. unfold debug_log. now destruct (debug env).
    + exact Hafter.
    + rewrite Htr, calls_app, Hupto_update.
      replace (Called (update_application applicationUpdate) :: after)
        with ([Called (update_application applicationUpdate)] ++ after) by reflexivity.
      now rewrite calls_app, Hafter.
  - rewrite Hr. unfold prepend. cbn [trace]. rewrite calls_app, Hbefore_update.
    apply emits_calls. quiet_update.
Qed.

End Parameters.

(* ================================================================== *)
(** ** The configured [bail] *)
(* ================================================================== *)

Lemma sim_bind {A1 A2 B1 B2} (R : A1 -> A2 -> Prop) (S : B1 -> B2 -> Prop)
    (m1 : M A1) (m2 : M A2) (f1 : A1 -> M B1) (f2 : A2 -> M B2) :
  sim R m1 m2 -> (forall a b, R a b -> sim S (f1 a) (f2 b)) ->
  sim S (bind m1 f1) (bind m2 f2).
Proof.
  intros Hm Hf tape. destruct (Hm tape) as (Hrest & Htrace & Hout).
  unfold bind, alike.
  destruct (outcome (m1 tape)) as [a| | |] eqn:E1;
    destruct (outcome (m2 tape)) as [b| | |] eqn:E2;
    try contradiction; cbn; try (repeat split; assumption).
  - destruct (Hf a b Hout (rest (m1 tape))) as (Hrest' & Htrace' & Hout').
    rewrite <- Hrest. repeat split; try assumption.
    rewrite !map_app. now rewrite Htrace, Htrace'.
Qed.

Lemma sim_refl {A} (m : M A) : sim eq m m.
Proof.
  intros tape. repeat split. destruct (outcome (m tape)); auto.
Qed.

Lemma sim_ret {A B} (R : A -> B -> Prop) a b : R a b -> sim R (ret a) (ret b).
Proof. intros H tape. repeat split. exact H. Qed.

Lemma sim_call c1 c2 :
  forget_bail (Called c1) = forget_bail (Called c2) -> sim eq (call c1) (call c2).
Proof.
  intros H tape. unfold call.
  destruct tape as [|[v|e] tape']; repeat split; cbn [trace map]; now rewrite H.
Qed.

Lemma alike_eq {A} (r1 r2 : Run A) :
  alike eq r1 r2 ->
  outcome r1 = outcome r2 /\ rest r1 = rest r2
  /\ map forget_bail (trace r1) = map forget_bail (trace r2).
Proof.
  intros (Hrest & Htrace & Hout). repeat split; try assumption.
  destruct (outcome r1), (outcome r2); try contradiction; now subst.
Qed.

(** Rewrites the lookups in one configuration into lookups in another that
    agrees with it. *)
Ltac agree_tac H :=
  repeat match goal with
         | |- context [assoc ?k ?fc] => rewrite (H k) by discriminate
         end.

Lemma same_but_bail_set k v options1 options2 :
  k <> "bail" ->
  same_but_bail options1 options2 ->
  same_but_bail (assoc_set k v options1) (assoc_set k v options2).
Proof.
  intros Hk (b1 & b2 & others & -> & ->). cbn [assoc_set].
  destruct (String.eqb_spec "bail" k) as [E | _]; [congruence |].
  now exists b1, b2, (assoc_set k v others).
Qed.

Lemma same_but_bail_spread b1 b2 others updateData :
  same_but_bail (assoc_spread (("bail", b1) :: others) updateData)
                (assoc_spread (("bail", b2) :: others) updateData).
Proof.
  unfold assoc_spread. revert b1 b2 others.
  induction updateData as [|[k v] updateData IH]; intros b1 b2 others; cbn [fold_left].
  - now exists b1, b2, others.
  - cbn [assoc_set fst snd]. destruct (String.eqb "bail" k); apply IH.
Qed.

Lemma forget_bail_create path a f options1 options2 args :
  same_but_bail options1 options2 ->
  forget_bail (Called (client_post path
                 (Document "createApplicationProtection" [a; f; JObj options1; args])))
  = forget_bail (Called (client_post path
                 (Document "createApplicationProtection" [a; f; JObj options2; args]))).
Proof. intros (b1 & b2 & others & -> & ->). reflexivity. Qed.

Lemma Forall_key_assoc_set (P : string -> Prop) k v ps :
  P k -> Forall (fun p => P (fst p)) ps ->
  Forall (fun p => P (fst p)) (assoc_set k v ps).
Proof.
  intros Hk. induction 1 as [|[k0 v0] ps Hp Hps IH]; cbn [assoc_set].
  - repeat constructor. exact Hk.
  - destruct (String.eqb k0 k); constructor; cbn in *; auto.
Qed.

Lemma Forall_key_set_if (P : string -> Prop) b k v ps :
  P k -> Forall (fun p => P (fst p)) ps ->
  Forall (fun p => P (fst p)) (set_if b k v ps).
Proof.
  intros Hk H. unfold set_if. destruct b; [now apply Forall_key_assoc_set | exact H].
Qed.

Lemma assoc_spread_other k a b :
  Forall (fun p => fst p <> k) b -> assoc k (assoc_spread a b) = assoc k a.
Proof.
  unfold assoc_spread. intros H. revert a.
  induction H as [|[k0 v0] b Hk _ IH]; intros a; cbn [fold_left]; [reflexivity |].
  rewrite IH, assoc_assoc_set. cbn [fst] in *.
  destruct (String.eqb_spec k0 k); [contradiction | reflexivity].
Qed.

Lemma build_updateData_keys finalConfig :
  exists updateData,
    build_updateData finalConfig = ret updateData
    /\ Forall (fun p => fst p <> "bail") updateData.
Proof.
  unfold build_updateData. cbv zeta.
  assert (Hbase : forall a b c d,
            Forall (fun p : string * JSVal => fst p <> "bail")
              [("_id", a); ("debugMode", b); ("tolerateMinification", c);
               ("codeHardeningThreshold", d)])
    by (intros; repeat constructor; discriminate).
  destruct (truthy (assoc "params" finalConfig)
            && negb (length (own_props (assoc "params" finalConfig)) =? 0)%nat)
    eqn:Hparams.
  - apply andb_prop in Hparams as [Htruthy _].
    destruct (normalizeParameters_truthy _ Htruthy) as (normalized & Hnorm & _).
    rewrite Hnorm. rewrite !bind_ret_fun. eexists. split; [reflexivity |].
    repeat first
      [ apply (Forall_key_set_if (fun k => k <> "bail")); [discriminate |]
      | apply (Forall_key_assoc_set (fun k => k <> "bail")); [discriminate |] ].
    apply Hbase.
  - rewrite !bind_ret_fun. eexists. split; [reflexivity |].
    repeat (apply (Forall_key_set_if (fun k => k <> "bail")); [discriminate |]).
    apply Hbase.
Qed.

Section Bail.

Variable env : Env.
Variables finalConfig1 finalConfig2 : Props.
Hypothesis Hagree : agree finalConfig1 finalConfig2.

Lemma new_Client_agree :
  new_Client finalConfig1 protect_client_options
  = new_Client finalConfig2 protect_client_options.
Proof.
  unfold new_Client, protect_client_options. cbn [map].
  agree_tac Hagree. reflexivity.
Qed.

Lemma required_options_agree destCallback :
  required_options finalConfig1 destCallback
  = required_options finalConfig2 destCallback.
Proof.
  unfold required_options. cbv zeta. agree_tac Hagree. reflexivity.
Qed.

Lemma protect_sources_agree client filesSrc :
  protect_sources env client finalConfig1 filesSrc
  = protect_sources env client finalConfig2 filesSrc.
Proof.
  unfold protect_sources. cbv zeta. agree_tac Hagree. reflexivity.
Qed.

Lemma protect_parameters_agree client :
  protect_parameters env client finalConfig1
  = protect_parameters env client finalConfig2.
Proof.
  unfold protect_parameters, build_updateData. cbv zeta beta.
  agree_tac Hagree. reflexivity.
Qed.

Lemma protect_create_sim client source updateData :
  sim eq (protect_create env client finalConfig1 source updateData)
         (protect_create env client finalConfig2 source updateData).
Proof.
  unfold protect_create. cbv zeta.
  apply sim_bind with (R := eq); [apply sim_refl | intros _ _ _].
  rewrite (Hagree "inputSymbolTable") by discriminate.
  rewrite (Hagree "applicationId") by discriminate.
  assert (Hoptions : same_but_bail
            (build_protectionOptions finalConfig1 source updateData)
            (build_protectionOptions finalConfig2 source updateData)).
  { unfold build_protectionOptions.
    rewrite (Hagree "randomizationSeed"), (Hagree "tolerateMinification"),
      (Hagree "inputSymbolTable") by discriminate.
    apply same_but_bail_spread. }
  apply sim_bind with (R := same_but_bail).
  - destruct (truthy (assoc "inputSymbolTable" finalConfig2)).
    + apply sim_bind with (R := eq); [apply sim_refl | intros contents ? <-].
      apply sim_ret. apply same_but_bail_set; [discriminate | exact Hoptions].
    + now apply sim_ret.
  - intros options1 options2 Hsame.
    apply sim_bind with (R := eq); [| intros res ? <-; apply sim_refl].
    unfold createApplicationProtection.
    apply sim_bind with (R := eq); [apply sim_refl | intros introspected ? <-].
    apply sim_bind with (R := eq); [apply sim_refl | intros args ? <-].
    apply sim_call. now apply forget_bail_create.
Qed.

End Bail.

Section BailClaim.

Variable env : Env.

Lemma protect_finish_agree p1 p2 destCallback :
  polled_alike p1 p2 ->
  protect_finish env p1 destCallback = protect_finish env p2 destCallback.
Proof.
  destruct p1, p2. unfold polled_alike. cbn.
  intros (-> & Hagree & -> & -> & ->).
  unfold protect_finish. cbn. now rewrite (Hagree "stream") by discriminate.
Qed.

Lemma protect_until_sources_sim cpo1 cpo2 destCallback finalConfig1 finalConfig2 :
  buildFinalConfig env cpo1 = inr finalConfig1 ->
  buildFinalConfig env cpo2 = inr finalConfig2 ->
  agree finalConfig1 finalConfig2 ->
  sim prepared_alike (protect_until_sources env cpo1 destCallback)
                     (protect_until_sources env cpo2 destCallback).
Proof.
  intros Hcfg1 Hcfg2 Hagree. unfold protect_until_sources.
  rewrite Hcfg1, Hcfg2. cbn [lift]. rewrite !bind_ret_fun.
  rewrite (new_Client_agree _ _ Hagree).
  apply sim_bind with (R := eq); [apply sim_refl | intros client ? <-].
  rewrite (required_options_agree _ _ Hagree).
  apply sim_bind with (R := eq); [apply sim_refl | intros locals ? <-].
  rewrite (protect_sources_agree env _ _ Hagree).
  apply sim_bind with (R := eq); [apply sim_refl | intros source ? <-].
  apply sim_ret. repeat split. exact Hagree.
Qed.

Lemma protect_job_sim s1 s2 :
  prepared_alike s1 s2 -> sim polled_alike (protect_job env s1) (protect_job env s2).
Proof.
  destruct s1, s2. unfold prepared_alike. cbn.
  intros (-> & Hagree & -> & ->). unfold protect_job. cbn.
  rewrite (protect_parameters_agree env _ _ Hagree).
  apply sim_bind with (R := eq); [apply sim_refl | intros updateData ? <-].
  apply sim_bind with (R := eq);
    [now apply protect_create_sim | intros protectionId ? <-].
  apply sim_bind with (R := eq); [apply sim_refl | intros fragments ? <-].
  rewrite (Hagree "applicationId") by discriminate.
  apply sim_bind with (R := eq); [apply sim_refl | intros protection ? <-].
  apply sim_ret. repeat split. exact Hagree.
Qed.

(** C10. Two configurations that differ at most in [bail] make
    [protectAndDownload] end the same way on the same answers, with the same
    effects but for the [bail] written in the options of the job creation.
    What decides between failing and warning, for a finished protection with
    per-source errors, is the [bail] of the polled snapshot.  The configured
    [bail], [true] when left out, is what the options of the job creation
    hold under [bail]. *)
Theorem configured_bail_reaches_only_the_job_options
    (cpo1 cpo2 : ConfigArg) (destCallback : option string)
    (finalConfig1 finalConfig2 : Props) (tape : list Answer) :
  buildFinalConfig env cpo1 = inr finalConfig1 ->
  buildFinalConfig env cpo2 = inr finalConfig2 ->
  agree finalConfig1 finalConfig2 ->
  let r1 := protectAndDownload env cpo1 destCallback tape in
  let r2 := protectAndDownload env cpo2 destCallback tape in
  (outcome r1 = outcome r2
   /\ rest r1 = rest r2
   /\ map forget_bail (trace r1) = map forget_bail (trace r2))
  /\ (forall protection errors tape',
        field protection "state" = JStr "finished" ->
        errors <> [] ->
        protect_verdict protection errors tape'
        = if truthy (field protection "bail")
          then mkRun (Thrown (Error [Lit "Your protection has failed."]))
                 (printed_errors errors) tape'
          else mkRun (Returned tt) (map non_fatal errors) tape')
  /\ (exists updateData,
        build_updateData finalConfig1 = ret updateData
        /\ forall source,
             assoc "bail" (build_protectionOptions finalConfig1 source updateData)
             = or_default (assoc "bail" finalConfig1) (JBool true)).
Proof.
  intros Hcfg1 Hcfg2 Hagree r1 r2. split; [| split].
  - apply alike_eq. subst r1 r2. revert tape.
    change (sim eq (protectAndDownload env cpo1 destCallback)
                   (protectAndDownload env cpo2 destCallback)).
    unfold protectAndDownload.
    apply sim_bind with (R := polled_alike).
    + unfold protect_until_polled.
      apply sim_bind with (R := prepared_alike).
      * now apply protect_until_sources_sim with finalConfig1 finalConfig2.
      * apply protect_job_sim.
    + intros p1 p2 Hp. rewrite (protect_finish_agree p1 p2 destCallback Hp).
      apply sim_refl.
  - intros protection errors tape' Hstate Herrors.
    destruct (truthy (field protection "bail")) eqn:Hbail.
    + now apply protect_verdict_bails.
    + now apply protect_verdict_warns.
  - destruct (build_updateData_keys finalConfig1) as (updateData & Hud & Hkeys).
    exists updateData. split; [exact Hud |]. intros source.
    unfold build_protectionOptions. rewrite assoc_spread_other; [reflexivity |].
    unfold assoc_delete. apply Forall_forall. intros p Hp.
    apply filter_In in Hp as [Hp _].
    rewrite Forall_forall in Hkeys. now apply Hkeys.
Qed.

End BailClaim.

(* ================================================================== *)
(** ** Runs *)
(* ================================================================== *)

Lemma per_source_errors_bail_or_warn_witness :
  let run tape := protectAndDownload plain_env (sample_config []) None tape in
  let r0 := protect_until_polled plain_env (sample_config []) None
              (answers_with (finished_with_error false)) in
  let p := returned_or nothing_polled r0 in
  r0 = mkRun (Returned p) (trace r0) (rest r0)
  /\ field (polled_protection p) "state" = JStr "finished"
  /\ outcome (collect_sourcesErrors (polled_protection p) (rest r0))
     = Returned [JObj [("filename", JStr "a.js"); ("message", JStr "x")]]
  /\ truthy (field (polled_protection p) "bail") = false
  /\ calls is_download (trace (run (answers_with (finished_with_error false)))) = 1
  /\ outcome (run (answers_with (finished_with_error false))) = Returned (JStr "p1")
  /\ run (answers_with (finished_with_error true))
     = mkRun (Thrown (Error [Lit "Your protection has failed."]))
         (trace (protect_until_polled plain_env (sample_config []) None
                   (answers_with (finished_with_error true)))
          ++ [] ++ printed_errors [JObj [("filename", JStr "a.js"); ("message", JStr "x")]])
         [archive; unzipped].
Proof.
  cbv zeta.
  set (warning := answers_with (finished_with_error false)).
  set (bailing := answers_with (finished_with_error true)).
  set (r0 := protect_until_polled plain_env (sample_config []) None warning).
  set (r1 := protect_until_polled plain_env (sample_config []) None bailing).
  set (p0 := returned_or nothing_polled r0).
  set (p1 := returned_or nothing_polled r1).
  set (errors := [JObj [("filename", JStr "a.js"); ("message", JStr "x")]]).
  assert (H0 : r0 = mkRun (Returned p0) (trace r0) (rest r0)) by reflexivity.
  assert (H1 : r1 = mkRun (Returned p1) (trace r1) (rest r1)) by reflexivity.
  assert (Herrors : errors <> []) by discriminate.
  destruct (per_source_errors_bail_or_warn plain_env (sample_config []) None
              warning p0 (trace r0) (rest r0) errors H0 eq_refl eq_refl eq_refl Herrors)
    as [_ Hwarns].
  destruct (per_source_errors_bail_or_warn plain_env (sample_config []) None
              bailing p1 (trace r1) (rest r1) errors H1 eq_refl eq_refl eq_refl Herrors)
    as [Hbails _].
  destruct (Hwarns eq_refl) as (_ & Hone & Hreturns).
  destruct (Hreturns (JStr "PK") JUndefined [] eq_refl eq_refl) as [Hid _].
  destruct (Hbails eq_refl) as [Hrun _].
  split; [reflexivity |]. split; [reflexivity |]. split; [reflexivity |].
  split; [reflexivity |]. split; [exact Hone |]. split; [exact Hid | exact Hrun].
Defined.

Lemma parameters_updated_once_before_job_creation_witness :
  let cpo := sample_config [("params", JObj [("stringsEncoding", JObj [])])] in
  let tape := answers_with_update finished_clean in
  let r0 := protect_until_sources plain_env cpo None tape in
  let s := returned_or nothing_prepared r0 in
  r0 = mkRun (Returned s) (trace r0) (rest r0)
  /\ supplied (prepared_config s) = true
  /\ calls is_updateApplication (trace (protectAndDownload plain_env cpo None tape)) = 1.
Proof.
  cbv zeta.
  set (cpo := sample_config [("params", JObj [("stringsEncoding", JObj [])])]).
  set (tape := answers_with_update finished_clean).
  set (r0 := protect_until_sources plain_env cpo None tape).
  set (s := returned_or nothing_prepared r0).
  assert (H0 : r0 = mkRun (Returned s) (trace r0) (rest r0)) by reflexivity.
  destruct (parameters_updated_once_before_job_creation plain_env cpo None tape
              s (trace r0) (rest r0) H0) as [Hsupplied _].
  destruct (Hsupplied eq_refl (JStr "typed")
              [ok; introspected; created; fragments; polled finished_clean;
               archive; unzipped] eq_refl)
    as (updateData & after & _ & _ & _ & _ & Hone).
  split; [reflexivity |]. split; [reflexivity | exact Hone].
Defined.

(** C3, as the claim states it, fails when [sourceMaps] is the only option
    supplied: the run creates the job and returns, and has made no
    [updateApplication] call. *)
Lemma sourceMaps_alone_triggers_no_update :
  let r := protectAndDownload plain_env (sample_config [("sourceMaps", JBool true)])
             None (answers_with finished_clean) in
  outcome r = Returned (JStr "p1")
  /\ calls is_createApplicationProtection (trace r) = 1
  /\ calls is_updateApplication (trace r) = 0.
Proof. cbv zeta. repeat split; vm_compute; reflexivity. Qed.

Lemma required_options_checked_before_any_call_witness :
  let cpo := ConfigObject [("keys", JObj [("accessKey", JStr "AK"); ("secretKey", JStr "SK")]);
                           ("filesDest", JStr "out")] in
  truthy (assoc "applicationId"
            [("keys", JObj [("accessKey", JStr "AK"); ("secretKey", JStr "SK")]);
             ("filesDest", JStr "out")]) = false
  /\ (exists e, ConfigurationError e
        /\ protectAndDownload plain_env cpo None [ok] = mkRun (Thrown e) [] [ok])
  /\ (exists e, ConfigurationError e
        /\ instrumentAndDownload plain_env cpo None [ok] = mkRun (Thrown e) [] [ok]).
Proof.
  cbv zeta. split; [reflexivity |].
  apply (required_options_checked_before_any_call plain_env
           (ConfigObject [("keys", JObj [("accessKey", JStr "AK"); ("secretKey", JStr "SK")]);
                          ("filesDest", JStr "out")])
           None
           [("keys", JObj [("accessKey", JStr "AK"); ("secretKey", JStr "SK")]);
            ("filesDest", JStr "out")]
           [ok] eq_refl (or_introl eq_refl)).
Defined.

Lemma ready_profiling_data_prevents_source_update_witness :
  let cpo := sample_config [("sources", inline_sources)] in
  let r := protectAndDownload plain_env cpo None [Resolve (profiling_run "READY"); ok] in
  new_sources [("keys", JObj [("accessKey", JStr "AK"); ("secretKey", JStr "SK")]);
               ("applicationId", JStr "app"); ("filesDest", JStr "out");
               ("sources", inline_sources)] = true
  /\ field (field (profiling_run "READY") "data") "state" = JStr "READY"
  /\ r = mkRun
           (Thrown (Error [Lit "Ready profiling data PREVENTS source files from being UPDATED! Please add option *--remove-profiling-data* or *--skip-source* to continue."]))
           [Called (fetch_profiling (JStr "app"))] [ok]
  /\ calls is_source_removal (trace r) = 0
  /\ calls is_source_upload (trace r) = 0.
Proof.
  cbv zeta. split; [reflexivity |]. split; [reflexivity |].
  apply (ready_profiling_data_prevents_source_update plain_env
           (sample_config [("sources", inline_sources)]) None
           [("keys", JObj [("accessKey", JStr "AK"); ("secretKey", JStr "SK")]);
            ("applicationId", JStr "app"); ("filesDest", JStr "out");
            ("sources", inline_sources)]
           (profiling_run "READY") [ok] eq_refl).
  - repeat split. left. reflexivity.
  - reflexivity.
  - reflexivity.
  - reflexivity.
  - reflexivity.
Defined.

Lemma poll_suspends_once_per_waiting_snapshot_witness :
  let r := pollProtection JUndefined (JStr "app") (JStr "p1") (JStr "fragments")
             (map Resolve [protection_in "running"; protection_in "running"]
              ++ Resolve (protection_in "finished") :: [archive]) in
  delays 500 (trace r) = 2
  /\ rest r = [archive]
  /\ outcome r = Returned (JObj [("state", JStr "finished")]).
Proof.
  cbv zeta.
  assert (Hwaiting :
    Forall (fun res => exists protection,
              snapshot res protection
              /\ protection_terminal (field protection "state") = false)
           [protection_in "running"; protection_in "running"]).
  { repeat constructor; exists (JObj [("state", JStr "running")]); repeat split. }
  assert (Hlast : snapshot (protection_in "finished") (JObj [("state", JStr "finished")]))
    by (repeat split).
  destruct (proj1 poll_suspends_once_per_waiting_snapshot
              JUndefined (JStr "app") (JStr "p1") (JStr "fragments")
              [protection_in "running"; protection_in "running"]
              (protection_in "finished") (JObj [("state", JStr "finished")])
              [archive] Hwaiting Hlast eq_refl)
    as (_ & Hdelays & Hrest & Hout).
  repeat split; assumption.
Defined.



(** C8 on the code: asked for the state [RUNNING] the run is already in,
    [setProfilingState] patches nothing and does not fail, but it returns
    [undefined] and prints the caller's label: the previous state is
    neither returned, as the comment above the function says, nor
    printed. *)
Theorem setProfilingState_does_not_report_previous_state :
  let r := setProfilingState plain_env (sample_config []) (JStr "RUNNING") (JStr "STARTED")
             [Resolve (profiling_run "RUNNING")] in
  r = mkRun (Returned JUndefined)
        [Called (fetch_profiling (JStr "app"));
         Console log [Lit "Profiling was already "; Val (JStr "STARTED");
                      Lit " for application "; Val (JStr "app"); Lit "."]]
        []
  /\ outcome r <> Returned (JStr "RUNNING")
  /\ calls is_patch (trace r) = 0.
Proof.
  cbv zeta.
  rewrite (setProfilingState_same_state plain_env (sample_config [])
             [("keys", JObj [("accessKey", JStr "AK"); ("secretKey", JStr "SK")]);
              ("applicationId", JStr "app"); ("filesDest", JStr "out")]
             (JStr "RUNNING") (JStr "STARTED") (profiling_run "RUNNING") [])
    by reflexivity.
  repeat split. discriminate.
Qed.

Lemma updateApplicationSources_bundles_inline_sources_witness :
  truthy (js_and JUndefined (field JUndefined "length")) = false
  /\ updateApplicationSources plain_env JUndefined (JStr "app") inline_sources
       JUndefined JUndefined JUndefined
       [ok; Resolve (JArchive [Byte.x50; Byte.x4b]); ok]
     = mkRun (Returned (JObj [("content", JStr "UEs=");
                              ("filename", JStr "application.zip");
                              ("extension", JStr "zip")]))
         [Called (remove_sources (JStr "app"));
          Called (zipSources inline_sources);
          Called (upload_source (JStr "app") (bundle [Byte.x50; Byte.x4b]))]
         [].
Proof.
  split; [reflexivity |].
  destruct (updateApplicationSources_bundles_inline_sources plain_env
              JUndefined (JStr "app") inline_sources JUndefined JUndefined JUndefined
              eq_refl) as [_ Hinline].
  destruct (Hinline eq_refl) as (_ & _ & Hflow).
  apply (Hflow (JObj []) [Byte.x50; Byte.x4b] (JObj []) []).
  - left. reflexivity.
  - reflexivity.
  - reflexivity.
Defined.

Lemma sample_configs_agree :
  agree [("keys", JObj [("accessKey", JStr "AK"); ("secretKey", JStr "SK")]);
         ("applicationId", JStr "app"); ("filesDest", JStr "out");
         ("bail", JBool false)]
        [("keys", JObj [("accessKey", JStr "AK"); ("secretKey", JStr "SK")]);
         ("applicationId", JStr "app"); ("filesDest", JStr "out")].
Proof.
  intros k Hk. cbn [assoc].
  repeat match goal with
         | |- context [String.eqb ?a k] => destruct (String.eqb_spec a k)
         end; congruence.
Defined.

Lemma configured_bail_reaches_only_the_job_options_witness :
  let tape := answers_with (finished_with_error true) in
  let r1 := protectAndDownload plain_env (sample_config [("bail", JBool false)]) None tape in
  let r2 := protectAndDownload plain_env (sample_config []) None tape in
  outcome r1 = Thrown (Error [Lit "Your protection has failed."])
  /\ outcome r1 = outcome r2
  /\ rest r1 = rest r2
  /\ map forget_bail (trace r1) = map forget_bail (trace r2).
Proof.
  cbv zeta. split; [reflexivity |].
  apply (configured_bail_reaches_only_the_job_options plain_env
           (sample_config [("bail", JBool false)]) (sample_config []) None
           _ _ (answers_with (finished_with_error true))
           eq_refl eq_refl sample_configs_agree).
Defined.

(* ================================================================== *)
(** ** The error handler *)
(* ================================================================== *)

Lemma for_each_query_errors (errors : list JSVal) tape :
  Forall (fun e => nullish e = false) errors ->
  for_each errors (fun e => message <- get e "message" ;; console error [Val message]) tape
  = mkRun (Returned tt) (map query_error errors) tape.
Proof.
  induction 1 as [|e errors He _ IH]; [reflexivity |].
  cbn [for_each map]. rewrite bind_assoc, get_field, bind_ret by assumption.
  unfold console at 1. rewrite bind_emit, IH. reflexivity.
Qed.

Lemma for_each_settles {A} (l : list A) (f : A -> M unit) :
  (forall x tape, exists o tr,
      f x tape = mkRun o tr tape /\ (o = Returned tt \/ exists e, o = Thrown e)) ->
  forall tape, exists o tr,
      for_each l f tape = mkRun o tr tape /\ (o = Returned tt \/ exists e, o = Thrown e).
Proof.
  intros Hf. induction l as [|x l IH]; intros tape; cbn [for_each].
  - exists (Returned tt), []. split; [reflexivity | now left].
  - destruct (Hf x tape) as (o & tr & Hx & [-> | [e ->]]).
    + destruct (IH tape) as (o' & tr' & Hl & Ho').
      exists o', (tr ++ tr'). split; [| exact Ho'].
      rewrite (bind_run _ _ _ _ _ _ Hx), Hl. reflexivity.
    + exists (Thrown e), tr. split; [| right; now exists e].
      now apply bind_run_thrown.
Qed.

Lemma print_message_settles (e : JSVal) tape :
  exists o tr,
    (message <- get e "message" ;; console error [Val message]) tape = mkRun o tr tape
    /\ (o = Returned tt \/ exists e', o = Thrown e').
Proof.
  unfold get. destruct (nullish e); eexists _, _; (split; [reflexivity |]).
  - right. now eexists.
  - now left.
Qed.

Lemma truthy_length_cons (x : JSVal) (l : list JSVal) :
  truthy (field (JArr (x :: l)) "length") = true.
Proof. reflexivity. Qed.

Lemma field_array_truthy v k l : field v k = JArr l -> truthy v = true.
Proof.
  destruct v; cbn; try discriminate; try reflexivity.
  - destruct (String.eqb k "length"); discriminate.
Qed.

Lemma errorHandler_error_free (res : JSVal) :
  reports_no_error res = true -> accepted res.
Proof.
  unfold reports_no_error, accepted. intros H.
  apply andb_prop in H as [H Hmessage]. apply andb_prop in H as [H Hdata].
  apply andb_prop in H as [Hnull Herrors].
  apply negb_true_iff in Hnull, Herrors, Hdata, Hmessage.
  unfold errorHandler. rewrite !(get_field res) by assumption.
  rewrite bind_ret_fun, Herrors. cbn [when]. rewrite !bind_ret_fun, Hdata. cbn [when].
  rewrite !bind_ret_fun, Hmessage. reflexivity.
Qed.

Lemma errorHandler_errors (res first : JSVal) (others : list JSVal) tape :
  field res "errors" = JArr (first :: others) ->
  errorHandler res tape
  = mkRun (Thrown (if nullish first then TypeError "message"
                   else Error [Lit "Error: "; Val (field first "message")])) [] tape.
Proof.
  intros Herrors.
  assert (Hres : nullish res = false)
    by (apply field_nullish with (k := "errors"); now rewrite Herrors).
  unfold errorHandler. rewrite !(get_field res) by assumption.
  rewrite bind_ret, Herrors, truthy_length_cons. cbn [truthy andb when as_array].
  rewrite !bind_assoc, bind_ret. cbn [for_each].
  unfold get at 1. destruct (nullish first); reflexivity.
Qed.

(** X1. What [errorHandler] lets through is exactly what reports no error: such
    an answer is returned as it is and nothing is printed; any other one
    makes the handler throw.  The handler never waits and never consumes an
    answer. *)
Theorem errorHandler_accepts_exactly_the_error_free (res : JSVal) (tape : list Answer) :
  (reports_no_error res = true ->
     errorHandler res tape = mkRun (Returned res) [] tape)
  /\ (reports_no_error res = false ->
      exists e printed, errorHandler res tape = mkRun (Thrown e) printed tape).
Proof.
  split; intros H.
  - now rewrite (errorHandler_error_free res H).
  - unfold reports_no_error in H. unfold errorHandler.
    destruct (nullish res) eqn:Hnull.
    { unfold get. rewrite Hnull. now exists (TypeError "errors"), []. }
    rewrite !(get_field res) by assumption. rewrite bind_ret.
    destruct (truthy (field res "errors")
              && truthy (field (field res "errors") "length")) eqn:Herrors.
    { cbn [when].
      destruct (field res "errors") as [| | | | |[|first others]| |];
        try discriminate; try (now eexists _, _).
      cbn [as_array]. rewrite !bind_assoc, bind_ret. cbn [for_each].
      unfold get. destruct (nullish first); now eexists _, _. }
    cbn [when]. rewrite !bind_ret.
    destruct (truthy (field res "data")
              && truthy (field (field res "data") "errors")) eqn:Hdata.
    { cbn [when].
      destruct (field (field res "data") "errors") as [| | | | |errors| |];
        try (now eexists _, _).
      cbn [as_array]. rewrite !bind_assoc, bind_ret, bind_assoc.
      destruct (for_each_settles errors _ print_message_settles tape)
        as (o & tr & Hrun & [-> | [e ->]]).
      - rewrite (bind_run _ _ _ _ _ _ Hrun). now eexists _, _.
      - rewrite (bind_run_thrown _ _ _ _ _ _ Hrun). now eexists _, _. }
    cbn [when]. rewrite !bind_ret.
    cbn [negb andb] in H. apply negb_false_iff in H. rewrite H.
    now eexists _, _.
Qed.

(** X2. Of the [errors] an answer carries, [errorHandler] reports the first one
    only: it throws "Error: " followed by its message, prints nothing, and
    looks neither at the other errors nor at [data] or [message]. *)
Theorem errorHandler_throws_the_first_error
    (res first : JSVal) (others : list JSVal) (tape : list Answer) :
  field res "errors" = JArr (first :: others) ->
  nullish first = false ->
  errorHandler res tape
  = mkRun (Thrown (Error [Lit "Error: "; Val (field first "message")])) [] tape.
Proof.
  intros Herrors Hfirst.
  rewrite (errorHandler_errors res first others tape Herrors), Hfirst. reflexivity.
Qed.

Lemma errorHandler_throws_the_first_error_witness :
  errorHandler
    (JObj [("errors", JArr [JObj [("message", JStr "Unauthorized")];
                            JObj [("message", JStr "Not found")]]);
           ("message", JStr "ignored")])
    [ok]
  = mkRun (Thrown (Error [Lit "Error: "; Val (JStr "Unauthorized")])) [] [ok].
Proof.
  apply (errorHandler_throws_the_first_error
           (JObj [("errors", JArr [JObj [("message", JStr "Unauthorized")];
                                   JObj [("message", JStr "Not found")]]);
                  ("message", JStr "ignored")])
           (JObj [("message", JStr "Unauthorized")])
           [JObj [("message", JStr "Not found")]] [ok]);
    reflexivity.
Defined.

(** X3. When an answer carries no [errors] but its [data] carries some, even an
    empty list of them, [errorHandler] prints the message of every one, in
    order, and then throws "GraphQL Query Error". *)
Theorem errorHandler_prints_every_query_error
    (res : JSVal) (errors : list JSVal) (tape : list Answer) :
  truthy (field res "errors") && truthy (field (field res "errors") "length") = false ->
  field (field res "data") "errors" = JArr errors ->
  Forall (fun e => nullish e = false) errors ->
  errorHandler res tape
  = mkRun (Thrown (Error [Lit "GraphQL Query Error"])) (map query_error errors) tape.
Proof.
  intros Hnone Hdata Herrors.
  assert (Htruthy : truthy (field res "data") = true)
    by (now apply field_array_truthy in Hdata).
  assert (Hres : nullish res = false).
  { apply field_nullish with (k := "data").
    destruct (field res "data"); cbn in Htruthy |- *; congruence. }
  unfold errorHandler. rewrite !(get_field res) by assumption.
  rewrite bind_ret, Hnone. cbn [when]. rewrite !bind_ret, Htruthy, Hdata.
  cbn [truthy andb when as_array]. rewrite !bind_assoc, bind_ret, bind_assoc.
  rewrite (bind_run _ _ _ _ _ _ (for_each_query_errors errors tape Herrors)).
  unfold prepend. cbn. now rewrite app_nil_r.
Qed.

Lemma errorHandler_prints_every_query_error_witness :
  errorHandler (JObj [("data", JObj [("errors", JArr [])])]) [ok]
  = mkRun (Thrown (Error [Lit "GraphQL Query Error"])) [] [ok]
  /\ errorHandler
       (JObj [("data", JObj [("errors", JArr [JObj [("message", JStr "a")];
                                              JObj [("message", JStr "b")]])])])
       [ok]
     = mkRun (Thrown (Error [Lit "GraphQL Query Error"]))
         [Console error [Val (JStr "a")]; Console error [Val (JStr "b")]] [ok].
Proof.
  split.
  - apply (errorHandler_prints_every_query_error
             (JObj [("data", JObj [("errors", JArr [])])]) [] [ok]);
      [reflexivity | reflexivity | constructor].
  - apply (errorHandler_prints_every_query_error
             (JObj [("data", JObj [("errors", JArr [JObj [("message", JStr "a")];
                                                    JObj [("message", JStr "b")]])])])
             [JObj [("message", JStr "a")]; JObj [("message", JStr "b")]] [ok]);
      [reflexivity | reflexivity | repeat constructor].
Defined.

(* ================================================================== *)
(** ** The parameters and the configuration *)
(* ================================================================== *)

Lemma length_own_props_array (l : list JSVal) : length (own_props (JArr l)) = length l.
Proof. cbn [own_props]. rewrite length_combine, length_map, length_seq. lia. Qed.

(** X4. [normalizeParameters] fails on [undefined] and [null] only.  What it
    returns is a list with one entry per parameter: the list it was given,
    or, for parameters given as an object, a list that holds
    [{name, options}] for each of its properties.  Normalizing what is
    normalized changes nothing. *)
Theorem normalizeParameters_is_idempotent (parameters : JSVal) :
  nullish parameters = false ->
  exists entries,
    normalizeParameters parameters = ret (JArr entries)
    /\ normalizeParameters (JArr entries) = ret (JArr entries)
    /\ length entries = length (own_props parameters)
    /\ (is_array parameters = true -> JArr entries = parameters)
    /\ (is_array parameters = false ->
        forall name options,
          In (name, options) (own_props parameters) ->
          In (JObj [("name", JStr name); ("options", options)]) entries).
Proof.
  intros Hnull. unfold normalizeParameters at 1.
  destruct (is_array parameters) eqn:Harray.
  - destruct parameters as [| | | | |entries| |]; try discriminate.
    exists entries. repeat split; try reflexivity.
    + now rewrite length_own_props_array.
    + discriminate.
  - rewrite Hnull. eexists. repeat split; try reflexivity.
    + now rewrite length_map.
    + discriminate.
    + intros _ name options Hin.
      apply (in_map (fun p => JObj [("name", JStr (fst p)); ("options", snd p)])) in Hin.
      exact Hin.
Qed.

Lemma normalizeParameters_is_idempotent_witness :
  exists entries,
    normalizeParameters (JObj [("stringsEncoding", JObj []); ("whitespaceRemoval", JNull)])
    = ret (JArr entries)
    /\ normalizeParameters (JArr entries) = ret (JArr entries)
    /\ length entries = 2
    /\ In (JObj [("name", JStr "whitespaceRemoval"); ("options", JNull)]) entries.
Proof.
  destruct (normalizeParameters_is_idempotent
              (JObj [("stringsEncoding", JObj []); ("whitespaceRemoval", JNull)]) eq_refl)
    as (entries & Hfirst & Hagain & Hlength & _ & Hentries).
  exists entries. split; [exact Hfirst |]. split; [exact Hagain |].
  split; [exact Hlength |].
  apply (Hentries eq_refl). right. left. reflexivity.
Defined.

Lemma defined_false v : defined v = false -> v = JUndefined.
Proof. destruct v; cbn; congruence. Qed.

Lemma assoc_not_in k (ps : Props) : ~ In k (map fst ps) -> assoc k ps = JUndefined.
Proof.
  induction ps as [|[k0 v0] ps IH]; cbn [assoc map fst In]; [reflexivity |].
  intros H. destruct (String.eqb_spec k0 k) as [-> | _].
  - exfalso. apply H. now left.
  - apply IH. intros Hin. apply H. now right.
Qed.

Lemma assoc_defaults k (source : Props) :
  NoDup (map fst source) ->
  forall object,
    assoc k (defaults object source)
    = if defined (assoc k (own_props object)) then assoc k (own_props object)
      else assoc k source.
Proof.
  unfold defaults. intros Hsource object. generalize (own_props object) as acc.
  induction source as [|[k0 v0] source IH]; intros acc; cbn [fold_left fst snd].
  - cbn [assoc]. destruct (defined (assoc k acc)) eqn:E; [reflexivity |].
    now apply defined_false.
  - inversion Hsource as [|? ? Hk0 Hrest]; subst.
    rewrite (IH Hrest). cbn [assoc].
    destruct (defined (assoc k0 acc)) eqn:E0.
    + destruct (defined (assoc k acc)) eqn:E; [reflexivity |].
      destruct (String.eqb_spec k0 k) as [-> | _]; [congruence | reflexivity].
    + rewrite assoc_assoc_set.
      destruct (String.eqb_spec k0 k) as [-> | _]; [| reflexivity].
      rewrite E0. destruct (defined v0) eqn:Ev; [reflexivity |].
      rewrite (defined_false _ Ev). now apply assoc_not_in.
Qed.

Section Configuration.

Variable env : Env.

(** X5. [buildFinalConfig] lays the defaults under the given configuration:
    an option the caller gave keeps its value, [null] included, and an
    option left [undefined] takes the default, if there is one.  A
    configuration given by the path of a module is the object found
    there. *)
Theorem buildFinalConfig_fills_in_undefined_options (o : Props) :
  NoDup (map fst (config env)) ->
  (exists finalConfig,
     buildFinalConfig env (ConfigObject o) = inr finalConfig
     /\ forall k, assoc k finalConfig
                  = if defined (assoc k o) then assoc k o else assoc k (config env))
  /\ (forall path, require env path = inr (JObj o) ->
        buildFinalConfig env (ConfigPath path) = buildFinalConfig env (ConfigObject o)).
Proof.
  intros Hdefaults. split.
  - eexists. split; [reflexivity |].
    intros k. now rewrite assoc_defaults.
  - intros path Hpath. cbn [buildFinalConfig]. now rewrite Hpath.
Qed.

End Configuration.

Lemma buildFinalConfig_fills_in_undefined_options_witness :
  exists finalConfig,
    buildFinalConfig service_env
      (ConfigObject [("host", JNull); ("applicationId", JStr "app")]) = inr finalConfig
    /\ assoc "host" finalConfig = JNull
    /\ assoc "port" finalConfig = JStr "443"
    /\ assoc "applicationId" finalConfig = JStr "app"
    /\ assoc "filesDest" finalConfig = JUndefined.
Proof.
  assert (Hdefaults : NoDup (map fst (config service_env))).
  { repeat constructor; cbn; intuition discriminate. }
  destruct (buildFinalConfig_fills_in_undefined_options service_env
              [("host", JNull); ("applicationId", JStr "app")] Hdefaults)
    as [(finalConfig & Hbuilt & Hoptions) _].
  exists finalConfig. split; [exact Hbuilt |].
  rewrite !Hoptions. repeat split.
Defined.

(* ================================================================== *)
(** ** Replacing the sources *)
(* ================================================================== *)

Lemma expand_filesSrc_expansion (entries : list JSVal) :
  forall found _filesSrc tape,
    length found = length (patterns entries) ->
    expand_filesSrc entries _filesSrc (globbed found ++ tape)
    = mkRun (Returned (_filesSrc ++ expansion entries found))
        (map (fun pattern => Called (glob_sync pattern)) (patterns entries)) tape.
Proof.
  unfold patterns, globbed.
  induction entries as [|entry entries IH]; intros found _filesSrc tape;
    cbn [expand_filesSrc expansion filter].
  - destruct found; [| discriminate]. intros _. cbn. now rewrite app_nil_r.
  - destruct (is_string entry).
    + destruct found as [|matches found]; [discriminate |].
      cbn [length map app]. intros Hfound. rewrite bind_call_resolve. cbn [array_concat].
      rewrite IH by lia.
      unfold prepend. cbn. now rewrite app_assoc.
    + intros Hfound. rewrite IH by assumption. now rewrite <- app_assoc.
Qed.

Lemma not_ready_check (appProfiling : JSVal) :
  not_ready appProfiling ->
  (if truthy appProfiling
   then state <- get (field appProfiling "data") "state" ;;
        ret (strict_eq state (JStr "READY"))
   else ret false) = ret false.
Proof.
  intros [-> | [Hdata Hstate]]; [reflexivity |].
  destruct (truthy appProfiling); [| reflexivity].
  rewrite get_field by assumption.
  apply functional_bind_ret. now rewrite Hstate.
Qed.

Section Sources.

Variable env : Env.

(** X6. Given a non-empty [filesSrc], [updateApplicationSources] zips the files
    it stands for, whatever [sources] holds: [zipSources] is never called.
    When the profiling run is not ready and the service accepts the removal
    and the upload, it removes the sources, expands the patterns of
    [filesSrc] in order, one [glob.sync] each, zips the files found together
    with the entries that are no patterns, uploads the bundle of the archive
    and returns it. *)
Theorem filesSrc_is_zipped_whatever_the_sources
    (client : Client) (applicationId sources cwd appProfiling : JSVal)
    (entries : list JSVal) :
  entries <> [] ->
  let update :=
    updateApplicationSources env client applicationId sources (JArr entries) cwd
      appProfiling in
  (forall tape, calls is_zipSources (trace (update tape)) = 0)
  /\ (forall removed found bytes added tape,
        not_ready appProfiling -> accepted removed -> accepted added ->
        length found = length (patterns entries) ->
        update (Resolve removed :: globbed found
                ++ Resolve (JArchive bytes) :: Resolve added :: tape)
        = mkRun (Returned (bundle bytes))
            ([Called (remove_sources applicationId)]
             ++ map (fun pattern => Called (glob_sync pattern)) (patterns entries)
             ++ debug_log env "Creating zip from source files"
             ++ [Called (zip (expansion entries found) cwd)]
             ++ debug_log env "Adding sources to application"
             ++ [Called (upload_source applicationId (bundle bytes))])
            tape).
Proof.
  intros Hentries update. subst update.
  assert (Hfiles : truthy (js_and (JArr entries) (field (JArr entries) "length")) = true)
    by (destruct entries; [congruence | reflexivity]).
  unfold updateApplicationSources. rewrite Hfiles, orb_true_r. cbn [elements].
  split.
  - apply emits_calls.
    unfold generate_base64, removeSourceFromApplication, addApplicationSource.
    quiet_tac.
  - intros removed found bytes added tape Hready Hremoved Hadded Hfound.
    unfold accepted in Hremoved, Hadded.
    unfold removeSourceFromApplication, addApplicationSource, debug_log.
    rewrite (not_ready_check _ Hready). run. rewrite Hremoved. run.
    rewrite (bind_run _ _ _ _ _ _
               (expand_filesSrc_expansion entries found []
                  (Resolve (JArchive bytes) :: Resolve added :: tape) Hfound)).
    cbn [app].
    destruct (debug env); run; cbn [truthy generate_base64]; run;
      rewrite Hadded; run; unfold prepend; cbn [outcome trace rest];
      rewrite ?app_nil_r, <- ?app_assoc; reflexivity.
Qed.

(** X7. As long as the removal of the sources has not been accepted,
    [updateApplicationSources] goes no further: when the removal is
    rejected, or answered with what [errorHandler] refuses, the update
    fails with that error, and it has neither looked for files nor zipped
    nor uploaded anything. *)
Theorem failed_removal_stops_the_update
    (client : Client) (applicationId sources filesSrc cwd appProfiling : JSVal) :
  truthy sources || truthy (js_and filesSrc (field filesSrc "length")) = true ->
  not_ready appProfiling ->
  let update :=
    updateApplicationSources env client applicationId sources filesSrc cwd appProfiling in
  (forall e tape,
      update (Reject e :: tape)
      = mkRun (Thrown (Rejected e)) [Called (remove_sources applicationId)] tape)
  /\ (forall removed e printed tape,
        errorHandler removed tape = mkRun (Thrown e) printed tape ->
        update (Resolve removed :: tape)
        = mkRun (Thrown e) (Called (remove_sources applicationId) :: printed) tape).
Proof.
  intros Hnew Hready update. subst update.
  unfold updateApplicationSources, removeSourceFromApplication.
  rewrite Hnew, (not_ready_check _ Hready). cbn [when]. split.
  - intros e tape. run. reflexivity.
  - intros removed e printed tape Hrefused. run.
    rewrite (bind_run_thrown _ _ _ _ _ _ Hrefused). reflexivity.
Qed.

End Sources.

Lemma filesSrc_is_zipped_whatever_the_sources_witness :
  let entries := [JStr "src/*.js"; JObj [("path", JStr "lib.js")]] in
  let update :=
    updateApplicationSources plain_env JUndefined (JStr "app") inline_sources
      (JArr entries) (JStr ".") JUndefined in
  entries <> []
  /\ calls is_zipSources (trace (update [ok])) = 0
  /\ update (ok :: globbed [[JStr "src/a.js"; JStr "src/b.js"]]
              ++ [Resolve (JArchive [Byte.x50; Byte.x4b]); ok])
     = mkRun (Returned (bundle [Byte.x50; Byte.x4b]))
         [Called (remove_sources (JStr "app"));
          Called (glob_sync (JStr "src/*.js"));
          Called (zip [JStr "src/a.js"; JStr "src/b.js"; JObj [("path", JStr "lib.js")]]
                    (JStr "."));
          Called (upload_source (JStr "app") (bundle [Byte.x50; Byte.x4b]))]
         [].
Proof.
  cbv zeta.
  assert (Hentries : [JStr "src/*.js"; JObj [("path", JStr "lib.js")]] <> [])
    by discriminate.
  destruct (filesSrc_is_zipped_whatever_the_sources plain_env JUndefined (JStr "app")
              inline_sources (JStr ".") JUndefined
              [JStr "src/*.js"; JObj [("path", JStr "lib.js")]] Hentries)
    as [Hnever Hflow].
  split; [exact Hentries |]. split; [apply Hnever |].
  apply (Hflow (JObj []) [[JStr "src/a.js"; JStr "src/b.js"]] [Byte.x50; Byte.x4b]
           (JObj []) []).
  - left. reflexivity.
  - reflexivity.
  - reflexivity.
  - reflexivity.
Defined.

Lemma failed_removal_stops_the_update_witness :
  let update :=
    updateApplicationSources plain_env JUndefined (JStr "app") inline_sources
      JUndefined JUndefined JUndefined in
  update [server_error; ok]
  = mkRun (Thrown (Rejected [("statusCode", JNum 500)]))
      [Called (remove_sources (JStr "app"))] [ok]
  /\ update [Resolve (JObj [("message", JStr "Forbidden")]); ok]
     = mkRun (Thrown (Error [Lit "Error: "; Val (JStr "Forbidden")]))
         [Called (remove_sources (JStr "app"))] [ok].
Proof.
  cbv zeta.
  destruct (failed_removal_stops_the_update plain_env JUndefined (JStr "app")
              inline_sources JUndefined JUndefined JUndefined eq_refl
              (or_introl eq_refl))
    as [Hrejected Hrefused].
  split; [apply Hrejected |].
  apply (Hrefused (JObj [("message", JStr "Forbidden")]) _ [] [ok]). reflexivity.
Defined.

(* ================================================================== *)
(** ** Failures while polling, and the start of an instrumentation *)
(* ================================================================== *)

(** X8. [pollProtection] gives up on the first failure, at whatever round it
    comes: an answer that carries [errors] is printed and the poll throws
    "Protection failed", and a fetch that is rejected makes the poll throw
    what it was rejected with.  In both cases the poll neither waits nor
    fetches again. *)
Theorem pollProtection_gives_up_on_the_first_failure
    (client : Client) (applicationId protectionId fragments : JSVal)
    (waiting : list JSVal) (tape : list Answer) :
  waiting_protections waiting ->
  let fetch := fetch_protection applicationId protectionId fragments in
  let poll := pollProtection client applicationId protectionId fragments in
  (forall res,
      truthy (field res "errors") = true ->
      poll (map Resolve waiting ++ Resolve res :: tape)
      = mkRun (Thrown protection_failed)
          (rounds fetch waiting ++ [Called fetch; polling_error (field res "errors")])
          tape)
  /\ (forall e,
        poll (map Resolve waiting ++ Reject e :: tape)
        = mkRun (Thrown (Rejected e)) (rounds fetch waiting ++ [Called fetch]) tape).
Proof.
  intros Hwaiting fetch poll. subst fetch poll. split.
  - intros res Herrors.
    rewrite (pollProtection_rounds _ _ _ _ waiting _ Hwaiting).
    assert (Hres : nullish res = false)
      by (destruct res; cbn in Herrors |- *; congruence).
    unfold pollProtection at 1.
    erewrite loop_thrown; [reflexivity |].
    unfold pollProtection_poll, getApplicationProtection.
    rewrite bind_call_resolve, (get_field res), bind_ret, Herrors by assumption.
    reflexivity.
  - intros e.
    rewrite (pollProtection_rounds _ _ _ _ waiting _ Hwaiting).
    unfold pollProtection at 1.
    erewrite loop_thrown; [reflexivity |].
    unfold pollProtection_poll, getApplicationProtection.
    now rewrite bind_call_reject.
Qed.

Lemma pollProtection_gives_up_on_the_first_failure_witness :
  let poll := pollProtection JUndefined (JStr "app") (JStr "p1") (JStr "fragments") in
  let fetch := fetch_protection (JStr "app") (JStr "p1") (JStr "fragments") in
  poll [Resolve (protection_in "running");
        Resolve (JObj [("errors", JArr [JObj [("message", JStr "denied")]])]); ok]
  = mkRun (Thrown protection_failed)
      [Called fetch; setTimeout 500; Called fetch;
       polling_error (JArr [JObj [("message", JStr "denied")]])]
      [ok]
  /\ poll [Resolve (protection_in "running"); server_error; ok]
     = mkRun (Thrown (Rejected [("statusCode", JNum 500)]))
         [Called fetch; setTimeout 500; Called fetch] [ok].
Proof.
  cbv zeta.
  assert (Hwaiting : waiting_protections [protection_in "running"]).
  { repeat constructor. exists (JObj [("state", JStr "running")]). repeat split. }
  destruct (pollProtection_gives_up_on_the_first_failure JUndefined (JStr "app")
              (JStr "p1") (JStr "fragments") [protection_in "running"] [ok] Hwaiting)
    as [Herrors Hrejected].
  split.
  - apply (Herrors (JObj [("errors", JArr [JObj [("message", JStr "denied")]])])).
    reflexivity.
  - apply Hrejected.
Defined.





(** X10. [startInstrumentation] deletes the profiling run it finds before it
    creates the new one: the deletion follows the probe, the creation
    follows the deletion whatever the deletion is answered with, and when
    the deletion is rejected no run is created. *)
Theorem startInstrumentation_deletes_the_previous_run
    (client : Client) (applicationId run : JSVal) (tape : list Answer) :
  truthy run = true ->
  nullish (field run "data") = false ->
  let probe := Called (fetch_profiling applicationId) in
  let deletion := Called (delete_profiling (field (field run "data") "id")) in
  (forall deleted,
      startInstrumentation client applicationId
        (Resolve run :: Resolve deleted :: tape)
      = prepend [probe; deletion] (call (create_profiling applicationId) tape))
  /\ (forall e,
        startInstrumentation client applicationId (Resolve run :: Reject e :: tape)
        = mkRun (Thrown (Rejected e)) [probe; deletion] tape).
Proof.
  intros Hrun Hdata probe deletion. subst probe deletion.
  unfold startInstrumentation, deleteProfiling, delete_profiling.
  split; [intros deleted | intros e];
    rewrite (bind_run _ _ _ _ _ _ (probe_found client applicationId run _));
    rewrite Hrun; cbn [when];
    rewrite get_field by assumption; run; reflexivity.
Qed.

Lemma startInstrumentation_deletes_the_previous_run_witness :
  startInstrumentation JUndefined (JStr "app")
    [Resolve (profiling_run "READY"); ok; Resolve (profiling_run "CREATED")]
  = mkRun (Returned (profiling_run "CREATED"))
      [Called (fetch_profiling (JStr "app"));
       Called (delete_profiling (JStr "run1"));
       Called (create_profiling (JStr "app"))] []
  /\ startInstrumentation JUndefined (JStr "app")
       [Resolve (profiling_run "READY"); server_error; ok]
     = mkRun (Thrown (Rejected [("statusCode", JNum 500)]))
         [Called (fetch_profiling (JStr "app")); Called (delete_profiling (JStr "run1"))]
         [ok].
Proof.
  destruct (startInstrumentation_deletes_the_previous_run JUndefined (JStr "app")
              (profiling_run "READY") [Resolve (profiling_run "CREATED")]
              eq_refl eq_refl) as [Hdeleted _].
  destruct (startInstrumentation_deletes_the_previous_run JUndefined (JStr "app")
              (profiling_run "READY") [ok] eq_refl eq_refl) as [_ Hrejected].
  split.
  - exact (Hdeleted (JObj [])).
  - apply Hrejected.
Defined.

(* ================================================================== *)
(** ** The source maps *)
(* ================================================================== *)

Lemma bind_catch_call_reject {B} c (h : Exn -> M JSVal) (k : JSVal -> M B) e tape :
  bind (catch (call c) h) k (Reject e :: tape)
  = prepend [Called c] (bind (h (Rejected e)) k tape).
Proof.
  unfold bind, catch, call, prepend. cbn.
  destruct (outcome (h (Rejected e) tape)); reflexivity.
Qed.

Lemma downloadSourceMaps_configured configs destCallback :
  download_configured configs destCallback ->
  forall tape,
    downloadSourceMaps configs destCallback tape
    = prepend (sources_ignored configs)
        (bind (catch (downloadSourceMapsRequest
                        (client_of configs sourceMaps_client_options)
                        (assoc "protectionId" configs))
                     check_rejection)
              (fun download =>
                 call (unzip_source_maps configs destCallback download) ;;
                 ret JUndefined) tape).
Proof.
  intros (Hkeys & Hdest & Hid) tape. unfold downloadSourceMaps. cbv zeta.
  rewrite new_Client_configured by assumption. rewrite bind_ret.
  assert (Hcheck : negb (truthy (assoc "filesDest" configs))
                   && match destCallback with Some _ => false | None => true end = false).
  { destruct Hdest as [-> | Hdest]; [reflexivity |].
    destruct destCallback; [apply andb_false_r | congruence]. }
  rewrite Hcheck, Hid. cbn [negb when]. rewrite !bind_ret.
  unfold sources_ignored.
  destruct (truthy (assoc "filesSrc" configs)); cbn [when].
  - unfold console. now rewrite bind_emit.
  - now rewrite bind_ret, prepend_nil.
Qed.

(** X11. [downloadSourceMaps] asks for nothing before it has its options: given
    the keys, a configuration with neither [filesDest] nor a destination
    callback is refused with "Required *filesDest* not provided", and one
    with a destination but no [protectionId] with "Required *protectionId*
    not provided"; in both cases nothing is printed and no call is made. *)
Theorem downloadSourceMaps_checks_its_options_first
    (configs : Props) (destCallback : option string) (tape : list Answer) :
  nullish (assoc "keys" configs) = false ->
  (truthy (assoc "filesDest" configs) = false -> destCallback = None ->
     downloadSourceMaps configs destCallback tape
     = mkRun (Thrown (Error [Lit "Required *filesDest* not provided"])) [] tape)
  /\ (truthy (assoc "filesDest" configs) = true \/ destCallback <> None ->
      truthy (assoc "protectionId" configs) = false ->
      downloadSourceMaps configs destCallback tape
      = mkRun (Thrown (Error [Lit "Required *protectionId* not provided"])) [] tape).
Proof.
  intros Hkeys. unfold downloadSourceMaps. cbv zeta.
  rewrite new_Client_configured by assumption. rewrite bind_ret. split.
  - intros Hdest ->. rewrite Hdest. reflexivity.
  - intros Hdest Hid.
    assert (Hcheck : negb (truthy (assoc "filesDest" configs))
                     && match destCallback with Some _ => false | None => true end = false).
    { destruct Hdest as [-> | Hdest]; [reflexivity |].
      destruct destCallback; [apply andb_false_r | congruence]. }
    rewrite Hcheck, Hid. reflexivity.
Qed.

(** X12. With its options given, [downloadSourceMaps] makes one request for the
    source maps of the protection and hands what it is answered, unchecked,
    to [unzip], together with [filesDest], or the callback when there is no
    [filesDest], and with [stream], [true] unless given.  A [filesSrc] in
    the configuration is ignored with a warning.  Nothing is returned. *)
Theorem downloadSourceMaps_unzips_what_it_is_answered
    (configs : Props) (destCallback : option string)
    (download unzipped : JSVal) (tape : list Answer) :
  download_configured configs destCallback ->
  downloadSourceMaps configs destCallback (Resolve download :: Resolve unzipped :: tape)
  = mkRun (Returned JUndefined)
      (sources_ignored configs
       ++ [Called (source_maps_request (assoc "protectionId" configs));
           Called (unzip_source_maps configs destCallback download)])
      tape.
Proof.
  intros Hok. now rewrite (downloadSourceMaps_configured _ _ Hok).
Qed.

(** X13. When the request for the source maps is rejected, [downloadSourceMaps]
    hands the error object to [errorHandler].  If the handler throws, as it
    does for an error with a message, the download fails with what it
    throws and nothing is unzipped.  If the handler finds nothing to report
    in the error object, the rejection is dropped: [unzip] is called all
    the same, with [undefined] for the download. *)
Theorem downloadSourceMaps_leaves_rejections_to_errorHandler
    (configs : Props) (destCallback : option string) (e : Props) (tape : list Answer) :
  download_configured configs destCallback ->
  let request := Called (source_maps_request (assoc "protectionId" configs)) in
  (forall thrown printed,
      errorHandler (JObj e) tape = mkRun (Thrown thrown) printed tape ->
      downloadSourceMaps configs destCallback (Reject e :: tape)
      = mkRun (Thrown thrown) (sources_ignored configs ++ request :: printed) tape)
  /\ (reports_no_error (JObj e) = true ->
      forall unzipped tape',
        tape = Resolve unzipped :: tape' ->
        downloadSourceMaps configs destCallback (Reject e :: tape)
        = mkRun (Returned JUndefined)
            (sources_ignored configs
             ++ [request; Called (unzip_source_maps configs destCallback JUndefined)])
            tape').
Proof.
  intros Hok request. subst request.
  split.
  - intros thrown printed Hthrown.
    rewrite (downloadSourceMaps_configured _ _ Hok).
    unfold downloadSourceMapsRequest. rewrite bind_catch_call_reject.
    cbn [check_rejection]. rewrite bind_assoc.
    rewrite (bind_run_thrown _ _ _ _ _ _ Hthrown). reflexivity.
  - intros Hclean unzipped tape' ->.
    rewrite (downloadSourceMaps_configured _ _ Hok).
    unfold downloadSourceMapsRequest. rewrite bind_catch_call_reject.
    cbn [check_rejection].
    rewrite (errorHandler_error_free _ Hclean). reflexivity.
Qed.

Lemma downloadSourceMaps_checks_its_options_first_witness :
  downloadSourceMaps (source_maps_config []) None [ok]
  = mkRun (Thrown (Error [Lit "Required *filesDest* not provided"])) [] [ok]
  /\ downloadSourceMaps
       [("keys", JObj [("accessKey", JStr "AK"); ("secretKey", JStr "SK")])]
       (Some "write") [ok]
     = mkRun (Thrown (Error [Lit "Required *protectionId* not provided"])) [] [ok].
Proof.
  split.
  - apply (downloadSourceMaps_checks_its_options_first (source_maps_config []) None [ok]
             eq_refl); reflexivity.
  - apply (downloadSourceMaps_checks_its_options_first
             [("keys", JObj [("accessKey", JStr "AK"); ("secretKey", JStr "SK")])]
             (Some "write") [ok] eq_refl).
    + right. discriminate.
    + reflexivity.
Defined.

Lemma downloadSourceMaps_unzips_what_it_is_answered_witness :
  let configs := source_maps_config [("filesDest", JStr "maps"); ("filesSrc", JArr [])] in
  download_configured configs (Some "write")
  /\ downloadSourceMaps configs (Some "write")
       [Resolve (JObj [("errors", JArr [JObj [("message", JStr "x")]])]); unzipped]
     = mkRun (Returned JUndefined)
         [Console warn
            [Lit "[Warning] Ignoring sources supplied. Downloading source maps of given protection"];
          Called (source_maps_request (JStr "p1"));
          Called (unzip (JObj [("errors", JArr [JObj [("message", JStr "x")]])])
                    (DestValue (JStr "maps")) (JBool true))]
         [].
Proof.
  cbv zeta.
  assert (Hok : download_configured
                  (source_maps_config [("filesDest", JStr "maps"); ("filesSrc", JArr [])])
                  (Some "write"))
    by (repeat split; left; reflexivity).
  split; [exact Hok |].
  apply (downloadSourceMaps_unzips_what_it_is_answered _ _ _ JUndefined [] Hok).
Defined.

Lemma downloadSourceMaps_leaves_rejections_to_errorHandler_witness :
  let configs := source_maps_config [("filesDest", JStr "maps")] in
  download_configured configs None
  /\ downloadSourceMaps configs None
       [Reject [("statusCode", JNum 401); ("message", JStr "Unauthorized")]; unzipped]
     = mkRun (Thrown (Error [Lit "Error: "; Val (JStr "Unauthorized")]))
         [Called (source_maps_request (JStr "p1"))] [unzipped]
  /\ downloadSourceMaps configs None [server_error; unzipped]
     = mkRun (Returned JUndefined)
         [Called (source_maps_request (JStr "p1"));
          Called (unzip JUndefined (DestValue (JStr "maps")) (JBool true))]
         [].
Proof.
  cbv zeta.
  assert (Hok : download_configured (source_maps_config [("filesDest", JStr "maps")]) None)
    by (repeat split; left; reflexivity).
  split; [exact Hok |]. split.
  - apply (proj1 (downloadSourceMaps_leaves_rejections_to_errorHandler _ _
                    [("statusCode", JNum 401); ("message", JStr "Unauthorized")]
                    [unzipped] Hok)
             (Error [Lit "Error: "; Val (JStr "Unauthorized")]) []).
    reflexivity.
  - apply (proj2 (downloadSourceMaps_leaves_rejections_to_errorHandler _ _
                    [("statusCode", JNum 500)] [unzipped] Hok)
             eq_refl JUndefined []).
    reflexivity.
Defined.

(* ================================================================== *)
(** ** The source stage of the workflows *)
(* ================================================================== *)

Lemma trace_bind_first {A B} (m : M A) (f : A -> M B) tape ev tr :
  trace (m tape) = ev :: tr ->
  exists after, trace (bind m f tape) = ev :: after.
Proof.
  intros H. unfold bind.
  destruct (outcome (m tape)); cbn [trace]; rewrite H; eexists; reflexivity.
Qed.


Lemma calls_cons_console kind l t tr :
  calls kind (Console l t :: tr) = calls kind tr.
Proof. reflexivity. Qed.

Section SourceStage.

Variable env : Env.

Lemma after_sources_quiet s destCallback :
  emits (quiet source_stage_call)
    (bind (protect_job env s) (fun p => protect_finish env p destCallback)).
Proof.
  unfold protect_job, protect_finish, protect_parameters, protect_create,
    createApplicationProtection, updateApplication, pollProtection, pollProtection_poll,
    getApplicationProtection, protect_download, downloadApplicationProtection.
  cbv zeta.
  repeat first
    [ apply build_updateData_quiet | apply protect_warnings_quiet
    | apply collect_sourcesErrors_quiet | apply protect_verdict_quiet
    | apply emits_errorHandler | emits_step ];
    try exact I; try reflexivity.
Qed.

Lemma instrumentAndDownload_configured cpo destCallback finalConfig :
  buildFinalConfig env cpo = inr finalConfig ->
  configured finalConfig destCallback ->
  instrumentAndDownload env cpo destCallback
  = ((if negb (truthy (assoc "skipSources" finalConfig)) then
        updateApplicationSources env (client_of finalConfig instrument_client_options)
          (assoc "applicationId" finalConfig) (assoc "sources" finalConfig)
          (filesSrc_of finalConfig) (assoc "cwd" finalConfig) JUndefined ;;
        ret tt
      else console log [Lit "Update source files SKIPPED"]) ;;
     instrument_job env (client_of finalConfig instrument_client_options) finalConfig
       (filesDest_of finalConfig destCallback) destCallback).
Proof.
  intros Hcfg Hok. unfold instrumentAndDownload.
  rewrite Hcfg. cbn [lift]. rewrite bind_ret_fun.
  rewrite new_Client_configured by apply Hok. rewrite bind_ret_fun.
  rewrite required_options_configured by assumption.
  reflexivity.
Qed.

Lemma instrument_job_quiet client finalConfig filesDest destCallback :
  emits (quiet replaces_sources)
    (instrument_job env client finalConfig filesDest destCallback).
Proof.
  unfold instrument_job, startInstrumentation, getApplicationProfiling, deleteProfiling,
    rethrow_unless_404, data_id, pollInstrumentation, pollInstrumentation_poll,
    getInstrumentation, errors_concat, downloadApplicationInstrumented.
  cbv zeta.
  repeat first [apply emits_errorHandler | emits_step]; try exact I; try reflexivity.
Qed.

Lemma protect_until_sources_skipped cpo destCallback finalConfig tape :
  buildFinalConfig env cpo = inr finalConfig ->
  configured finalConfig destCallback ->
  truthy (assoc "skipSources" finalConfig) = true ->
  protect_until_sources env cpo destCallback tape
  = mkRun (Returned (mkPrepared (client_of finalConfig protect_client_options) finalConfig
                       (filesDest_of finalConfig destCallback) JUndefined))
      [sources_skipped] tape.
Proof.
  intros Hcfg Hok Hskip.
  rewrite (protect_until_sources_configured env _ _ _ Hcfg Hok).
  unfold protect_sources. rewrite Hskip. reflexivity.
Qed.

(** X14. With [skipSources], the workflows leave the sources alone.
    [protectAndDownload] starts by printing "Update source files SKIPPED" and
    then, whatever the service answers, never probes for a profiling run,
    deletes one, removes or uploads sources, or looks for files to zip.
    [instrumentAndDownload] starts with the same line and never removes or
    uploads sources, nor looks for files to zip. *)
Theorem skipSources_leaves_the_sources_alone
    (cpo : ConfigArg) (destCallback : option string) (finalConfig : Props)
    (tape : list Answer) :
  buildFinalConfig env cpo = inr finalConfig ->
  configured finalConfig destCallback ->
  truthy (assoc "skipSources" finalConfig) = true ->
  let protect := protectAndDownload env cpo destCallback tape in
  let instrument := instrumentAndDownload env cpo destCallback tape in
  (exists after, trace protect = sources_skipped :: after)
  /\ calls source_stage_call (trace protect) = 0
  /\ (exists after, trace instrument = sources_skipped :: after)
  /\ calls replaces_sources (trace instrument) = 0.
Proof.
  intros Hcfg Hok Hskip protect instrument.
  assert (Hprotect : protect
            = prepend [sources_skipped]
                (bind (protect_job env
                         (mkPrepared (client_of finalConfig protect_client_options)
                            finalConfig (filesDest_of finalConfig destCallback) JUndefined))
                      (fun p => protect_finish env p destCallback) tape)).
  { subst protect. unfold protectAndDownload, protect_until_polled.
    rewrite bind_assoc.
    now rewrite (bind_run _ _ _ _ _ _
                   (protect_until_sources_skipped _ _ _ tape Hcfg Hok Hskip)). }
  assert (Hinstrument : instrument
            = prepend [sources_skipped]
                (instrument_job env (client_of finalConfig instrument_client_options)
                   finalConfig (filesDest_of finalConfig destCallback) destCallback tape)).
  { subst instrument. rewrite (instrumentAndDownload_configured _ _ _ Hcfg Hok).
    rewrite Hskip. cbn [negb]. unfold console. now rewrite bind_emit. }
  rewrite Hprotect, Hinstrument. unfold prepend. cbn [trace app].
  repeat split.
  - eexists. reflexivity.
  - unfold sources_skipped. rewrite calls_cons_console.
    apply emits_calls, after_sources_quiet.
  - eexists. reflexivity.
  - unfold sources_skipped. rewrite calls_cons_console.
    apply emits_calls, instrument_job_quiet.
Qed.

Lemma quiet_files kind ev :
  (forall c, is_glob c || is_zip c = true -> kind c = true) ->
  quiet kind ev -> quiet (either is_glob is_zip) ev.
Proof.
  intros Hkind. destruct ev as [c| |]; cbn; auto. unfold either.
  intros Hc. destruct (is_glob c || is_zip c) eqn:E; [| reflexivity].
  apply Hkind in E. congruence.
Qed.

Lemma updateApplicationSources_without_files client applicationId sources cwd appProfiling :
  emits (quiet (either is_glob is_zip))
    (updateApplicationSources env client applicationId sources JUndefined cwd appProfiling).
Proof.
  unfold updateApplicationSources, removeSourceFromApplication, addApplicationSource,
    generate_base64.
  cbn [js_and truthy field orb].
  quiet_tac.
Qed.

(** X15. When the configuration holds [sources], the workflows take them and
    ignore [filesSrc]: however the service answers, neither
    [protectAndDownload] nor [instrumentAndDownload] looks for files with
    [glob.sync] or zips files from the disk. *)
Theorem sources_make_the_workflows_ignore_filesSrc
    (cpo : ConfigArg) (destCallback : option string) (finalConfig : Props)
    (tape : list Answer) :
  buildFinalConfig env cpo = inr finalConfig ->
  configured finalConfig destCallback ->
  truthy (assoc "sources" finalConfig) = true ->
  calls (either is_glob is_zip) (trace (protectAndDownload env cpo destCallback tape)) = 0
  /\ calls (either is_glob is_zip)
       (trace (instrumentAndDownload env cpo destCallback tape)) = 0.
Proof.
  intros Hcfg Hok Hsources.
  assert (Hfiles : filesSrc_of finalConfig = JUndefined)
    by (unfold filesSrc_of; now rewrite Hsources).
  split; apply emits_calls.
  - unfold protectAndDownload, protect_until_polled.
    rewrite (protect_until_sources_configured env _ _ _ Hcfg Hok), Hfiles.
    intros tape'. rewrite !bind_assoc.
    apply emits_bind.
    + unfold protect_sources, getApplicationProfiling, deleteProfiling,
        rethrow_unless_404, assign.
      cbv zeta.
      repeat first [apply updateApplicationSources_without_files | emits_step];
        try exact I; try reflexivity.
    + intros source. intros tape''. rewrite bind_ret.
      eapply emits_weaken; [| apply after_sources_quiet].
      intros ev. apply quiet_files. intros c Hc.
      unfold source_stage_call, replaces_sources.
      apply orb_prop in Hc as [-> | ->]; now rewrite ?orb_true_r.
  - rewrite (instrumentAndDownload_configured _ _ _ Hcfg Hok), Hfiles.
    apply emits_bind.
    + destruct (negb (truthy (assoc "skipSources" finalConfig)));
        [| apply emits_console; exact I].
      apply emits_bind; [apply updateApplicationSources_without_files |].
      intros ?. apply emits_ret.
    + intros _. eapply emits_weaken; [| apply instrument_job_quiet].
      intros ev. apply quiet_files. intros c Hc. unfold replaces_sources.
      apply orb_prop in Hc as [-> | ->]; now rewrite ?orb_true_r.
Qed.



Lemma updateApplicationSources_starts_with_the_removal
    client applicationId sources filesSrc cwd appProfiling tape :
  truthy sources || truthy (js_and filesSrc (field filesSrc "length")) = true ->
  not_ready appProfiling ->
  exists after,
    trace (updateApplicationSources env client applicationId sources filesSrc cwd
             appProfiling tape)
    = Called (remove_sources applicationId) :: after.
Proof.
  intros Hnew Hready. unfold updateApplicationSources, removeSourceFromApplication.
  rewrite Hnew, (not_ready_check _ Hready). run.
  destruct tape as [|[v|e] tape]; run; eexists; reflexivity.
Qed.


(** X17. [instrumentAndDownload] replaces the sources without looking at the
    profiling run: with new sources supplied and the sources not skipped,
    its first call is the removal of the sources of the application. *)
Theorem instrumentAndDownload_removes_the_sources_at_once
    (cpo : ConfigArg) (destCallback : option string) (finalConfig : Props)
    (tape : list Answer) :
  buildFinalConfig env cpo = inr finalConfig ->
  configured finalConfig destCallback ->
  truthy (assoc "skipSources" finalConfig) = false ->
  new_sources finalConfig = true ->
  exists after,
    trace (instrumentAndDownload env cpo destCallback tape)
    = Called (remove_sources (assoc "applicationId" finalConfig)) :: after.
Proof.
  intros Hcfg Hok Hskip Hnew.
  rewrite (instrumentAndDownload_configured _ _ _ Hcfg Hok), Hskip. cbn [negb].
  destruct (updateApplicationSources_starts_with_the_removal
              (client_of finalConfig instrument_client_options)
              (assoc "applicationId" finalConfig) (assoc "sources" finalConfig)
              (filesSrc_of finalConfig) (assoc "cwd" finalConfig) JUndefined tape Hnew
              (or_introl eq_refl))
    as (after & Hafter).
  destruct (trace_bind_first _ (fun _ : JSVal => ret tt) tape _ _ Hafter) as (after' & Hafter').
  exact (trace_bind_first _ _ tape _ _ Hafter').
Qed.

End SourceStage.

Lemma skipSources_leaves_the_sources_alone_witness :
  let cpo := sample_config [("skipSources", JBool true); ("sources", inline_sources)] in
  let tape := tl (answers_with finished_clean) in
  outcome (protectAndDownload plain_env cpo None tape) = Returned (JStr "p1")
  /\ calls source_stage_call (trace (protectAndDownload plain_env cpo None tape)) = 0
  /\ calls replaces_sources (trace (instrumentAndDownload plain_env cpo None tape)) = 0.
Proof.
  cbv zeta.
  assert (Hok : configured
                  [("keys", JObj [("accessKey", JStr "AK"); ("secretKey", JStr "SK")]);
                   ("applicationId", JStr "app"); ("filesDest", JStr "out");
                   ("skipSources", JBool true); ("sources", inline_sources)] None)
    by (repeat split; left; reflexivity).
  destruct (skipSources_leaves_the_sources_alone plain_env
              (sample_config [("skipSources", JBool true); ("sources", inline_sources)])
              None _ (tl (answers_with finished_clean)) eq_refl Hok eq_refl)
    as (_ & Hprotect & _ & Hinstrument).
  split; [reflexivity |]. split; assumption.
Defined.

Lemma sources_make_the_workflows_ignore_filesSrc_witness :
  let cpo := sample_config [("sources", inline_sources);
                            ("filesSrc", JArr [JStr "src/*.js"])] in
  let tape := [no_such_run; ok; Resolve (JArchive [Byte.x50; Byte.x4b]); ok]
              ++ tl (answers_with finished_clean) in
  outcome (protectAndDownload plain_env cpo None tape) = Returned (JStr "p1")
  /\ calls is_zipSources (trace (protectAndDownload plain_env cpo None tape)) = 1
  /\ calls (either is_glob is_zip) (trace (protectAndDownload plain_env cpo None tape)) = 0
  /\ calls (either is_glob is_zip)
       (trace (instrumentAndDownload plain_env cpo None tape)) = 0.
Proof.
  cbv zeta.
  assert (Hok : configured
                  [("keys", JObj [("accessKey", JStr "AK"); ("secretKey", JStr "SK")]);
                   ("applicationId", JStr "app"); ("filesDest", JStr "out");
                   ("sources", inline_sources); ("filesSrc", JArr [JStr "src/*.js"])] None)
    by (repeat split; left; reflexivity).
  split; [reflexivity |]. split; [reflexivity |].
  apply (sources_make_the_workflows_ignore_filesSrc plain_env
           (sample_config [("sources", inline_sources);
                           ("filesSrc", JArr [JStr "src/*.js"])])
           None _ _ eq_refl Hok eq_refl).
Defined.


Lemma instrumentAndDownload_removes_the_sources_at_once_witness :
  exists after,
    trace (instrumentAndDownload plain_env (sample_config [("sources", inline_sources)])
             None [ok])
    = Called (remove_sources (JStr "app")) :: after.
Proof.
  assert (Hok : configured
                  [("keys", JObj [("accessKey", JStr "AK"); ("secretKey", JStr "SK")]);
                   ("applicationId", JStr "app"); ("filesDest", JStr "out");
                   ("sources", inline_sources)] None)
    by (repeat split; left; reflexivity).
  apply (instrumentAndDownload_removes_the_sources_at_once plain_env
           (sample_config [("sources", inline_sources)]) None _ [ok]
           eq_refl Hok eq_refl eq_refl).
Defined.

(* ================================================================== *)
(** ** What the job is created with *)
(* ================================================================== *)

(** X18. The update of the parameters built from a configuration.  When the
    configuration holds parameters, [parameters] is their normalized list,
    and otherwise it is absent.  [areSubscribersOrdered] is the configured
    value whenever one is given; only without one is it inferred from the
    parameters, [true] for a list and [false] for an object, and it is
    absent when there are no parameters either.  [debugMode] is always a
    boolean and [_id] is the application. *)
Theorem configured_order_of_subscribers_wins (finalConfig : Props) :
  exists updateData,
    build_updateData finalConfig = ret updateData
    /\ assoc "areSubscribersOrdered" updateData
       = (if defined (assoc "areSubscribersOrdered" finalConfig)
          then assoc "areSubscribersOrdered" finalConfig
          else if has_params finalConfig
               then JBool (is_array (assoc "params" finalConfig))
               else JUndefined)
    /\ (if has_params finalConfig
        then normalizeParameters (assoc "params" finalConfig)
             = ret (assoc "parameters" updateData)
        else assoc "parameters" updateData = JUndefined)
    /\ assoc "debugMode" updateData = JBool (truthy (assoc "debugMode" finalConfig))
    /\ assoc "_id" updateData = assoc "applicationId" finalConfig.
Proof.
  unfold build_updateData, has_params. cbv zeta.
  destruct (truthy (assoc "params" finalConfig)
            && negb (length (own_props (assoc "params" finalConfig)) =? 0)%nat)
    eqn:Hparams.
  - pose proof Hparams as Htruthy. apply andb_prop in Htruthy as [Htruthy _].
    destruct (normalizeParameters_truthy _ Htruthy) as (normalized & Hnorm & _).
    rewrite Hnorm. rewrite !bind_ret_fun. eexists. split; [reflexivity |].
    rewrite !assoc_set_if, !assoc_assoc_set.
    cbn [String.eqb Ascii.eqb Bool.eqb assoc]. rewrite ?andb_false_r, ?andb_true_r.
    repeat split.
  - rewrite !bind_ret_fun. eexists. split; [reflexivity |].
    rewrite !assoc_set_if.
    cbn [String.eqb Ascii.eqb Bool.eqb assoc]. rewrite ?andb_false_r, ?andb_true_r.
    repeat split.
Qed.

Lemma keys_assoc_set k v (ps : Props) k' :
  In k' (map fst (assoc_set k v ps)) -> k' = k \/ In k' (map fst ps).
Proof.
  induction ps as [|[k0 v0] ps IH]; cbn [assoc_set map fst In].
  - intros [<- | []]. now left.
  - destruct (String.eqb k0 k); cbn [map fst In].
    + intros [<- | H]; right; [now left | now right].
    + intros [<- | H]; [right; now left |].
      destruct (IH H) as [-> | H']; [now left | right; now right].
Qed.

Lemma NoDup_keys_assoc_set k v (ps : Props) :
  NoDup (map fst ps) -> NoDup (map fst (assoc_set k v ps)).
Proof.
  induction ps as [|[k0 v0] ps IH]; cbn [assoc_set map fst]; intros H.
  - repeat constructor. intros [].
  - inversion H as [|? ? Hk0 Hps]; subst.
    destruct (String.eqb_spec k0 k) as [-> | Hne]; cbn [map fst].
    + now constructor.
    + constructor; [| now apply IH].
      intros Hin. apply keys_assoc_set in Hin as [-> | Hin]; [congruence | contradiction].
Qed.

Lemma NoDup_keys_set_if b k v (ps : Props) :
  NoDup (map fst ps) -> NoDup (map fst (set_if b k v ps)).
Proof. unfold set_if. destruct b; [apply NoDup_keys_assoc_set | auto]. Qed.

Lemma keys_assoc_delete k (ps : Props) :
  map fst (assoc_delete k ps) = filter (fun k' => negb (String.eqb k' k)) (map fst ps).
Proof.
  unfold assoc_delete. induction ps as [|[k0 v0] ps IH]; cbn [filter map fst]; [reflexivity |].
  destruct (negb (String.eqb k0 k)); cbn [map fst]; now rewrite IH.
Qed.

Lemma assoc_assoc_delete k k' (ps : Props) :
  assoc k (assoc_delete k' ps) = if String.eqb k k' then JUndefined else assoc k ps.
Proof.
  unfold assoc_delete. induction ps as [|[k0 v0] ps IH]; cbn [filter assoc fst].
  - now destruct (String.eqb k k').
  - destruct (String.eqb_spec k0 k') as [-> | Hne]; cbn [negb assoc].
    + rewrite IH. rewrite (String.eqb_sym k' k). now destruct (String.eqb k k').
    + rewrite IH. destruct (String.eqb_spec k0 k) as [-> | _]; [| reflexivity].
      destruct (String.eqb_spec k k'); [congruence | reflexivity].
Qed.

Lemma defined_assoc_key k (ps : Props) :
  defined (assoc k ps) = true -> In k (map fst ps).
Proof.
  induction ps as [|[k0 v0] ps IH]; cbn [assoc map fst In]; [discriminate |].
  destruct (String.eqb_spec k0 k); [now left | right; now apply IH].
Qed.

Lemma Forall_keys_not_in k (ps : Props) :
  ~ In k (map fst ps) -> Forall (fun p => fst p <> k) ps.
Proof.
  intros H. apply Forall_forall. intros p Hp Heq. apply H.
  rewrite <- Heq. now apply in_map.
Qed.

Lemma assoc_spread_defined k (a b : Props) :
  NoDup (map fst b) -> defined (assoc k b) = true ->
  assoc k (assoc_spread a b) = assoc k b.
Proof.
  unfold assoc_spread. intros Hb. revert a.
  induction b as [|[k0 v0] b IH]; intros a; cbn [fold_left assoc fst snd]; [discriminate |].
  inversion Hb as [|? ? Hk0 Hb']; subst.
  destruct (String.eqb_spec k0 k) as [-> | Hne].
  - intros _.
    pose proof (assoc_spread_other k (assoc_set k v0 a) b (Forall_keys_not_in _ _ Hk0)) as H.
    unfold assoc_spread in H. rewrite H, assoc_assoc_set. now rewrite String.eqb_refl.
  - intros Hdefined. now apply IH.
Qed.

Lemma build_updateData_unique_keys finalConfig :
  exists updateData,
    build_updateData finalConfig = ret updateData
    /\ NoDup (map fst updateData)
    /\ Forall (fun p => job_only_option (fst p) = false) updateData
    /\ assoc "_id" updateData = assoc "applicationId" finalConfig.
Proof.
  unfold build_updateData. cbv zeta.
  assert (Hbase : forall a b c d : JSVal,
            NoDup (map fst [("_id", a); ("debugMode", b); ("tolerateMinification", c);
                            ("codeHardeningThreshold", d)])).
  { intros. repeat constructor; cbn; intuition discriminate. }
  assert (Hkeys : forall a b c d,
            Forall (fun p : string * JSVal => job_only_option (fst p) = false)
              [("_id", a); ("debugMode", b); ("tolerateMinification", c);
               ("codeHardeningThreshold", d)])
    by (intros; repeat constructor).
  destruct (truthy (assoc "params" finalConfig)
            && negb (length (own_props (assoc "params" finalConfig)) =? 0)%nat)
    eqn:Hparams.
  - apply andb_prop in Hparams as [Htruthy _].
    destruct (normalizeParameters_truthy _ Htruthy) as (normalized & Hnorm & _).
    rewrite Hnorm. rewrite !bind_ret_fun. eexists. split; [reflexivity |].
    split; [| split].
    + repeat first [apply NoDup_keys_set_if | apply NoDup_keys_assoc_set]. apply Hbase.
    + repeat first
        [ apply (Forall_key_set_if (fun k => job_only_option k = false)); [reflexivity |]
        | apply (Forall_key_assoc_set (fun k => job_only_option k = false));
          [reflexivity |] ].
      apply Hkeys.
    + rewrite !assoc_set_if, !assoc_assoc_set.
      cbn [String.eqb Ascii.eqb Bool.eqb assoc]. now rewrite ?andb_false_r.
  - rewrite !bind_ret_fun. eexists. split; [reflexivity |].
    split; [| split].
    + repeat apply NoDup_keys_set_if. apply Hbase.
    + repeat (apply (Forall_key_set_if (fun k => job_only_option k = false));
              [reflexivity |]).
      apply Hkeys.
    + rewrite !assoc_set_if.
      cbn [String.eqb Ascii.eqb Bool.eqb assoc]. now rewrite ?andb_false_r.
Qed.

Lemma ret_injective {A} (a b : A) : @ret A a = ret b -> a = b.
Proof.
  intros H. apply (f_equal (fun m => outcome (m []))) in H. cbn in H. congruence.
Qed.

(** X19. The options of the job are those of the update of the parameters
    without the [_id]: every option the update defines, but [_id], is passed
    on to the creation of the protection with the same value.  Beside them
    the job takes from the configuration its [bail], [true] when left out,
    its [randomizationSeed] and its [inputSymbolTable], and it takes the
    bundle of the sources as [source]. *)
Theorem job_options_are_the_update_without_the_id
    (finalConfig updateData : Props) (source : JSVal) :
  build_updateData finalConfig = ret updateData ->
  let options := build_protectionOptions finalConfig source updateData in
  assoc "_id" updateData = assoc "applicationId" finalConfig
  /\ assoc "_id" options = JUndefined
  /\ (forall k, String.eqb k "_id" = false -> defined (assoc k updateData) = true ->
                assoc k options = assoc k updateData)
  /\ assoc "bail" options = or_default (assoc "bail" finalConfig) (JBool true)
  /\ assoc "randomizationSeed" options = assoc "randomizationSeed" finalConfig
  /\ assoc "inputSymbolTable" options = assoc "inputSymbolTable" finalConfig
  /\ assoc "source" options = source.
Proof.
  intros Hbuilt options. subst options.
  destruct (build_updateData_unique_keys finalConfig)
    as (updateData' & Hbuilt' & Hunique & Hkeys & Hid).
  rewrite Hbuilt in Hbuilt'. apply ret_injective in Hbuilt'. subst updateData'.
  assert (Hdeleted : NoDup (map fst (assoc_delete "_id" updateData)))
    by (rewrite keys_assoc_delete; now apply NoDup_filter).
  assert (Hother : forall k, job_only_option k = true ->
            Forall (fun p : string * JSVal => fst p <> k) (assoc_delete "_id" updateData)).
  { intros k Hk. unfold assoc_delete. apply Forall_forall. intros p Hp Heq.
    apply filter_In in Hp as [Hp _].
    rewrite Forall_forall in Hkeys. specialize (Hkeys p Hp). congruence. }
  unfold build_protectionOptions. repeat split.
  - exact Hid.
  - rewrite assoc_spread_other; [reflexivity |].
    apply Forall_keys_not_in. rewrite keys_assoc_delete. intros Hin.
    apply filter_In in Hin as [_ Hin]. discriminate.
  - intros k Hk Hdefined.
    rewrite assoc_spread_defined; rewrite ?assoc_assoc_delete, ?Hk; auto.
  - now rewrite assoc_spread_other by (now apply Hother).
  - now rewrite assoc_spread_other by (now apply Hother).
  - now rewrite assoc_spread_other by (now apply Hother).
  - now rewrite assoc_spread_other by (now apply Hother).
Qed.

Lemma job_options_are_the_update_without_the_id_witness :
  let finalConfig :=
    [("applicationId", JStr "app"); ("sourceMaps", JBool true);
     ("params", JObj [("stringsEncoding", JObj [])])] in
  let updateData := returned_or [] (build_updateData finalConfig []) in
  let options := build_protectionOptions finalConfig (JStr "bundle") updateData in
  assoc "_id" updateData = JStr "app"
  /\ assoc "_id" options = JUndefined
  /\ assoc "sourceMaps" options = JBool true
  /\ assoc "parameters" options
     = JArr [JObj [("name", JStr "stringsEncoding"); ("options", JObj [])]]
  /\ assoc "bail" options = JBool true
  /\ assoc "source" options = JStr "bundle".
Proof.
  cbv zeta.
  destruct (job_options_are_the_update_without_the_id
              [("applicationId", JStr "app"); ("sourceMaps", JBool true);
               ("params", JObj [("stringsEncoding", JObj [])])]
              (returned_or []
                 (build_updateData
                    [("applicationId", JStr "app"); ("sourceMaps", JBool true);
                     ("params", JObj [("stringsEncoding", JObj [])])] []))
              (JStr "bundle") eq_refl)
    as (Hid & Hnone & Hpassed & Hbail & _ & _ & Hsource).
  split; [exact Hid |]. split; [exact Hnone |].
  split; [exact (Hpassed "sourceMaps" eq_refl eq_refl) |].
  split; [exact (Hpassed "parameters" eq_refl eq_refl) |].
  split; [exact Hbail | exact Hsource].
Defined.

Section JobCreation.

Variable env : Env.

(** X20. The creation of the job.  [protect_create] asks for the arguments of
    the mutation and posts the creation with the options of the job; it
    returns the [_id] of the protection the service answers with.  Without
    an [inputSymbolTable] no file is read; with one, the file is read first
    and the options carry its contents in place of its path. *)
Theorem job_is_created_with_the_symbol_table_inlined
    (client : Client) (finalConfig updateData : Props) (source : JSVal)
    (introspected created : JSVal) (tape : list Answer) :
  nullish introspected = false ->
  accepted created ->
  nullish (field (field created "data") "createApplicationProtection") = false ->
  let options := build_protectionOptions finalConfig source updateData in
  let create options :=
    [Called (introspection_mutation "createApplicationProtection");
     Called (create_protection (assoc "applicationId" finalConfig) options
               (field introspected "args"))] in
  let protectionId :=
    field (field (field created "data") "createApplicationProtection") "_id" in
  (truthy (assoc "inputSymbolTable" finalConfig) = false ->
     protect_create env client finalConfig source updateData
       (Resolve introspected :: Resolve created :: tape)
     = mkRun (Returned protectionId)
         (debug_log env "Creating Application Protection" ++ create options) tape)
  /\ (truthy (assoc "inputSymbolTable" finalConfig) = true ->
      forall contents,
        protect_create env client finalConfig source updateData
          (Resolve contents :: Resolve introspected :: Resolve created :: tape)
        = mkRun (Returned protectionId)
            (debug_log env "Creating Application Protection"
             ++ Called (fs_readFileSync (assoc "inputSymbolTable" finalConfig))
                :: create (assoc_set "inputSymbolTable" contents options))
            tape).
Proof.
  intros Hintrospected Hcreated Hprotection options create protectionId.
  subst options create protectionId. unfold accepted in Hcreated.
  assert (Hdata : nullish (field created "data") = false)
    by (now apply field_nullish in Hprotection).
  assert (Hres : nullish created = false) by (now apply field_nullish in Hdata).
  unfold protect_create, createApplicationProtection, create_protection, debug_log.
  cbv zeta.
  split; [intros Hnone | intros Hfile contents]; rewrite ?Hnone, ?Hfile;
    destruct (debug env); run;
      rewrite (get_field introspected) by assumption; run;
      rewrite Hcreated; run;
      rewrite (get_field created), bind_ret by assumption;
      rewrite (get_field (field created "data")), bind_ret by assumption;
      rewrite get_field by assumption; reflexivity.
Qed.

End JobCreation.

Lemma job_is_created_with_the_symbol_table_inlined_witness :
  let finalConfig := [("applicationId", JStr "app"); ("inputSymbolTable", JStr "table.json")] in
  protect_create plain_env JUndefined finalConfig JUndefined []
    [Resolve (JStr "{}"); Resolve (JObj [("args", JArr [])]);
     Resolve (JObj [("data",
                     JObj [("createApplicationProtection", JObj [("_id", JStr "p1")])])])]
  = mkRun (Returned (JStr "p1"))
      [Called (fs_readFileSync (JStr "table.json"));
       Called (introspection_mutation "createApplicationProtection");
       Called (create_protection (JStr "app")
                 [("bail", JBool true); ("randomizationSeed", JUndefined);
                  ("tolerateMinification", JUndefined); ("source", JUndefined);
                  ("inputSymbolTable", JStr "{}")]
                 (JArr []))]
      [].
Proof.
  cbv zeta.
  apply (proj2 (job_is_created_with_the_symbol_table_inlined plain_env JUndefined
                  [("applicationId", JStr "app"); ("inputSymbolTable", JStr "table.json")]
                  [] JUndefined (JObj [("args", JArr [])])
                  (JObj [("data",
                          JObj [("createApplicationProtection",
                                 JObj [("_id", JStr "p1")])])])
                  [] eq_refl eq_refl eq_refl)
           eq_refl (JStr "{}")).
Defined.

(* ================================================================== *)
(** ** The end of a protection *)
(* ================================================================== *)

Lemma protect_verdict_errored protection sourcesErrors tape :
  field protection "state" = JStr "errored" ->
  protect_verdict protection sourcesErrors tape
  = mkRun (Thrown protection_failed)
      (global_errors protection ++ printed_if_any sourcesErrors) tape.
Proof.
  intros Hstate. unfold protect_verdict.
  assert (Hnull : nullish protection = false)
    by (apply field_nullish with (k := "state"); now rewrite Hstate).
  rewrite get_field by assumption. rewrite bind_ret, Hstate.
  cbn [strict_eq String.eqb Ascii.eqb Bool.eqb].
  destruct sourcesErrors as [|e errors]; reflexivity.
Qed.

Lemma protect_verdict_clean protection tape :
  field protection "state" = JStr "finished" ->
  protect_verdict protection [] tape = mkRun (Returned tt) [] tape.
Proof.
  intros Hstate. unfold protect_verdict.
  assert (Hnull : nullish protection = false)
    by (apply field_nullish with (k := "state"); now rewrite Hstate).
  rewrite get_field by assumption. now rewrite bind_ret, Hstate.
Qed.

Section Finish.

Variable env : Env.

Lemma protect_download_run
    client protectionId filesDest destCallback stream archive unzipped tape :
  accepted archive ->
  protect_download env client protectionId filesDest destCallback stream
    (Resolve archive :: Resolve unzipped :: tape)
  = mkRun (Returned protectionId)
      (debug_log env "Downloading protection result"
       ++ [Called (download_protection protectionId)]
       ++ debug_log env "Unzipping files"
       ++ [Called (unzip archive (destination filesDest destCallback) stream)]
       ++ debug_log env "Finished unzipping files"
       ++ [Console log [Val protectionId]])
      tape.
Proof.
  intros Haccepted. unfold accepted in Haccepted.
  unfold protect_download, downloadApplicationProtection, debug_log.
  destruct (debug env); run; rewrite Haccepted; run; reflexivity.
Qed.

Lemma protect_until_polled_returns cpo destCallback finalConfig :
  buildFinalConfig env cpo = inr finalConfig ->
  configured finalConfig destCallback ->
  returns (protect_until_polled env cpo destCallback)
    (fun p => polled_config p = finalConfig
              /\ polled_filesDest p = filesDest_of finalConfig destCallback).
Proof.
  intros Hcfg Hok. unfold protect_until_polled.
  rewrite (protect_until_sources_configured env _ _ _ Hcfg Hok).
  apply returns_bind with
    (Q := fun s => prepared_config s = finalConfig
                   /\ prepared_filesDest s = filesDest_of finalConfig destCallback).
  - apply returns_bind with (Q := fun _ => True); [apply returns_any |].
    intros source _. apply returns_ret. now split.
  - intros s [Hconfig Hdest]. unfold protect_job. cbv zeta.
    repeat (apply returns_bind with (Q := fun _ => True); [apply returns_any | intros ? _]).
    apply returns_ret. now split.
Qed.

(** X21. A protection that ended in state [errored] is never downloaded.  Once
    the poll has returned it and its warnings are printed,
    [protectAndDownload] prints "Global protection errors:" and its
    [errorMessage], then the per-source errors if there are some, and fails
    with "Protection failed", whatever [bail] holds. *)
Theorem errored_protection_is_not_downloaded
    (cpo : ConfigArg) (destCallback : option string) (tape : list Answer)
    (p : Polled) (before : list Event) (tape' : list Answer) (errors : list JSVal) :
  protect_until_polled env cpo destCallback tape = mkRun (Returned p) before tape' ->
  let protection := polled_protection p in
  field protection "state" = JStr "errored" ->
  outcome (protect_warnings env protection tape') = Returned tt ->
  outcome (collect_sourcesErrors protection tape') = Returned errors ->
  let warnings := trace (protect_warnings env protection tape') in
  let r := protectAndDownload env cpo destCallback tape in
  r = mkRun (Thrown protection_failed)
        (before ++ warnings ++ global_errors protection ++ printed_if_any errors) tape'
  /\ calls is_download (trace r) = 0.
Proof.
  intros Hpolled protection Hstate Hwarn Hcollect warnings r.
  assert (Hbefore : calls is_download before = 0).
  { pose proof (emits_calls is_download _
                  (protect_until_polled_quiet_download env cpo destCallback) tape) as H.
    now rewrite Hpolled in H. }
  assert (Hwarnings : calls is_download warnings = 0)
    by apply emits_calls, protect_warnings_quiet.
  assert (Hw : protect_warnings env protection tape' = mkRun (Returned tt) warnings tape')
    by (apply run_eta; [exact Hwarn | apply protect_warnings_local]).
  assert (Hc : collect_sourcesErrors protection tape' = mkRun (Returned errors) [] tape').
  { rewrite <- (collect_sourcesErrors_silent protection tape').
    apply run_eta; [exact Hcollect | apply collect_sourcesErrors_local]. }
  assert (Hr : r = mkRun (Thrown protection_failed)
                     (before ++ warnings ++ global_errors protection
                      ++ printed_if_any errors) tape').
  { subst r. unfold protectAndDownload.
    rewrite (bind_run _ _ _ _ _ _ Hpolled). unfold protect_finish.
    fold protection. rewrite (bind_run _ _ _ _ _ _ Hw).
    rewrite (bind_run _ _ _ _ _ _ Hc).
    rewrite (bind_run_thrown _ _ _ _ _ _ (protect_verdict_errored _ errors tape' Hstate)).
    reflexivity. }
  split; [exact Hr |]. rewrite Hr. cbn [trace].
  rewrite !calls_app, Hbefore, Hwarnings.
  unfold printed_if_any. now destruct errors.
Qed.

(** X22. A protection that finished without per-source errors is downloaded
    and unzipped: once the poll has returned it and its warnings are
    printed, [protectAndDownload] asks for the result, hands the archive to
    [unzip] together with the destination, which is the callback when one
    is given and [filesDest] otherwise, and with [stream], [true] unless
    configured; it prints the id of the protection and returns it. *)
Theorem finished_protection_is_downloaded_and_unzipped
    (cpo : ConfigArg) (destCallback : option string) (finalConfig : Props)
    (tape : list Answer) (p : Polled) (before : list Event)
    (archive unzipped : JSVal) (tape' : list Answer) :
  buildFinalConfig env cpo = inr finalConfig ->
  configured finalConfig destCallback ->
  protect_until_polled env cpo destCallback tape
  = mkRun (Returned p) before (Resolve archive :: Resolve unzipped :: tape') ->
  let protection := polled_protection p in
  let tape0 := Resolve archive :: Resolve unzipped :: tape' in
  field protection "state" = JStr "finished" ->
  outcome (protect_warnings env protection tape0) = Returned tt ->
  outcome (collect_sourcesErrors protection tape0) = Returned [] ->
  accepted archive ->
  protectAndDownload env cpo destCallback tape
  = mkRun (Returned (polled_id p))
      (before ++ trace (protect_warnings env protection tape0)
       ++ debug_log env "Downloading protection result"
       ++ [Called (download_protection (polled_id p))]
       ++ debug_log env "Unzipping files"
       ++ [Called (unzip archive
                     (destination (filesDest_of finalConfig destCallback) destCallback)
                     (or_default (assoc "stream" finalConfig) (JBool true)))]
       ++ debug_log env "Finished unzipping files"
       ++ [Console log [Val (polled_id p)]])
      tape'.
Proof.
  intros Hcfg Hok Hpolled protection tape0 Hstate Hwarn Hcollect Haccepted.
  destruct (protect_until_polled_returns _ _ _ Hcfg Hok tape p) as [Hconfig Hdest];
    [now rewrite Hpolled |].
  assert (Hw : protect_warnings env protection tape0
               = mkRun (Returned tt) (trace (protect_warnings env protection tape0)) tape0)
    by (apply run_eta; [exact Hwarn | apply protect_warnings_local]).
  assert (Hc : collect_sourcesErrors protection tape0 = mkRun (Returned []) [] tape0).
  { rewrite <- (collect_sourcesErrors_silent protection tape0).
    apply run_eta; [exact Hcollect | apply collect_sourcesErrors_local]. }
  unfold protectAndDownload.
  rewrite (bind_run _ _ _ _ _ _ Hpolled). unfold protect_finish.
  fold protection. fold tape0. rewrite (bind_run _ _ _ _ _ _ Hw).
  rewrite (bind_run _ _ _ _ _ _ Hc).
  rewrite (bind_run _ _ _ _ _ _ (protect_verdict_clean _ tape0 Hstate)).
  unfold tape0 at 2. rewrite (protect_download_run _ _ _ _ _ _ _ _ Haccepted).
  rewrite Hconfig, Hdest.
  unfold prepend. cbn [outcome trace rest app]. rewrite <- ?app_assoc. reflexivity.
Qed.

End Finish.

Lemma errored_protection_is_not_downloaded_witness :
  let tape := answers_with errored_protection in
  let r0 := protect_until_polled plain_env (sample_config []) None tape in
  let r := protectAndDownload plain_env (sample_config []) None tape in
  r = mkRun (Thrown protection_failed)
        (trace r0 ++ [] ++ global_errors errored_protection ++ []) [archive; unzipped]
  /\ calls is_download (trace r) = 0.
Proof.
  cbv zeta.
  set (tape := answers_with errored_protection).
  set (r0 := protect_until_polled plain_env (sample_config []) None tape).
  assert (H0 : r0 = mkRun (Returned (returned_or nothing_polled r0)) (trace r0) (rest r0))
    by reflexivity.
  apply (errored_protection_is_not_downloaded plain_env (sample_config []) None tape
           (returned_or nothing_polled r0) (trace r0) (rest r0) [] H0
           eq_refl eq_refl eq_refl).
Defined.

Lemma finished_protection_is_downloaded_and_unzipped_witness :
  let tape := answers_with finished_clean in
  let r0 := protect_until_polled plain_env (sample_config []) (Some "write") tape in
  protectAndDownload plain_env (sample_config []) (Some "write") tape
  = mkRun (Returned (JStr "p1"))
      (trace r0 ++ []
       ++ [Called (download_protection (JStr "p1"));
           Called (unzip (JStr "PK") (DestCallback "write") (JBool true));
           Console log [Val (JStr "p1")]])
      [].
Proof.
  cbv zeta.
  set (tape := answers_with finished_clean).
  set (r0 := protect_until_polled plain_env (sample_config []) (Some "write") tape).
  assert (H0 : r0 = mkRun (Returned (returned_or nothing_polled r0)) (trace r0)
                      [Resolve (JStr "PK"); Resolve JUndefined])
    by reflexivity.
  assert (Hok : configured
                  [("keys", JObj [("accessKey", JStr "AK"); ("secretKey", JStr "SK")]);
                   ("applicationId", JStr "app"); ("filesDest", JStr "out")]
                  (Some "write"))
    by (repeat split; left; reflexivity).
  apply (finished_protection_is_downloaded_and_unzipped plain_env (sample_config [])
           (Some "write") _ tape (returned_or nothing_polled r0) (trace r0)
           (JStr "PK") JUndefined [] eq_refl Hok H0 eq_refl eq_refl eq_refl eq_refl).
Defined.

(* ================================================================== *)
(** ** The instrumentation of an application *)
(* ================================================================== *)

Section Instrumentation.

Variable env : Env.

Lemma instrument_sources_untouched client finalConfig tape :
  truthy (assoc "skipSources" finalConfig) = true \/ new_sources finalConfig = false ->
  (if negb (truthy (assoc "skipSources" finalConfig)) then
     updateApplicationSources env client (assoc "applicationId" finalConfig)
       (assoc "sources" finalConfig) (filesSrc_of finalConfig) (assoc "cwd" finalConfig)
       JUndefined ;;
     ret tt
   else console log [Lit "Update source files SKIPPED"]) tape
  = mkRun (Returned tt) (skipped_log finalConfig) tape.
Proof.
  unfold skipped_log. intros H.
  destruct (truthy (assoc "skipSources" finalConfig)) eqn:Hskip; [reflexivity |].
  destruct H as [H | Hnew]; [discriminate |].
  unfold new_sources in Hnew. apply orb_false_elim in Hnew as [Hsources Hfiles].
  cbn [negb]. unfold updateApplicationSources. rewrite Hsources, Hfiles.
  reflexivity.
Qed.

Lemma instrument_job_run
    client finalConfig filesDest destCallback e started polled bundled unzipped tape :
  not_found e = true ->
  accepted started ->
  nullish (field started "data") = false ->
  instrumentation_state polled (JStr "FINISHED_INSTRUMENTATION") ->
  accepted bundled ->
  instrument_job env client finalConfig filesDest destCallback
    (Reject e :: Resolve started :: Resolve polled :: Resolve bundled
     :: Resolve unzipped :: tape)
  = mkRun (Returned (field (field polled "data") "id"))
      ([Called (fetch_profiling (assoc "applicationId" finalConfig));
        Called (create_profiling (assoc "applicationId" finalConfig));
        Called (fetch_instrumentation (field (field started "data") "id"))]
       ++ finished_instrumentation_log env (field (field polled "data") "id")
       ++ [Called (instrumented_bundle (field (field polled "data") "id"))]
       ++ debug_log env "Unzipping files"
       ++ [Called (unzip bundled (destination filesDest destCallback)
                     (or_default (assoc "stream" finalConfig) (JBool true)))]
       ++ debug_log env "Finished unzipping files"
       ++ [not_protected_warning; instrumented_line (assoc "applicationId" finalConfig)])
      tape.
Proof.
  intros He Hstarted Hdata Hpolled Hbundled.
  pose proof Hpolled as [Hpdata _].
  assert (Hs : nullish started = false) by (now apply field_nullish in Hdata).
  assert (Hp : nullish polled = false) by (now apply field_nullish in Hpdata).
  unfold accepted in Hstarted, Hbundled.
  unfold instrument_job, startInstrumentation, data_id, downloadApplicationInstrumented,
    finished_instrumentation_log, debug_log.
  cbv zeta.
  rewrite bind_assoc.
  rewrite (bind_run _ _ _ _ _ _ (probe_not_found client _ e _ He)).
  cbn [truthy when]. run. rewrite Hstarted. run.
  rewrite (get_field started), bind_ret by assumption.
  rewrite (get_field (field started "data")), bind_ret by assumption.
  rewrite (bind_run _ _ _ _ _ _
             (pollInstrumentation_finished client _ polled _ Hpolled)).
  repeat first
    [ rewrite (get_field polled) by assumption
    | rewrite (get_field (field polled "data")) by assumption
    | rewrite bind_ret_fun ].
  destruct (debug env); run; rewrite Hbundled; run; reflexivity.
Qed.

(** X23. A run of [instrumentAndDownload] that leaves the sources as they are,
    finds no profiling run, and sees the instrumentation finish at the
    first poll: it creates the profiling run, polls the run the creation
    answered with, downloads the bundle of the run the poll returned and
    hands it to [unzip] with the destination and [stream]; it warns that
    the code is not protected, prints where to go on, and returns the id of
    the polled run. *)
Theorem instrumentAndDownload_returns_the_instrumentation
    (cpo : ConfigArg) (destCallback : option string) (finalConfig : Props)
    (e : Props) (started polled bundled unzipped : JSVal) (tape : list Answer) :
  buildFinalConfig env cpo = inr finalConfig ->
  configured finalConfig destCallback ->
  truthy (assoc "skipSources" finalConfig) = true \/ new_sources finalConfig = false ->
  not_found e = true ->
  accepted started ->
  nullish (field started "data") = false ->
  instrumentation_state polled (JStr "FINISHED_INSTRUMENTATION") ->
  accepted bundled ->
  let applicationId := assoc "applicationId" finalConfig in
  let instrumentationId := field (field polled "data") "id" in
  instrumentAndDownload env cpo destCallback
    (Reject e :: Resolve started :: Resolve polled :: Resolve bundled
     :: Resolve unzipped :: tape)
  = mkRun (Returned instrumentationId)
      (skipped_log finalConfig
       ++ [Called (fetch_profiling applicationId);
           Called (create_profiling applicationId);
           Called (fetch_instrumentation (field (field started "data") "id"))]
       ++ finished_instrumentation_log env instrumentationId
       ++ [Called (instrumented_bundle instrumentationId)]
       ++ debug_log env "Unzipping files"
       ++ [Called (unzip bundled
                     (destination (filesDest_of finalConfig destCallback) destCallback)
                     (or_default (assoc "stream" finalConfig) (JBool true)))]
       ++ debug_log env "Finished unzipping files"
       ++ [not_protected_warning; instrumented_line applicationId])
      tape.
Proof.
  intros Hcfg Hok Hsources He Hstarted Hdata Hpolled Hbundled applicationId
    instrumentationId.
  subst applicationId instrumentationId.
  rewrite (instrumentAndDownload_configured env _ _ _ Hcfg Hok).
  rewrite (bind_run _ _ _ _ _ _ (instrument_sources_untouched _ _ _ Hsources)).
  now rewrite (instrument_job_run _ _ _ _ _ _ _ _ _ _ He Hstarted Hdata Hpolled Hbundled).
Qed.

End Instrumentation.

Lemma instrumentAndDownload_returns_the_instrumentation_witness :
  let polled :=
    JObj [("data", JObj [("id", JStr "run2");
                         ("state", JStr "FINISHED_INSTRUMENTATION")])] in
  instrumentAndDownload plain_env (sample_config []) None
    [no_such_run; Resolve (profiling_run "CREATED"); Resolve polled; archive; unzipped]
  = mkRun (Returned (JStr "run2"))
      [Called (fetch_profiling (JStr "app"));
       Called (create_profiling (JStr "app"));
       Called (fetch_instrumentation (JStr "run1"));
       Called (instrumented_bundle (JStr "run2"));
       Called (unzip (JStr "PK") (DestValue (JStr "out")) (JBool true));
       not_protected_warning;
       instrumented_line (JStr "app")]
      [].
Proof.
  cbv zeta.
  assert (Hok : configured
                  [("keys", JObj [("accessKey", JStr "AK"); ("secretKey", JStr "SK")]);
                   ("applicationId", JStr "app"); ("filesDest", JStr "out")] None)
    by (repeat split; left; reflexivity).
  apply (instrumentAndDownload_returns_the_instrumentation plain_env (sample_config [])
           None _ [("statusCode", JNum 404)] (profiling_run "CREATED")
           (JObj [("data", JObj [("id", JStr "run2");
                                 ("state", JStr "FINISHED_INSTRUMENTATION")])])
           (JStr "PK") JUndefined [] eq_refl Hok (or_intror eq_refl) eq_refl eq_refl
           eq_refl (conj eq_refl eq_refl) eq_refl).
Defined.

(* ================================================================== *)
(** ** The deletion of profiling data *)
(* ================================================================== *)

Section Deletion.

Variable env : Env.

(** X24. [protectAndDownload] deletes profiling data on request only: unless
    the configuration asks for it with [removeProfilingData], no run of the
    workflow makes a [PATCH] call, whatever the service answers. *)
Theorem profiling_data_is_deleted_on_request_only
    (cpo : ConfigArg) (destCallback : option string) (finalConfig : Props)
    (tape : list Answer) :
  buildFinalConfig env cpo = inr finalConfig ->
  truthy (assoc "removeProfilingData" finalConfig) = false ->
  calls is_patch (trace (protectAndDownload env cpo destCallback tape)) = 0.
Proof.
  intros Hcfg Hkeep. apply emits_calls. clear tape. intros tape.
  unfold protectAndDownload, protect_until_polled. rewrite bind_assoc.
  apply emits_bind.
  - unfold protect_until_sources. rewrite Hcfg. cbn [lift]. rewrite bind_ret_fun.
    apply emits_bind; [unfold new_Client; emits_tac | intros client].
    apply emits_bind; [unfold required_options; emits_tac | intros locals].
    apply emits_bind; [| intros source; apply emits_ret].
    unfold protect_sources. rewrite Hkeep.
    destruct (negb (truthy (assoc "skipSources" finalConfig))); [| emits_tac].
    apply emits_bind;
      [unfold getApplicationProfiling, rethrow_unless_404; emits_tac | intros appProfiling].
    rewrite andb_false_r.
    apply emits_bind; [apply emits_ret | intros appProfiling'].
    unfold updateApplicationSources, removeSourceFromApplication, addApplicationSource,
      generate_base64.
    quiet_tac.
  - intros s. eapply emits_weaken; [| apply after_sources_quiet].
    intros [c| |]; cbn; auto. unfold source_stage_call. intros H.
    apply orb_false_elim in H as [H _]. now apply orb_false_elim in H.
Qed.

End Deletion.

Lemma profiling_data_is_deleted_on_request_only_witness :
  let tape := Resolve (profiling_run "READY") :: tl (answers_with finished_clean) in
  outcome (protectAndDownload plain_env (sample_config []) None tape) = Returned (JStr "p1")
  /\ calls is_patch (trace (protectAndDownload plain_env (sample_config []) None tape)) = 0.
Proof.
  cbv zeta. split; [reflexivity |].
  apply (profiling_data_is_deleted_on_request_only plain_env (sample_config []) None _
           (Resolve (profiling_run "READY") :: tl (answers_with finished_clean))
           eq_refl eq_refl).
Defined.

(* ================================================================== *)
(** ** Debugging *)
(* ================================================================== *)

Lemma silent_effects_app tr1 tr2 :
  silent_effects (tr1 ++ tr2) = silent_effects tr1 ++ silent_effects tr2.
Proof. unfold silent_effects. apply filter_app. Qed.

Lemma print_alike_refl {A} (m : M A) : print_alike m m.
Proof. intros tape. repeat split. Qed.

Lemma print_alike_bind {A B} (m1 m2 : M A) (f1 f2 : A -> M B) :
  print_alike m1 m2 -> (forall a, print_alike (f1 a) (f2 a)) ->
  print_alike (bind m1 f1) (bind m2 f2).
Proof.
  intros Hm Hf tape. destruct (Hm tape) as (Hout & Hrest & Htrace).
  unfold bind, same_but_console. rewrite <- Hout, <- Hrest.
  destruct (outcome (m1 tape)) as [a| | |]; cbn [outcome trace rest];
    try (repeat split; assumption).
  destruct (Hf a (rest (m1 tape))) as (Hout' & Hrest' & Htrace').
  repeat split; try assumption.
  now rewrite !silent_effects_app, Htrace, Htrace'.
Qed.

Lemma print_alike_when b (m1 m2 : M unit) :
  print_alike m1 m2 -> print_alike (when b m1) (when b m2).
Proof. intros H. destruct b; [exact H | apply print_alike_refl]. Qed.

Lemma print_alike_when_console b1 b2 l t :
  print_alike (when b1 (console l t)) (when b2 (console l t)).
Proof. intros tape. destruct b1, b2; repeat split. Qed.

Lemma print_alike_when_consoles b1 b2 l1 t1 l2 t2 :
  print_alike (when b1 (console l1 t1 ;; console l2 t2))
              (when b2 (console l1 t1 ;; console l2 t2)).
Proof. intros tape. destruct b1, b2; repeat split. Qed.

Lemma print_alike_when_data_id {B} b1 b2 instrumentation
    (line : JSVal -> Text) (k1 k2 : JSVal -> M B) :
  (forall id, print_alike (k1 id) (k2 id)) ->
  print_alike
    (when b1 (id <- data_id instrumentation ;; console log (line id)) ;;
     id <- data_id instrumentation ;; k1 id)
    (when b2 (id <- data_id instrumentation ;; console log (line id)) ;;
     id <- data_id instrumentation ;; k2 id).
Proof.
  intros Hk tape. unfold data_id, get.
  destruct (nullish instrumentation);
    [destruct b1, b2; repeat split |].
  cbn [when]. rewrite !bind_ret_fun.
  destruct (nullish (field instrumentation "data"));
    [destruct b1, b2; repeat split |].
  destruct (Hk (field (field instrumentation "data") "id") tape)
    as (Hout & Hrest & Htrace).
  destruct b1, b2; cbn [when]; unfold console; rewrite ?bind_emit, ?bind_ret;
    unfold prepend, same_but_console; cbn [outcome trace rest app silent_effects filter];
    repeat split; assumption.
Qed.

Lemma buildFinalConfig_same_but_debug env1 env2 cpo :
  same_but_debug env1 env2 -> buildFinalConfig env1 cpo = buildFinalConfig env2 cpo.
Proof.
  intros [Hconfig Hrequire]. destruct cpo as [path | o]; cbn [buildFinalConfig].
  - now rewrite Hrequire, Hconfig.
  - now rewrite Hconfig.
Qed.

(** Splits a goal [print_alike m1 m2] along the common structure of the two
    computations. *)
Ltac print_alike_step :=
  lazymatch goal with
  | |- print_alike ?m1 ?m2 =>
      first
        [ constr_eq m1 m2; apply print_alike_refl
        | lazymatch m1 with
          | when _ (console _ _) => apply print_alike_when_console
          | when _ (bind (console _ _) _) => apply print_alike_when_consoles
          | bind (when _ (bind (data_id _) _)) _ =>
              apply print_alike_when_data_id; intros ?
          | when _ _ => apply print_alike_when
          | bind _ _ => apply print_alike_bind; [| intros ?]
          | if ?b then _ else _ => destruct b
          | match ?x with _ => _ end => destruct x
          end ]
  end.

Ltac print_alike_tac := repeat print_alike_step.

(** X25. [DEBUG] only adds lines to the console: in two environments that
    differ at most in [DEBUG], [protectAndDownload], [instrumentAndDownload]
    and [updateApplicationSources] end the same way on the same answers,
    consume the same answers, and make the same calls and the same
    suspensions in the same order. *)
Theorem debugging_only_adds_console_lines
    (env1 env2 : Env) (cpo : ConfigArg) (destCallback : option string)
    (client : Client) (applicationId sources filesSrc cwd appProfiling : JSVal)
    (tape : list Answer) :
  same_but_debug env1 env2 ->
  same_but_console (protectAndDownload env1 cpo destCallback tape)
                   (protectAndDownload env2 cpo destCallback tape)
  /\ same_but_console (instrumentAndDownload env1 cpo destCallback tape)
                      (instrumentAndDownload env2 cpo destCallback tape)
  /\ same_but_console
       (updateApplicationSources env1 client applicationId sources filesSrc cwd
          appProfiling tape)
       (updateApplicationSources env2 client applicationId sources filesSrc cwd
          appProfiling tape).
Proof.
  intros Henv.
  assert (Hupdate : forall client applicationId sources filesSrc cwd appProfiling,
    print_alike
      (updateApplicationSources env1 client applicationId sources filesSrc cwd appProfiling)
      (updateApplicationSources env2 client applicationId sources filesSrc cwd
         appProfiling)).
  { clear. intros. unfold updateApplicationSources. print_alike_tac. }
  pose proof (buildFinalConfig_same_but_debug env1 env2 cpo Henv) as Hcfg.
  split; [| split; [| apply Hupdate]]; revert tape.
  - change (print_alike (protectAndDownload env1 cpo destCallback)
                        (protectAndDownload env2 cpo destCallback)).
    unfold protectAndDownload, protect_until_polled, protect_until_sources,
      protect_sources, protect_job, protect_parameters, protect_create, protect_finish,
      protect_warnings, protect_download.
    rewrite Hcfg. cbv zeta.
    repeat first
      [ lazymatch goal with
        | |- print_alike (updateApplicationSources _ _ _ _ _ _ _) _ => apply Hupdate
        end
      | print_alike_step ].
  - change (print_alike (instrumentAndDownload env1 cpo destCallback)
                        (instrumentAndDownload env2 cpo destCallback)).
    unfold instrumentAndDownload. rewrite Hcfg. cbv zeta.
    repeat first
      [ lazymatch goal with
        | |- print_alike (updateApplicationSources _ _ _ _ _ _ _) _ => apply Hupdate
        end
      | print_alike_step ].
Qed.

Lemma debugging_only_adds_console_lines_witness :
  let tape := answers_with_update finished_clean in
  let cpo := sample_config [("params", JObj [("stringsEncoding", JObj [])])] in
  let quiet_run := protectAndDownload plain_env cpo None tape in
  let debug_run := protectAndDownload debug_env cpo None tape in
  same_but_debug debug_env plain_env
  /\ same_but_console debug_run quiet_run
  /\ outcome quiet_run = Returned (JStr "p1")
  /\ length (trace quiet_run) < length (trace debug_run).
Proof.
  cbv zeta.
  assert (Henv : same_but_debug debug_env plain_env) by (split; reflexivity).
  split; [exact Henv |]. split.
  - apply (debugging_only_adds_console_lines debug_env plain_env
             (sample_config [("params", JObj [("stringsEncoding", JObj [])])]) None
             JUndefined JUndefined JUndefined JUndefined JUndefined JUndefined
             (answers_with_update finished_clean) Henv).
  - split; [reflexivity |]. vm_compute. repeat constructor.
Defined.

(* ================================================================== *)
(** ** A refused update of the parameters *)
(* ================================================================== *)

Section RefusedUpdate.

Variable env : Env.

(** X26. No job is created after a refused update of the parameters.  Take a
    run of [protectAndDownload] that has dealt with the sources and whose
    configuration makes it update the parameters: when the answer to the
    update is one [errorHandler] refuses, the workflow fails with what the
    handler throws, right after the update call, and it has made no
    [createApplicationProtection] call. *)
Theorem refused_update_creates_no_job
    (cpo : ConfigArg) (destCallback : option string) (tape : list Answer)
    (s : Prepared) (before : list Event)
    (applicationUpdate refused : JSVal) (e : Exn) (printed : list Event)
    (tape' : list Answer) :
  protect_until_sources env cpo destCallback tape
  = mkRun (Returned s) before (Resolve applicationUpdate :: Resolve refused :: tape') ->
  supplied (prepared_config s) = true ->
  errorHandler refused tape' = mkRun (Thrown e) printed tape' ->
  let r := protectAndDownload env cpo destCallback tape in
  (exists updateData,
     r = mkRun (Thrown e)
           (before ++ debug_log env "Updating parameters of protection"
            ++ [Called (intoObjectType (JObj updateData) "Application");
                Called (update_application applicationUpdate)]
            ++ update_answered_log env refused ++ printed)
           tape')
  /\ calls is_createApplicationProtection (trace r) = 0.
Proof.
  intros Hprefix Hsupplied Hrefused r.
  destruct (build_updateData_returns (prepared_config s)) as (updateData & Hud & Hchanged).
  assert (Hbefore : calls is_createApplicationProtection before = 0).
  { pose proof (emits_calls is_createApplicationProtection _
                  (emits_weaken _ _ _
                     (fun ev H => quiet_either_l _ _ _ (quiet_either_r _ _ _ H))
                     (protect_until_sources_quiet env cpo destCallback)) tape) as H.
    now rewrite Hprefix in H. }
  assert (Hprinted : calls is_createApplicationProtection printed = 0).
  { pose proof (emits_calls is_createApplicationProtection _
                  (emits_errorHandler is_createApplicationProtection refused) tape') as H.
    now rewrite Hrefused in H. }
  assert (Hr : r = mkRun (Thrown e)
                     (before ++ debug_log env "Updating parameters of protection"
                      ++ [Called (intoObjectType (JObj updateData) "Application");
                          Called (update_application applicationUpdate)]
                      ++ update_answered_log env refused ++ printed)
                     tape').
  { assert (Hjob :
      bind (protect_job env s) (fun p => protect_finish env p destCallback)
        (Resolve applicationUpdate :: Resolve refused :: tape')
      = mkRun (Thrown e)
          (debug_log env "Updating parameters of protection"
           ++ [Called (intoObjectType (JObj updateData) "Application");
               Called (update_application applicationUpdate)]
           ++ update_answered_log env refused ++ printed)
          tape').
    { apply bind_run_thrown. unfold protect_job. cbv zeta.
      apply bind_run_thrown. unfold protect_parameters.
      rewrite Hud, bind_ret, Hchanged, Hsupplied. cbn [when].
      apply bind_run_thrown.
      unfold updateApplication, update_application, debug_log, update_answered_log.
      destruct (debug env); run;
        rewrite (bind_run_thrown _ _ _ _ _ _ Hrefused); reflexivity. }
    subst r. unfold protectAndDownload, protect_until_polled.
    rewrite bind_assoc, (bind_run _ _ _ _ _ _ Hprefix), Hjob. reflexivity. }
  split; [now exists updateData |].
  rewrite Hr. cbn [trace]. rewrite !calls_app, Hbefore, Hprinted.
  unfold debug_log, update_answered_log. now destruct (debug env).
Qed.

End RefusedUpdate.

Lemma refused_update_creates_no_job_witness :
  let cpo := sample_config [("params", JObj [("stringsEncoding", JObj [])])] in
  let tape := [no_such_run; Resolve (JStr "typed");
               Resolve (JObj [("message", JStr "Invalid parameter")]); ok] in
  let r := protectAndDownload plain_env cpo None tape in
  outcome r = Thrown (Error [Lit "Error: "; Val (JStr "Invalid parameter")])
  /\ rest r = [ok]
  /\ calls is_updateApplication (trace r) = 1
  /\ calls is_createApplicationProtection (trace r) = 0.
Proof.
  cbv zeta.
  set (cpo := sample_config [("params", JObj [("stringsEncoding", JObj [])])]).
  set (tape := [no_such_run; Resolve (JStr "typed");
                Resolve (JObj [("message", JStr "Invalid parameter")]); ok]).
  set (r0 := protect_until_sources plain_env cpo None tape).
  assert (H0 : r0 = mkRun (Returned (returned_or nothing_prepared r0)) (trace r0)
                      [Resolve (JStr "typed");
                       Resolve (JObj [("message", JStr "Invalid parameter")]); ok])
    by reflexivity.
  destruct (refused_update_creates_no_job plain_env cpo None tape
              (returned_or nothing_prepared r0) (trace r0) (JStr "typed")
              (JObj [("message", JStr "Invalid parameter")])
              (Error [Lit "Error: "; Val (JStr "Invalid parameter")]) [] [ok]
              H0 eq_refl eq_refl)
    as [(updateData & Hr) Hnone].
  split; [now rewrite Hr |]. split; [now rewrite Hr |].
  split; [reflexivity | exact Hnone].
Defined.

(* ================================================================== *)
(** ** The errors of the sources *)
(* ================================================================== *)

Lemma assoc_set_new k v (ps : Props) :
  ~ In k (map fst ps) -> assoc_set k v ps = ps ++ [(k, v)].
Proof.
  induction ps as [|[k0 v0] ps IH]; cbn [assoc_set map fst In app]; [reflexivity |].
  intros H. destruct (String.eqb_spec k0 k) as [-> | _].
  - exfalso. apply H. now left.
  - rewrite IH; [reflexivity |]. intros Hin. apply H. now right.
Qed.

Lemma assoc_spread_new (a b : Props) :
  NoDup (map fst b) -> (forall k, In k (map fst b) -> ~ In k (map fst a)) ->
  assoc_spread a b = a ++ b.
Proof.
  unfold assoc_spread. intros Hb. revert a.
  induction b as [|[k v] b IH]; intros a Hnew; cbn [fold_left fst snd].
  - now rewrite app_nil_r.
  - inversion Hb as [|? ? Hk Hb']; subst.
    rewrite assoc_set_new by (apply Hnew; now left).
    rewrite IH; [now rewrite <- app_assoc | assumption |].
    intros k' Hin. rewrite map_app, in_app_iff. cbn [map fst In].
    intros [Ha | [<- | []]]; [| contradiction].
    apply (Hnew k'); [now right | assumption].
Qed.

Lemma collect_one_source (sourcesErrors : list JSVal) (s : JSVal) :
  reports_a_list s ->
  (errorMessages <- get s "errorMessages" ;;
   if truthy errorMessages then
     match gt_zero (field errorMessages "length") with
     | None => unmodelled
     | Some false => ret sourcesErrors
     | Some true =>
         messages <- as_array errorMessages "map" ;;
         ret (sourcesErrors
              ++ map (fun e => JObj (assoc_spread [("filename", field s "filename")]
                                                  (own_props e)))
                     messages)
     end
   else ret sourcesErrors)
  = ret (sourcesErrors ++ map (tagged s) (error_messages s)).
Proof.
  intros [Hs Hlist]. rewrite get_field by assumption. rewrite bind_ret_fun.
  unfold error_messages.
  destruct Hlist as [Hnone | Harray].
  - rewrite Hnone.
    destruct (field s "errorMessages"); try discriminate; now rewrite app_nil_r.
  - destruct (field s "errorMessages") as [| | | | |[|e messages]| |]; try discriminate.
    + cbn. now rewrite app_nil_r.
    + reflexivity.
Qed.

Lemma collect_sources (sources : list JSVal) :
  Forall reports_a_list sources ->
  forall sourcesErrors,
    fold_m sources sourcesErrors
      (fun sourcesErrors s =>
         errorMessages <- get s "errorMessages" ;;
         if truthy errorMessages then
           match gt_zero (field errorMessages "length") with
           | None => unmodelled
           | Some false => ret sourcesErrors
           | Some true =>
               messages <- as_array errorMessages "map" ;;
               ret (sourcesErrors
                    ++ map (fun e => JObj (assoc_spread [("filename", field s "filename")]
                                                        (own_props e)))
                           messages)
           end
         else ret sourcesErrors)
    = ret (sourcesErrors
           ++ flat_map (fun s => map (tagged s) (error_messages s)) sources).
Proof.
  induction 1 as [|s sources Hs _ IH]; intros sourcesErrors; cbn [fold_m flat_map].
  - now rewrite app_nil_r.
  - rewrite (collect_one_source sourcesErrors s Hs), bind_ret_fun, IH.
    now rewrite <- app_assoc.
Qed.

(** X27. The errors [protectAndDownload] gathers from a polled protection are
    the error messages of its sources, source after source and in the
    order each source lists them, each one with the name of its source; a
    source without error messages, or with an empty list of them, adds
    nothing.  An error message that has no [filename] of its own gets the
    one of its source beside its own properties; one that has a [filename]
    keeps it. *)
Theorem source_errors_are_gathered_in_order (protection : JSVal) (sources : list JSVal) :
  field protection "sources" = JArr sources ->
  Forall reports_a_list sources ->
  collect_sourcesErrors protection
  = ret (flat_map (fun s => map (tagged s) (error_messages s)) sources)
  /\ (forall s e k,
        NoDup (map fst e) -> ~ In "filename" (map fst e) ->
        field (tagged s (JObj e)) k
        = if String.eqb "filename" k then field s "filename" else assoc k e)
  /\ (forall s e,
        NoDup (map fst e) -> defined (assoc "filename" e) = true ->
        field (tagged s (JObj e)) "filename" = assoc "filename" e).
Proof.
  intros Hsources Hlists. repeat split.
  - assert (Hnull : nullish protection = false)
      by (apply field_nullish with (k := "sources"); now rewrite Hsources).
    unfold collect_sourcesErrors. rewrite get_field by assumption.
    rewrite bind_ret_fun, Hsources. cbn [as_array]. rewrite bind_ret_fun.
    now rewrite (collect_sources sources Hlists []).
  - intros s e k Hunique Hnone. unfold tagged. cbn [own_props].
    rewrite assoc_spread_new; [reflexivity | assumption |].
    intros k' Hin [<- | []]. contradiction.
  - intros s e Hunique Hown. unfold tagged. cbn [own_props field].
    now apply assoc_spread_defined.
Qed.

Lemma source_errors_are_gathered_in_order_witness :
  collect_sourcesErrors
    (JObj [("sources",
            JArr [JObj [("filename", JStr "a.js");
                        ("errorMessages",
                         JArr [JObj [("message", JStr "x")];
                               JObj [("message", JStr "y"); ("filename", JStr "b.js")]])];
                  JObj [("filename", JStr "c.js"); ("errorMessages", JArr [])];
                  JObj [("filename", JStr "d.js")]])])
  = ret [JObj [("filename", JStr "a.js"); ("message", JStr "x")];
         JObj [("filename", JStr "b.js"); ("message", JStr "y")]].
Proof.
  refine (proj1
    (source_errors_are_gathered_in_order
       (JObj [("sources",
               JArr [JObj [("filename", JStr "a.js");
                           ("errorMessages",
                            JArr [JObj [("message", JStr "x")];
                                  JObj [("message", JStr "y");
                                        ("filename", JStr "b.js")]])];
                     JObj [("filename", JStr "c.js"); ("errorMessages", JArr [])];
                     JObj [("filename", JStr "d.js")]])])
       _ eq_refl _)).
  constructor; [split; [reflexivity | right; reflexivity] |].
  constructor; [split; [reflexivity | right; reflexivity] |].
  constructor; [split; [reflexivity | left; reflexivity] | constructor].
Defined.
